(** * Bank accounts over a database: the request handlers of [app.py]

    A shallow embedding of the Flask handlers [create_account],
    [get_balance], [deposit] and [withdraw] and of the [Account] model of
    [models.py], together with the parts of the Python runtime they rely on:
    [str], [decimal.Decimal] (construction from text, comparisons,
    [as_tuple]) and binary64 [float] arithmetic.

    Modelling conventions.
    - Text is ASCII: a character is an [ascii], and only the ASCII digits and
      the ASCII white space are recognised by [Decimal]; the bounds the C
      implementation of [decimal] puts on exponents are left out.
    - A [float] is a [spec_float] of the Standard Library, operated on at
      precision 53 and maximal exponent 1024 (IEEE 754 binary64, rounding to
      nearest, ties to even).
    - The table [accounts] is the list of its rows in insertion order, with
      the sequence that feeds the primary key; its unique constraint on
      [account_number] makes the commit of a second row with a number raise.
    - A request body is a JSON object or is absent ([None], what
      [request.get_json()] hands over for [null]); the body of
      [POST /accounts] holds a number under "balance" or nothing.  Bodies of
      another JSON kind and balances that are not numbers, on which the
      handlers or the database driver raise, are left out; so are the integer
      balances beyond the range of double precision, which the store refuses
      (see [storable]).
    - The draw of [random.randint] is an argument of [create_account].
    - An exception that leaves a handler ends the request (HTTP 500) and
      commits nothing. *)

From Stdlib Require Import ZArith QArith List String Ascii Bool Lia.
From Stdlib Require Import SpecFloat DecimalString DecimalPos.
Import ListNotations.

Local Open Scope string_scope.
Local Open Scope Z_scope.

(** ** Control flow of a handler

    A handler body either goes on to its next statement with a value,
    returns a response early, or raises an exception nobody catches. *)

Inductive exn : Set :=
| InvalidOperation   (* decimal.InvalidOperation *)
| TypeError
| ValueError
| IntegrityError.    (* sqlalchemy.exc.IntegrityError *)

Inductive flow (R A : Type) : Type :=
| Next (a : A)
| Return (r : R)
| Raise (e : exn).

Arguments Next {R A} a.
Arguments Return {R A} r.
Arguments Raise {R A} e.

Definition bind {R A B} (m : flow R A) (k : A -> flow R B) : flow R B :=
  match m with
  | Next a => k a
  | Return r => Return r
  | Raise e => Raise e
  end.

Notation "x <- m ;; k" := (bind m (fun x => k))
  (at level 61, m at next level, right associativity).
Notation "m ;;; k" := (bind m (fun _ => k))
  (at level 61, right associativity).

(** [if c: return r] *)
Definition return_if {R} (c : bool) (r : R) : flow R unit :=
  if c then Return r else Next tt.

(** ** Characters and numerals *)

Definition code (c : ascii) : N := N_of_ascii c.

Definition is_digit (c : ascii) : bool :=
  ((48 <=? code c) && (code c <=? 57))%N.

(** White space as [str.strip] sees it, within ASCII. *)
Definition is_space (c : ascii) : bool :=
  (((9 <=? code c) && (code c <=? 13)) || ((28 <=? code c) && (code c <=? 32)))%N.

Definition lower (c : ascii) : ascii :=
  if ((65 <=? code c) && (code c <=? 90))%N then ascii_of_N (code c + 32) else c.

Definition digit_value (c : ascii) : N := (code c - 48)%N.

(** [int(ds)] for a run of digits; the empty run counts as 0. *)
Definition int_of_digits (ds : list ascii) : N :=
  fold_left (fun acc c => 10 * acc + digit_value c)%N ds 0%N.

Fixpoint span_digits (l : list ascii) : list ascii * list ascii :=
  match l with
  | c :: l' =>
      if is_digit c then let '(ds, r) := span_digits l' in (c :: ds, r)
      else ([], l)
  | [] => ([], [])
  end.

Fixpoint lstrip (l : list ascii) : list ascii :=
  match l with
  | c :: l' => if is_space c then lstrip l' else l
  | [] => []
  end.

Definition strip (l : list ascii) : list ascii :=
  rev (lstrip (rev (lstrip l))).

Definition is_underscore (c : ascii) : bool := (code c =? 95)%N.

(** [str(n)] for an [int]. *)
Definition str_of_int (z : Z) : string := NilZero.string_of_int (Z.to_int z).

(** ** [decimal.Decimal] *)

Inductive Decimal : Set :=
| DFinite (sign : bool) (coefficient : N) (exponent : Z)
| DInfinity (sign : bool)
| DNaN (sign : bool) (signaling : bool) (payload : N).

(** What [as_tuple().exponent] holds: an [int] for a finite number, the
    [str] 'F', 'n' or 'N' for the special values. *)
Inductive exponent_field : Set :=
| ExpInt (e : Z)
| ExpStr (tag : string).

Definition as_tuple_exponent (d : Decimal) : exponent_field :=
  match d with
  | DFinite _ _ e => ExpInt e
  | DInfinity _ => ExpStr "F"
  | DNaN _ false _ => ExpStr "n"
  | DNaN _ true _ => ExpStr "N"
  end.

Definition Decimal_of_int (z : Z) : Decimal :=
  DFinite (z <? 0) (Z.abs_N z) 0.

(** *** Construction from text: [Decimal(s)]

    The text is stripped, underscores are dropped, and what remains has to
    match, whatever the case of its letters,
    [[sign] (digits [. digits] | . digits) [E [sign] digits]], or
    [[sign] Inf[inity]], or [[sign] [s]NaN [digits]].  Anything else is a
    [decimal.InvalidOperation], rendered by [None]. *)

Definition parse_sign (l : list ascii) : bool * list ascii :=
  match l with
  | "-"%char :: r => (true, r)
  | "+"%char :: r => (false, r)
  | _ => (false, l)
  end.

Definition parse_exponent (l : list ascii) : option Z :=
  match l with
  | [] => Some 0
  | c :: r =>
      if (code (lower c) =? 101)%N then
        let '(s, r1) := parse_sign r in
        let '(ds, r2) := span_digits r1 in
        match ds, r2 with
        | _ :: _, [] =>
            Some (if s then - Z.of_N (int_of_digits ds) else Z.of_N (int_of_digits ds))
        | _, _ => None
        end
      else None
  end.

Definition parse_number (sign : bool) (l : list ascii) : option Decimal :=
  let '(intpart, r1) := span_digits l in
  let '(fracpart, r2) :=
    match r1 with
    | "."%char :: r => span_digits r
    | _ => ([], r1)
    end in
  match (intpart ++ fracpart)%list with
  | [] => None
  | _ :: _ =>
      match parse_exponent r2 with
      | Some exp =>
          Some (DFinite sign (int_of_digits (intpart ++ fracpart)%list)
                  (exp - Z.of_nat (List.length fracpart)))
      | None => None
      end
  end.

Definition parse_special (sign : bool) (l : list ascii) : option Decimal :=
  let low := string_of_list_ascii (map lower l) in
  if (low =? "inf")%string || (low =? "infinity")%string then Some (DInfinity sign)
  else
    let '(signaling, r) :=
      match map lower l with
      | "s"%char :: r => (true, r)
      | r => (false, r)
      end in
    match r with
    | "n"%char :: "a"%char :: "n"%char :: diag =>
        match span_digits diag with
        | (ds, []) => Some (DNaN sign signaling (int_of_digits ds))
        | _ => None
        end
    | _ => None
    end.

Definition Decimal_of_str (s : string) : option Decimal :=
  let l := filter (fun c => negb (is_underscore c)) (strip (list_ascii_of_string s)) in
  let '(sign, r) := parse_sign l in
  match r with
  | c :: r' =>
      if is_digit c || (code c =? 46)%N then parse_number sign r
      else parse_special sign r
  | [] => None
  end.

(** *** Comparisons

    [cmp] orders two numbers that are not NaN by their values; an infinity
    is beyond every finite number. *)

Definition signed_coefficient (sign : bool) (c : N) : Z :=
  if sign then - Z.of_N c else Z.of_N c.

Definition cmp (a b : Decimal) : comparison :=
  match a, b with
  | DFinite sa ca ea, DFinite sb cb eb =>
      let e := Z.min ea eb in
      Z.compare (signed_coefficient sa ca * 10 ^ (ea - e))
                (signed_coefficient sb cb * 10 ^ (eb - e))
  | DInfinity sa, DInfinity sb =>
      match sa, sb with
      | true, false => Lt
      | false, true => Gt
      | _, _ => Eq
      end
  | DInfinity sa, _ => if sa then Lt else Gt
  | _, DInfinity sb => if sb then Gt else Lt
  | _, _ => Eq
  end.

Definition is_nan (d : Decimal) : bool :=
  match d with DNaN _ _ _ => true | _ => false end.

Definition is_snan (d : Decimal) : bool :=
  match d with DNaN _ true _ => true | _ => false end.

(** [a < b] and [a > b]: an ordering comparison with any NaN signals
    [InvalidOperation], which the default context traps. *)
Definition dec_lt {R} (a b : Decimal) : flow R bool :=
  if is_nan a || is_nan b then Raise InvalidOperation
  else Next (match cmp a b with Lt => true | _ => false end).

Definition dec_gt {R} (a b : Decimal) : flow R bool :=
  if is_nan a || is_nan b then Raise InvalidOperation
  else Next (match cmp a b with Gt => true | _ => false end).

(** [a == b]: a quiet NaN equals nothing, a signaling NaN raises. *)
Definition dec_eq {R} (a b : Decimal) : flow R bool :=
  if is_snan a || is_snan b then Raise InvalidOperation
  else if is_nan a || is_nan b then Next false
  else Next (match cmp a b with Eq => true | _ => false end).

(** [d.as_tuple().exponent < n]: [str < int] is a [TypeError]. *)
Definition exponent_lt {R} (x : exponent_field) (n : Z) : flow R bool :=
  match x with
  | ExpInt e => Next (e <? n)
  | ExpStr _ => Raise TypeError
  end.

(** ** [float]: IEEE 754 binary64 *)

Definition prec : Z := 53.
Definition emax : Z := 1024.

Definition fadd : spec_float -> spec_float -> spec_float := SFadd prec emax.
Definition fsub : spec_float -> spec_float -> spec_float := SFsub prec emax.
Definition flt : spec_float -> spec_float -> bool := SFltb.
Definition fle : spec_float -> spec_float -> bool := SFleb.

Definition fzero : spec_float := S754_zero false.

(** The double nearest to an integer. *)
Definition float_of_int (z : Z) : spec_float :=
  binary_normalize prec emax z 0 false.

(** The double nearest to [n / d], for positive [n] and [d], with sign [s]. *)
Definition float_of_ratio (s : bool) (n d : Z) : spec_float :=
  let '(q, e, l) := SFdiv_core_binary prec emax n 0 d 0 in
  binary_round_aux prec emax s q e l.

(** [float(d)] for a [Decimal]: the double nearest to its value. *)
Definition float_of_Decimal {R} (d : Decimal) : flow R spec_float :=
  match d with
  | DFinite s c e =>
      Next (if (c =? 0)%N then S754_zero s
            else if 0 <=? e
                 then binary_normalize prec emax (signed_coefficient s c * 10 ^ e) 0 false
                 else float_of_ratio s (Z.of_N c) (10 ^ (- e)))
  | DInfinity s => Next (S754_infinity s)
  | DNaN _ false _ => Next S754_nan
  | DNaN _ true _ => Raise ValueError
  end.

Definition float_same (x y : spec_float) : bool :=
  match x, y with
  | S754_zero a, S754_zero b => Bool.eqb a b
  | S754_infinity a, S754_infinity b => Bool.eqb a b
  | S754_nan, S754_nan => true
  | S754_finite a m e, S754_finite b n f =>
      Bool.eqb a b && (m =? n)%positive && (e =? f)
  | _, _ => false
  end.

(** *** [repr] of a [float]

    The shortest run of decimal digits that reads back as the same double
    (the nearest to it among the shortest), laid out as Python does: plain
    notation when the decimal point falls within [-4 < decpt <= 16], else
    scientific notation. *)

Section Repr.
(** The value is [num / den]. *)
Variables num den : Z.

(** [10 ^ k <= num / den] *)
Definition reaches (k : Z) : bool :=
  if 0 <=? k then den * 10 ^ k <=? num else den <=? num * 10 ^ (- k).

(** [floor (log10 (num / den))] *)
Definition decimal_order : Z :=
  let k0 := (Z.log2 num - Z.log2 den) * 30103 / 100000 in
  if reaches (k0 + 1) then k0 + 1 else if reaches k0 then k0 else k0 - 1.

(** The two numerals [c * 10 ^ x] around the value, the nearer one first
    (on a tie, the even one). *)
Definition neighbours (x : Z) : Z * Z :=
  let n := if 0 <=? x then num else num * 10 ^ (- x) in
  let d := if 0 <=? x then den * 10 ^ x else den in
  let q := n / d in
  let r := n mod d in
  match 2 * r ?= d with
  | Lt => (q, q + 1)
  | Gt => (q + 1, q)
  | Eq => if Z.even q then (q, q + 1) else (q + 1, q)
  end.
End Repr.

Definition reads_back (f : spec_float) (c x : Z) : bool :=
  match float_of_Decimal (R := unit) (DFinite false (Z.to_N c) x) with
  | Next g => float_same g (SFabs f)
  | _ => false
  end.

(** Search with 1, 2, ... digits; 17 always suffice. *)
Fixpoint shortest (f : spec_float) (num den k : Z) (n : Z) (fuel : nat) : Z * Z :=
  let x := k - n + 1 in
  let '(c1, c2) := neighbours num den x in
  match fuel with
  | O => (c1, x)
  | S fuel' =>
      if reads_back f c1 x then (c1, x)
      else if reads_back f c2 x then (c2, x)
      else shortest f num den k (n + 1) fuel'
  end.

Definition zeros (n : Z) : string :=
  string_of_list_ascii (repeat "0"%char (Z.to_nat n)).

Fixpoint strip_zeros (fuel : nat) (c x : Z) : Z * Z :=
  match fuel with
  | O => (c, x)
  | S fuel' =>
      if (0 <? c) && (c mod 10 =? 0) then strip_zeros fuel' (c / 10) (x + 1)
      else (c, x)
  end.

Definition layout (c x : Z) : string :=
  let ds := str_of_int c in
  let len := Z.of_nat (String.length ds) in
  let decpt := len + x in
  if (-4 <? decpt) && (decpt <=? 16) then
    if decpt <=? 0 then "0." ++ zeros (- decpt) ++ ds
    else if len <=? decpt then ds ++ zeros (decpt - len) ++ ".0"
    else substring 0 (Z.to_nat decpt) ds ++ "."
         ++ substring (Z.to_nat decpt) (Z.to_nat (len - decpt)) ds
  else
    let e := decpt - 1 in
    let es := str_of_int (Z.abs e) in
    substring 0 1 ds
    ++ (if 1 <? len then "." ++ substring 1 (Z.to_nat (len - 1)) ds else "")
    ++ "e" ++ (if e <? 0 then "-" else "+")
    ++ (if Z.abs e <? 10 then "0" ++ es else es).

Definition float_repr (f : spec_float) : string :=
  match f with
  | S754_nan => "nan"
  | S754_infinity s => if s then "-inf" else "inf"
  | S754_zero s => if s then "-0.0" else "0.0"
  | S754_finite s m e =>
      let num := Zpos m * 2 ^ Z.max e 0 in
      let den := 2 ^ Z.max (- e) 0 in
      let '(c, x) := shortest f num den (decimal_order num den) 1 17 in
      let '(c, x) := strip_zeros 20 c x in
      (if s then "-" else "") ++ layout c x
  end.

(** ** JSON values, as [request.get_json()] hands them over

    An array or an object carries the text Python prints between its
    brackets; the handlers only ever look at [str] of such a value. *)

Inductive number : Set :=
| NInt (z : Z)
| NFloat (f : spec_float).

Inductive json : Set :=
| JNull
| JBool (b : bool)
| JNumber (n : number)
| JString (s : string)
| JArray (items : string)
| JObject (items : string).

(** [str(v)] *)
Definition py_str (v : json) : string :=
  match v with
  | JNull => "None"
  | JBool true => "True"
  | JBool false => "False"
  | JNumber (NInt z) => str_of_int z
  | JNumber (NFloat f) => float_repr f
  | JString s => s
  | JArray items => "[" ++ items ++ "]"
  | JObject items => "{" ++ items ++ "}"
  end.

(** A JSON object: its keys with their values. *)
Definition object : Set := list (string * json).

(** [data.get(key)] *)
Fixpoint get (key : string) (data : object) : option json :=
  match data with
  | (k, v) :: data' => if (k =? key)%string then Some v else get key data'
  | [] => None
  end.

(** The body of [POST /accounts]: [{"balance"?: number}]. *)
Record create_body : Set := { body_balance : option number }.

(** ** [models.py]: the table [accounts] *)

Module models.
Record Account : Set := {
  id : Z;                    (* Column(Integer, primary_key=True, autoincrement=True) *)
  account_number : string;   (* Column(String, unique=True, nullable=False) *)
  balance : spec_float       (* Column(Float, default=0.0) *)
}.
End models.
Import models.

Record store : Set := {
  rows : list Account;
  next_id : Z
}.

Definition initial_store : store := {| rows := []; next_id := 1 |}.

(** What a [Float] column holds for a number: an integer is converted to
    double precision, and a zero is held as 0.0 whatever its sign (the
    driver writes the negative zero as the literal [-0.0], which PostgreSQL
    reads as a numeric zero). *)
Definition column_Float (n : number) : spec_float :=
  match n with
  | NInt z => float_of_int z
  | NFloat (S754_zero _) => S754_zero false
  | NFloat f => f
  end.

(** [db.query(Account).filter_by(account_number=n).first()] *)
Definition query_first (st : store) (n : string) : option Account :=
  find (fun a => (account_number a =? n)%string) (rows st).

(** [db.add(Account(...)); db.commit(); db.refresh(...)]: the row gets the
    next value of the sequence.  A row with the same [account_number] breaks
    the unique constraint: nothing is inserted and the commit raises.  The
    sequence keeps the value it gave out either way. *)
Definition insert {R} (st : store) (n : string) (b : spec_float)
  : store * flow R Account :=
  let st' rs := {| rows := rs; next_id := next_id st + 1 |} in
  if existsb (fun a => (account_number a =? n)%string) (rows st)
  then (st' (rows st), Raise IntegrityError)
  else
    let a := {| id := next_id st; account_number := n; balance := b |} in
    (st' (rows st ++ [a])%list, Next a).

Definition with_balance (a : Account) (b : spec_float) : Account :=
  {| id := id a; account_number := account_number a; balance := b |}.

(** [account.balance = b; db.commit()]: the row of that primary key is
    rewritten. *)
Definition commit_balance (st : store) (a : Account) (b : spec_float) : store :=
  {| rows := map (fun r => if id r =? id a then with_balance r b else r) (rows st);
     next_id := next_id st |}.

(** ** [app.py]: responses *)

Inductive body : Set :=
| ErrorBody (error : string)                              (* {"error": ...} *)
| BalanceBody (b : spec_float)                            (* {"balance": ...} *)
| AccountBody (account_number : string) (b : spec_float). (* {"account_number": ..., "balance": ...} *)

Record response : Set := { status : Z; payload : body }.

(** An exception that leaves the handler ends the request with a 500. *)
Inductive outcome : Set :=
| Responded (r : response)
| Unhandled (e : exn).

Definition jsonify (b : body) (code : Z) : response :=
  {| status := code; payload := b |}.

Definition MAX_AMOUNT : Decimal := DFinite false 99999999%N 0.

Inductive operation : Set := Deposit | Withdrawal.

Definition failed (op : operation) : string :=
  match op with
  | Deposit => "Deposit failed"
  | Withdrawal => "Withdrawal failed"
  end.

(** ** [app.py]: the handlers *)

(** [POST /accounts]; [r] is the draw of [random.randint(1000, 9999)]. *)
Definition create_account (st : store) (r : Z) (data : option create_body)
  : store * outcome :=
  match data with
  | None => (st, Responded (jsonify (ErrorBody "Invalid or missing JSON payload") 400))
  | Some data =>
      let balance :=
        match body_balance data with
        | Some n => n
        | None => NFloat (S754_zero false)
        end in
      let account_number := str_of_int r in
      match insert (R := response) st account_number (column_Float balance) with
      | (st', Next new_account) =>
          (st', Responded (jsonify (AccountBody (models.account_number new_account)
                                                (models.balance new_account)) 201))
      | (st', Return resp) => (st', Responded resp)
      | (st', Raise e) => (st', Unhandled e)
      end
  end.

(** [GET /accounts/<account_number>/balance] *)
Definition get_balance (st : store) (account_number : string) : store * outcome :=
  match query_first st account_number with
  | None => (st, Responded (jsonify (ErrorBody "Account not found") 404))
  | Some account => (st, Responded (jsonify (BalanceBody (balance account)) 200))
  end.

(** Lines 102-105 and 151-154: the payload and its ['amount']. *)
Definition amount_of (data : option object) : flow response json :=
  match data with
  | None =>
      Return (jsonify (ErrorBody "Invalid or missing JSON payload or 'amount'") 400)
  | Some data =>
      match get "amount" data with
      | None =>
          Return (jsonify (ErrorBody "Invalid or missing JSON payload or 'amount'") 400)
      | Some amount => Next amount
      end
  end.

(** Lines 107-125 and 156-174: the checks on the amount, which the two
    handlers spell out alike but for the head of two messages. *)
Definition checked (op : operation) (amount : json) : flow response Decimal :=
  d <- match Decimal_of_str (py_str amount) with
       | Some d => Next d
       | None =>
           Return (jsonify (ErrorBody (failed op ++
             " - Amount must be numeric and have at most 2 decimal places")) 400)
       end ;;
  negative <- dec_lt d (Decimal_of_int 0) ;;
  return_if negative (jsonify (ErrorBody "Amount cannot be negative") 400) ;;;
  zero <- dec_eq d (Decimal_of_int 0) ;;
  return_if zero (jsonify (ErrorBody "Amount must be greater than zero") 400) ;;;
  many <- exponent_lt (as_tuple_exponent d) (-2) ;;
  return_if many (jsonify (ErrorBody (failed op ++
    " - Amount must have at most 2 decimal places")) 400) ;;;
  over <- dec_gt d MAX_AMOUNT ;;
  return_if over (jsonify (ErrorBody "Amount exceeds maximum allowed value") 400) ;;;
  Next d.

(** How a handler ends: with the store it leaves and the response or the
    exception. *)
Definition finish (st : store) (m : flow response (store * response))
  : store * outcome :=
  match m with
  | Next (st', resp) => (st', Responded resp)
  | Return resp => (st, Responded resp)
  | Raise e => (st, Unhandled e)
  end.

(** [POST /accounts/<account_number>/deposit] *)
Definition deposit (st : store) (account_number : string) (data : option object)
  : store * outcome :=
  match query_first st account_number with
  | None => (st, Responded (jsonify (ErrorBody "Account not found") 404))
  | Some account =>
      finish st (
        amount <- amount_of data ;;
        d <- checked Deposit amount ;;
        x <- float_of_Decimal d ;;
        let updated_balance := fadd (balance account) x in
        Next (commit_balance st account updated_balance,
              jsonify (BalanceBody updated_balance) 200))
  end.

(** [POST /accounts/<account_number>/withdraw] *)
Definition withdraw (st : store) (account_number : string) (data : option object)
  : store * outcome :=
  match query_first st account_number with
  | None => (st, Responded (jsonify (ErrorBody "Account not found") 404))
  | Some account =>
      finish st (
        amount <- amount_of data ;;
        d <- checked Withdrawal amount ;;
        x <- float_of_Decimal d ;;
        return_if (flt (balance account) x)
                  (jsonify (ErrorBody "Insufficient balance") 400) ;;;
        y <- float_of_Decimal d ;;
        let updated_balance := fsub (balance account) y in
        Next (commit_balance st account updated_balance,
              jsonify (BalanceBody updated_balance) 200))
  end.

(** ** Requests and runs of the service *)

Inductive request : Set :=
| CreateAccount (r : Z) (data : option create_body)
| GetBalance (account_number : string)
| PostDeposit (account_number : string) (data : option object)
| PostWithdraw (account_number : string) (data : option object).

Definition handle (st : store) (req : request) : store * outcome :=
  match req with
  | CreateAccount r data => create_account st r data
  | GetBalance n => get_balance st n
  | PostDeposit n data => deposit st n data
  | PostWithdraw n data => withdraw st n data
  end.

Definition run (st : store) (reqs : list request) : store :=
  fold_left (fun st req => fst (handle st req)) reqs st.

(** ** Vocabulary of the specification *)

(** The kinds of [ValidationError]. *)
Inductive ErrorKind : Set :=
| NotNumeric
| Negative
| Zero
| TooManyDecimals
| ExceedsMaximum.

(** The order in which the rules are listed. *)
Definition rule_order : list ErrorKind :=
  [NotNumeric; Negative; Zero; TooManyDecimals; ExceedsMaximum].

(** The message listed for each kind. *)
Definition message (op : operation) (k : ErrorKind) : string :=
  match k, op with
  | NotNumeric, Deposit =>
      "Deposit failed - Amount must be numeric and have at most 2 decimal places"
  | NotNumeric, Withdrawal =>
      "Withdrawal failed - Amount must be numeric and have at most 2 decimal places"
  | Negative, _ => "Amount cannot be negative"
  | Zero, _ => "Amount must be greater than zero"
  | TooManyDecimals, Deposit =>
      "Deposit failed - Amount must have at most 2 decimal places"
  | TooManyDecimals, Withdrawal =>
      "Withdrawal failed - Amount must have at most 2 decimal places"
  | ExceedsMaximum, _ => "Amount exceeds maximum allowed value"
  end.

Definition validation_error (op : operation) (k : ErrorKind) : response :=
  {| status := 400; payload := ErrorBody (message op k) |}.

Definition not_found : response :=
  {| status := 404; payload := ErrorBody "Account not found" |}.

Definition malformed_request : response :=
  {| status := 400; payload := ErrorBody "Invalid or missing JSON payload or 'amount'" |}.

Definition insufficient_balance : response :=
  {| status := 400; payload := ErrorBody "Insufficient balance" |}.

(** The exact value of a finite [Decimal], a rational. *)
Definition Decimal_value (d : Decimal) : option Q :=
  match d with
  | DFinite s c e =>
      Some (if 0 <=? e then Qmake (signed_coefficient s c * 10 ^ e) 1
            else Qmake (signed_coefficient s c) (Z.to_pos (10 ^ (- e))))
  | _ => None
  end.

(** The exact value of a finite [float], a rational. *)
Definition float_value (f : spec_float) : option Q :=
  match f with
  | S754_zero _ => Some (Qmake 0 1)
  | S754_finite s m e =>
      Some (if 0 <=? e then Qmake (cond_Zopp s (Zpos m) * 2 ^ e) 1
            else Qmake (cond_Zopp s (Zpos m)) (Z.to_pos (2 ^ (- e))))
  | _ => None
  end.

(** The digits after the decimal point of a number as it is written. *)
Definition fraction_digits (d : Decimal) : Z :=
  match d with
  | DFinite _ _ e => Z.max 0 (- e)
  | _ => 0
  end.

(** Rule [k] of the validator fails on a converted amount. *)
Definition breaks (k : ErrorKind) (d : Decimal) : bool :=
  match k, d with
  | NotNumeric, _ => false
  | Negative, DInfinity s => s
  | Negative, _ =>
      match Decimal_value d with
      | Some v => match Qcompare v (Qmake 0 1) with Lt => true | _ => false end
      | None => false
      end
  | Zero, _ =>
      match Decimal_value d with
      | Some v => Qeq_bool v (Qmake 0 1)
      | None => false
      end
  | TooManyDecimals, _ => 2 <? fraction_digits d
  | ExceedsMaximum, DInfinity s => negb s
  | ExceedsMaximum, _ =>
      match Decimal_value d with
      | Some v => match Qcompare v (Qmake 99999999 1) with Gt => true | _ => false end
      | None => false
      end
  end.

(** Rule [k] fails on a raw amount. *)
Definition rule_fails (k : ErrorKind) (amount : json) : bool :=
  match Decimal_of_str (py_str amount), k with
  | None, NotNumeric => true
  | None, _ => false
  | Some d, _ => breaks k d
  end.

Definition first_failing (amount : json) : option ErrorKind :=
  find (fun k => rule_fails k amount) rule_order.

(** A rule listed later does not come into play for a special value the
    handler raises on. *)
Definition is_special (d : Decimal) : bool :=
  match d with
  | DNaN _ _ _ => true
  | DInfinity s => negb s
  | DFinite _ _ _ => false
  end.

Definition perform (op : operation) : store -> string -> option object -> store * outcome :=
  match op with
  | Deposit => deposit
  | Withdrawal => withdraw
  end.

(** ** Well-formed stores

    The primary key and the unique constraint of the table, the sequence
    ahead of the keys it gave out, and balances that are doubles. *)

Definition is_double (f : spec_float) : Prop := valid_binary prec emax f = true.

Definition account_numbers (st : store) : list string :=
  map account_number (rows st).

Definition keys_ok (st : store) : Prop :=
  NoDup (map id (rows st))
  /\ NoDup (account_numbers st)
  /\ Forall (fun a => id a < next_id st) (rows st).

Definition doubles_ok (st : store) : Prop :=
  Forall (fun a => is_double (balance a)) (rows st).

(** [0 <= f], as Python compares. *)
Definition nonnegative (f : spec_float) : bool := fle fzero f.

Definition balances_nonnegative (st : store) : Prop :=
  Forall (fun a => nonnegative (balance a) = true) (rows st).

(** The initial balance a request carries is a double. *)
Definition request_ok (req : request) : Prop :=
  match req with
  | CreateAccount _ (Some {| body_balance := Some (NFloat f) |}) => is_double f
  | _ => True
  end.

(** The initial balance a request carries is not negative. *)
Definition opens_nonnegative (req : request) : Prop :=
  match req with
  | CreateAccount _ (Some {| body_balance := Some (NInt z) |}) => 0 <= z
  | CreateAccount _ (Some {| body_balance := Some (NFloat f) |}) => nonnegative f = true
  | _ => True
  end.

(** What rounding to sign [s] at exponent [E] can yield: a zero, a double
    whose exponent is at most [E + 1], or an infinity when that exponent is
    out of range. *)
Definition rounded_at (s : bool) (E : Z) (r : spec_float) : Prop :=
  r = S754_zero s
  \/ (r = S754_infinity s /\ emax - prec <= E)
  \/ exists m e, r = S754_finite s m e /\ bounded prec emax m e = true /\ e <= E + 1.

(** ** Sample requests *)

Definition amount_body (v : json) : option object := Some [("amount", v)].

Definition no_balance : option create_body := Some {| body_balance := None |}.

Definition opening (n : number) : option create_body :=
  Some {| body_balance := Some n |}.

(** One account, "1234", opened without a balance. *)
Definition one_account : store := fst (create_account initial_store 1234 no_balance).

(** The balance of account "1234" after a run of requests. *)
Definition balance_after (reqs : list request) : option spec_float :=
  option_map balance (query_first (run initial_store reqs) "1234").

(** The keys of the rows: primary key and account number, in table order. *)
Definition keys_of (st : store) : list (Z * string) :=
  map (fun a => (id a, account_number a)) (rows st).

(** [math.isfinite(f)]: a zero or a finite number, no infinity and no NaN. *)
Definition isfinite (f : spec_float) : bool :=
  match f with
  | S754_zero _ | S754_finite _ _ _ => true
  | S754_infinity _ | S754_nan => false
  end.

Definition balances_finite (st : store) : Prop :=
  Forall (fun a => isfinite (balance a) = true) (rows st).

(** The initial balance a request carries is finite. *)
Definition opens_finite (req : request) : Prop :=
  match req with
  | CreateAccount _ (Some {| body_balance := Some (NInt z) |}) => Z.abs z < 2 ^ 1023
  | CreateAccount _ (Some {| body_balance := Some (NFloat f) |}) => isfinite f = true
  | _ => True
  end.

(** An initial balance the table takes.  PostgreSQL refuses an integer that
    is beyond the range of double precision: the commit raises and no row is
    inserted.  [create_account] is the handler on the other balances. *)
Definition storable (data : option create_body) : Prop :=
  match data with
  | Some {| body_balance := Some (NInt z) |} => isfinite (float_of_int z) = true
  | _ => True
  end.

Definition request_storable (req : request) : Prop :=
  match req with
  | CreateAccount _ data => storable data
  | _ => True
  end.


(** * Facts

    ** Binary64 arithmetic: digits, shifts and rounding *)

Lemma digits2_pos_bounds (p : positive) :
  2 ^ (Zpos (digits2_pos p) - 1) <= Zpos p < 2 ^ Zpos (digits2_pos p).
Proof.
  induction p as [p IH | p IH | ]; cbn [digits2_pos].
  - rewrite Pos2Z.inj_succ, (Pos2Z.inj_xI p).
    replace (Z.succ (Zpos (digits2_pos p)) - 1) with (Z.succ (Zpos (digits2_pos p) - 1)) by lia.
    rewrite !Z.pow_succ_r by lia.
    generalize dependent (2 ^ (Zpos (digits2_pos p) - 1)).
    generalize (2 ^ Zpos (digits2_pos p)). intros; lia.
  - rewrite Pos2Z.inj_succ, (Pos2Z.inj_xO p).
    replace (Z.succ (Zpos (digits2_pos p)) - 1) with (Z.succ (Zpos (digits2_pos p) - 1)) by lia.
    rewrite !Z.pow_succ_r by lia.
    generalize dependent (2 ^ (Zpos (digits2_pos p) - 1)).
    generalize (2 ^ Zpos (digits2_pos p)). intros; lia.
  - cbn. lia.
Qed.

Lemma Zdigits2_log2 (m : Z) : 0 < m -> Zdigits2 m = Z.log2 m + 1.
Proof.
  destruct m as [ | p | p]; try lia. intros _. cbn [Zdigits2].
  pose proof (digits2_pos_bounds p) as H.
  symmetry. apply Z.add_move_r. apply Z.log2_unique; [lia | ].
  replace (Z.succ (Zpos (digits2_pos p) - 1)) with (Zpos (digits2_pos p)) by lia. exact H.
Qed.

Lemma Zdigits2_bounds (m : Z) : 0 < m -> 2 ^ (Zdigits2 m - 1) <= m < 2 ^ Zdigits2 m.
Proof.
  destruct m as [ | p | p]; try lia. intros _. apply digits2_pos_bounds.
Qed.

Lemma Zdigits2_unique (m d : Z) : 2 ^ (d - 1) <= m < 2 ^ d -> 0 < d -> Zdigits2 m = d.
Proof.
  intros H Hd. assert (0 < m) by (pose proof (Z.pow_pos_nonneg 2 (d - 1)); lia).
  rewrite Zdigits2_log2 by assumption.
  apply Z.add_move_r. apply Z.log2_unique; [lia | ].
  replace (Z.succ (d - 1)) with d by lia. exact H.
Qed.

Lemma Zdigits2_le (m d : Z) : 0 < m -> m < 2 ^ d -> 0 <= d -> Zdigits2 m <= d.
Proof.
  intros Hm H Hd. pose proof (Zdigits2_bounds m Hm) as [Hl _].
  destruct (Z_lt_le_dec d (Zdigits2 m)) as [Hlt | ]; [ | assumption].
  exfalso. assert (2 ^ d <= 2 ^ (Zdigits2 m - 1)) by (apply Z.pow_le_mono_r; lia). lia.
Qed.

Lemma shr_1_m (mrs : shr_record) :
  0 <= shr_m mrs -> shr_m (shr_1 mrs) = Z.shiftr (shr_m mrs) 1.
Proof.
  destruct mrs as [m r s]. cbn [shr_m]. intros H.
  rewrite <- Z.div2_spec.
  destruct m as [ | [p | p | ] | p]; try lia; reflexivity.
Qed.

Lemma iter_shr_1_m (p : positive) : forall mrs,
  0 <= shr_m mrs -> shr_m (iter_pos shr_1 p mrs) = Z.shiftr (shr_m mrs) (Zpos p).
Proof.
  induction p as [p IH | p IH | ]; intros mrs H; cbn [iter_pos].
  - assert (H1 : 0 <= shr_m (shr_1 mrs)) by (rewrite shr_1_m by assumption; apply Z.shiftr_nonneg; assumption).
    assert (H2 : 0 <= shr_m (iter_pos shr_1 p (shr_1 mrs))) by (rewrite IH by assumption; apply Z.shiftr_nonneg; assumption).
    rewrite IH, IH, shr_1_m by assumption.
    rewrite !Z.shiftr_shiftr by lia. f_equal. lia.
  - assert (H2 : 0 <= shr_m (iter_pos shr_1 p mrs)) by (rewrite IH by assumption; apply Z.shiftr_nonneg; assumption).
    rewrite IH, IH by assumption.
    rewrite !Z.shiftr_shiftr by lia. f_equal. lia.
  - apply shr_1_m. assumption.
Qed.

Lemma shr_m_shr (mrs : shr_record) (e n : Z) :
  0 <= shr_m mrs -> 0 <= n ->
  shr_m (fst (shr mrs e n)) = shr_m mrs / 2 ^ n /\ snd (shr mrs e n) = e + n.
Proof.
  intros Hm Hn. destruct n as [ | p | p]; cbn [shr fst snd]; try lia.
  - rewrite Z.div_1_r. lia.
  - rewrite iter_shr_1_m by assumption. rewrite Z.shiftr_div_pow2 by lia. lia.
Qed.

Lemma shr_m_of_loc (m : Z) (l : location) : shr_m (shr_record_of_loc m l) = m.
Proof. destruct l as [ | [ | | ]]; reflexivity. Qed.

Lemma round_nearest_even_cases (m : Z) (l : location) :
  round_nearest_even m l = m \/ round_nearest_even m l = m + 1.
Proof.
  destruct l as [ | [ | | ]]; cbn; auto. destruct (Z.even m); auto.
Qed.

Lemma fexp_eq (x : Z) : fexp prec emax x = Z.max (x - 53) (-1074).
Proof. reflexivity. Qed.

Lemma canonical_of_bounds (m : positive) (e : Z) :
  Zpos m < 2 ^ 53 -> -1074 <= e -> (-1074 < e -> 2 ^ 52 <= Zpos m) ->
  canonical_mantissa prec emax m e = true.
Proof.
  intros Hu He Hl. unfold canonical_mantissa. apply Z.eqb_eq. rewrite fexp_eq.
  change (Zpos (digits2_pos m)) with (Zdigits2 (Zpos m)).
  assert (Hd : Zdigits2 (Zpos m) <= 53) by (apply Zdigits2_le; lia).
  destruct (Z.eq_dec e (-1074)) as [-> | Hne]; [lia | ].
  rewrite (Zdigits2_unique (Zpos m) 53); [lia | | lia].
  split; [apply Hl; lia | exact Hu].
Qed.

Lemma bounds_of_canonical (m : positive) (e : Z) :
  canonical_mantissa prec emax m e = true ->
  Zpos m < 2 ^ 53 /\ -1074 <= e /\ (-1074 < e -> 2 ^ 52 <= Zpos m).
Proof.
  unfold canonical_mantissa. intros H. apply Z.eqb_eq in H. rewrite fexp_eq in H.
  change (Zpos (digits2_pos m)) with (Zdigits2 (Zpos m)) in H.
  pose proof (Zdigits2_bounds (Zpos m) ltac:(lia)) as [Hl Hu].
  assert (Hd : Zdigits2 (Zpos m) <= 53) by lia.
  split; [ | split; [lia | ]].
  - apply Z.lt_le_trans with (1 := Hu). apply Z.pow_le_mono_r; lia.
  - intros He. assert (Hd' : Zdigits2 (Zpos m) = 53) by lia.
    rewrite Hd' in Hl. exact Hl.
Qed.

Lemma binary_round_aux_rounded (s : bool) (mx ex : Z) (lx : location) :
  0 <= mx -> ex <= fexp prec emax (Zdigits2 mx + ex) ->
  rounded_at s (fexp prec emax (Zdigits2 mx + ex)) (binary_round_aux prec emax s mx ex lx).
Proof.
  intros Hmx Hex. unfold binary_round_aux, shr_fexp.
  rewrite fexp_eq in Hex.
  set (E := fexp prec emax (Zdigits2 mx + ex)).
  assert (HE : E = Z.max (Zdigits2 mx + ex - 53) (-1074)) by reflexivity.
  clearbody E.
  destruct (shr_m_shr (shr_record_of_loc mx lx) ex (E - ex)) as [Hm' He'];
    [rewrite shr_m_of_loc; lia | lia | ].
  destruct (shr (shr_record_of_loc mx lx) ex (E - ex)) as [mrs' e'].
  cbn [fst snd] in Hm', He'. rewrite shr_m_of_loc in Hm'.
  assert (He : e' = E) by lia. clear He'. subst e'.
  assert (Hpow : 0 < 2 ^ (E - ex)) by (apply Z.pow_pos_nonneg; lia).
  assert (H0 : 0 <= shr_m mrs') by (rewrite Hm'; apply Z.div_pos; lia).
  assert (Hu : shr_m mrs' < 2 ^ 53).
  { rewrite Hm'. destruct (Z.eq_dec mx 0) as [-> | Hnz].
    - rewrite Z.div_0_l by lia. reflexivity.
    - apply Z.div_lt_upper_bound; [lia | ].
      pose proof (Zdigits2_bounds mx ltac:(lia)) as [_ Hd].
      rewrite <- Z.pow_add_r by lia.
      apply Z.lt_le_trans with (1 := Hd). apply Z.pow_le_mono_r; lia. }
  assert (Hl : -1074 < E -> 2 ^ 52 <= shr_m mrs').
  { intros HgtE. rewrite Hm'.
    assert (Hnz : 0 < mx).
    { destruct (Z.eq_dec mx 0) as [-> | ]; [cbn in HE, Hex; lia | lia]. }
    pose proof (Zdigits2_bounds mx Hnz) as [Hd _].
    apply Z.div_le_lower_bound; [lia | ].
    rewrite <- Z.pow_add_r by lia.
    replace (E - ex + 52) with (Zdigits2 mx - 1) by lia. exact Hd. }
  set (m1 := round_nearest_even (shr_m mrs') (loc_of_shr_record mrs')).
  assert (Hm1 : m1 = shr_m mrs' \/ m1 = shr_m mrs' + 1)
    by apply round_nearest_even_cases.
  clearbody m1.
  assert (Hcase : m1 = 0 \/ (0 < m1 < 2 ^ 53) \/ m1 = 2 ^ 53) by lia.
  destruct Hcase as [-> | [Hin | ->]].
  - (* rounded to zero *)
    cbn [Zdigits2]. rewrite fexp_eq.
    replace (Z.max (0 + E - 53) (-1074) - E) with (- (E - Z.max (E - 53) (-1074)))
      by (f_equal; lia).
    destruct (E - Z.max (E - 53) (-1074)) as [ | p | p] eqn:Hn; try lia;
      cbn; left; reflexivity.
  - (* no carry *)
    assert (Hd : Zdigits2 m1 <= 53) by (apply Zdigits2_le; lia).
    assert (Hn : Zdigits2 m1 + E - 53 <= E) by lia.
    rewrite fexp_eq.
    destruct (Z.max (Zdigits2 m1 + E - 53) (-1074) - E) as [ | p | p] eqn:Hn'; try lia.
    + cbn [shr shr_record_of_loc shr_m].
      destruct m1 as [ | p | p]; try lia.
      destruct (E <=? emax - prec) eqn:Hle;
        [ | right; left; split; [reflexivity | apply Z.leb_gt in Hle; lia]].
      right; right. exists p, E. split; [reflexivity | split; [ | lia]].
      unfold bounded. rewrite Hle, andb_true_r.
      apply canonical_of_bounds; lia.
    + cbn [shr shr_record_of_loc shr_m].
      destruct m1 as [ | q | q]; try lia.
      destruct (E <=? emax - prec) eqn:Hle;
        [ | right; left; split; [reflexivity | apply Z.leb_gt in Hle; lia]].
      right; right. exists q, E. split; [reflexivity | split; [ | lia]].
      unfold bounded. rewrite Hle, andb_true_r.
      apply canonical_of_bounds; lia.
  - (* carry into a new digit *)
    rewrite fexp_eq.
    replace (Z.max (Zdigits2 (2 ^ 53) + E - 53) (-1074) - E) with 1
      by (change (Zdigits2 (2 ^ 53)) with 54; lia).
    cbn [shr shr_record_of_loc iter_pos].
    change (shr_m (shr_1 {| shr_m := 2 ^ 53; shr_r := false; shr_s := false |}))
      with (2 ^ 52).
    change (2 ^ 52) with (Zpos (2 ^ 52)%positive). cbv iota beta.
    destruct (E + 1 <=? emax - prec) eqn:Hle;
      [ | right; left; split; [reflexivity | apply Z.leb_gt in Hle; lia]].
    right; right. exists (2 ^ 52)%positive, (E + 1). split; [reflexivity | split; [ | lia]].
    unfold bounded. rewrite Hle, andb_true_r.
    apply canonical_of_bounds; [reflexivity | lia | intros _; reflexivity].
Qed.

Lemma iter_xO_value (d m : positive) : Zpos (Pos.iter xO m d) = Zpos m * 2 ^ Zpos d.
Proof.
  induction d as [ | d IH] using Pos.peano_ind.
  - cbn. lia.
  - rewrite Pos.iter_succ, Pos2Z.inj_succ, Z.pow_succ_r by lia.
    rewrite (Pos2Z.inj_xO (Pos.iter xO m d)), IH. lia.
Qed.

Lemma shl_align_value (m : positive) (e e' : Z) :
  e' <= e -> shl_align m e e' = (Z.to_pos (Zpos m * 2 ^ (e - e')), e')
             /\ Zpos (fst (shl_align m e e')) = Zpos m * 2 ^ (e - e').
Proof.
  intros H. unfold shl_align.
  destruct (e' - e) as [ | d | d] eqn:Hd; try lia.
  - replace (e - e') with 0 by lia. replace e' with e by lia.
    cbn [fst]. rewrite Z.mul_1_r. split; reflexivity.
  - replace (e - e') with (Zpos d) by lia. cbn [fst].
    rewrite <- iter_xO_value. split; reflexivity.
Qed.

Lemma Zdigits2_shift (m k : Z) : 0 < m -> 0 <= k -> Zdigits2 (m * 2 ^ k) = Zdigits2 m + k.
Proof.
  intros Hm Hk. assert (0 < 2 ^ k) by (apply Z.pow_pos_nonneg; lia).
  rewrite !Zdigits2_log2 by nia. rewrite Z.log2_mul_pow2 by lia. lia.
Qed.

Lemma binary_round_rounded (s : bool) (m : positive) (e : Z) :
  rounded_at s (fexp prec emax (Zdigits2 (Zpos m) + e)) (binary_round prec emax s m e).
Proof.
  unfold binary_round.
  change (Zpos (digits2_pos m)) with (Zdigits2 (Zpos m)).
  set (F := fexp prec emax (Zdigits2 (Zpos m) + e)).
  destruct (Z_le_gt_dec F e) as [Hle | Hgt].
  - destruct (shl_align_value m e F Hle) as [-> _].
    assert (0 < 2 ^ (e - F)) by (apply Z.pow_pos_nonneg; lia).
    assert (HF : fexp prec emax (Zdigits2 (Zpos (Z.to_pos (Zpos m * 2 ^ (e - F)))) + F) = F).
    { rewrite Z2Pos.id by nia. rewrite Zdigits2_shift by lia.
      replace (Zdigits2 (Zpos m) + (e - F) + F) with (Zdigits2 (Zpos m) + e) by lia.
      reflexivity. }
    rewrite <- HF at 1.
    apply binary_round_aux_rounded; [lia | ]. rewrite HF. lia.
  - unfold shl_align. destruct (F - e) as [ | d | d] eqn:Hd; try lia.
    apply binary_round_aux_rounded; [lia | ]. fold F. lia.
Qed.

Lemma rounded_at_le (s : bool) (E E' : Z) (r : spec_float) :
  rounded_at s E r -> E <= E' -> rounded_at s E' r.
Proof.
  intros [-> | [[-> H] | (m & e & -> & H & He)]] Hle.
  - left. reflexivity.
  - right; left. split; [reflexivity | lia].
  - right; right. exists m, e. repeat split; [assumption | lia].
Qed.

Lemma rounded_is_double (s : bool) (E : Z) (r : spec_float) :
  rounded_at s E r -> is_double r.
Proof.
  intros [-> | [[-> _] | (m & e & -> & H & _)]]; try reflexivity. exact H.
Qed.

Lemma binary_normalize_is_double (z e : Z) (szero : bool) :
  is_double (binary_normalize prec emax z e szero).
Proof.
  destruct z as [ | p | p]; cbn [binary_normalize]; [reflexivity | | ];
    eapply rounded_is_double, binary_round_rounded.
Qed.

Lemma binary_normalize_nonneg (z e : Z) :
  0 <= z ->
  rounded_at false (fexp prec emax (Zdigits2 z + e)) (binary_normalize prec emax z e false).
Proof.
  destruct z as [ | p | p]; try lia; intros _; cbn [binary_normalize].
  - left. reflexivity.
  - apply binary_round_rounded.
Qed.

Lemma fadd_is_double (x y : spec_float) :
  is_double x -> is_double y -> is_double (fadd x y).
Proof.
  intros Hx Hy. unfold fadd.
  destruct x as [sx | sx | | sx mx ex], y as [sy | sy | | sy my ey];
    try destruct sx; try destruct sy; cbn [SFadd]; try assumption; try reflexivity;
    apply binary_normalize_is_double.
Qed.

Lemma fsub_is_double (x y : spec_float) :
  is_double x -> is_double y -> is_double (fsub x y).
Proof.
  intros Hx Hy. unfold fsub.
  destruct x as [sx | sx | | sx mx ex], y as [sy | sy | | sy my ey];
    try destruct sx; try destruct sy; cbn [SFsub]; try assumption; try reflexivity;
    apply binary_normalize_is_double.
Qed.

Lemma float_of_int_is_double (z : Z) : is_double (float_of_int z).
Proof. apply binary_normalize_is_double. Qed.

Lemma Zdigits2_ge (q k : Z) : 0 <= k -> 2 ^ k <= q -> k + 1 <= Zdigits2 q.
Proof.
  intros Hk H. assert (0 < 2 ^ k) by (apply Z.pow_pos_nonneg; lia).
  pose proof (Zdigits2_bounds q ltac:(lia)) as [_ Hu].
  destruct (Z_lt_le_dec k (Zdigits2 q)) as [ | Hle]; [lia | exfalso].
  assert (2 ^ Zdigits2 q <= 2 ^ k) by (apply Z.pow_le_mono_r; lia). lia.
Qed.

Lemma float_of_ratio_rounded (s : bool) (n d : Z) :
  0 < n -> 0 < d -> rounded_at s (fexp prec emax (Zdigits2 n)) (float_of_ratio s n d).
Proof.
  intros Hn Hd. unfold float_of_ratio, SFdiv_core_binary.
  rewrite !Z.add_0_r, Z.sub_0_r.
  set (e' := Z.min (fexp prec emax (Zdigits2 n - Zdigits2 d)) 0).
  assert (He' : e' = Z.min (Z.max (Zdigits2 n - Zdigits2 d - 53) (-1074)) 0) by reflexivity.
  clearbody e'.
  change IntDef.Z.div_eucl with Z.div_eucl.
  change IntDef.Z.shiftl with Z.shiftl.
  assert (Hm' : match 0 - e' with
                | 0 => n | Zpos _ => Z.shiftl n (0 - e') | Zneg _ => 0 end = n * 2 ^ (- e')).
  { destruct (0 - e') as [ | p | p] eqn:Hs; try lia.
    - replace (- e') with 0 by lia. lia.
    - rewrite Z.shiftl_mul_pow2 by lia. f_equal. f_equal. lia. }
  rewrite Hm'. clear Hm'.
  assert (Hp : 0 < 2 ^ (- e')) by (apply Z.pow_pos_nonneg; lia).
  pose proof (Z_div_mod (n * 2 ^ (- e')) d ltac:(lia)) as Hdiv.
  destruct (Z.div_eucl (n * 2 ^ (- e')) d) as [q r]. destruct Hdiv as [Hq Hr].
  assert (Hq0 : 0 <= q) by nia.
  assert (H1 : 0 < Zdigits2 n) by (destruct n; cbn; lia).
  assert (Hqd : Zdigits2 q + e' <= Zdigits2 n).
  { destruct (Z.eq_dec q 0) as [-> | Hq1]; [cbn; lia | ].
    pose proof (Zdigits2_bounds n Hn) as [_ Hnu].
    assert (Hqu : q < 2 ^ (Zdigits2 n - e')).
    { replace (Zdigits2 n - e') with (Zdigits2 n + - e') by lia.
      rewrite Z.pow_add_r by lia.
      assert (q <= n * 2 ^ (- e')) by nia.
      assert (n * 2 ^ (- e') < 2 ^ Zdigits2 n * 2 ^ (- e'))
        by (apply Z.mul_lt_mono_pos_r; lia).
      lia. }
    pose proof (Zdigits2_le q (Zdigits2 n - e') ltac:(lia) Hqu ltac:(lia)).
    lia. }
  apply rounded_at_le with (fexp prec emax (Zdigits2 q + e'));
    [ | rewrite !fexp_eq; lia].
  apply binary_round_aux_rounded; [exact Hq0 | ].
  rewrite fexp_eq.
  destruct (Z.eq_dec e' (-1074)) as [-> | Hne]; [lia | ].
  assert (Hs : 53 + Zdigits2 d - Zdigits2 n <= - e') by lia.
  pose proof (Zdigits2_bounds n Hn) as [Hnl _].
  pose proof (Zdigits2_bounds d Hd) as [Hdl Hdu].
  assert (H2 : 0 < Zdigits2 d).
  { destruct d; cbn; lia. }
  assert (Hbig : 2 ^ 52 * 2 ^ Zdigits2 d <= n * 2 ^ (- e')).
  { rewrite <- Z.pow_add_r by lia.
    apply Z.le_trans with (2 ^ (Zdigits2 n - 1) * 2 ^ (- e')).
    - rewrite <- Z.pow_add_r by lia. apply Z.pow_le_mono_r; lia.
    - apply Z.mul_le_mono_nonneg_r; lia. }
  assert (Hq52 : 2 ^ 52 <= q).
  { destruct (Z_lt_le_dec q (2 ^ 52)) as [Hlt | ]; [exfalso | assumption].
    assert (d * q + r < d * 2 ^ 52) by nia.
    assert (2 ^ 52 * d < 2 ^ 52 * 2 ^ Zdigits2 d) by (apply Z.mul_lt_mono_pos_l; lia).
    lia. }
  pose proof (Zdigits2_ge q 52 ltac:(lia) Hq52). lia.
Qed.

Lemma flt_false_ge (m1 m2 : positive) (e1 e2 : Z) :
  bounded prec emax m1 e1 = true -> bounded prec emax m2 e2 = true ->
  flt (S754_finite false m1 e1) (S754_finite false m2 e2) = false ->
  Zpos m2 * 2 ^ (e2 - Z.min e1 e2) <= Zpos m1 * 2 ^ (e1 - Z.min e1 e2).
Proof.
  unfold bounded. intros H1 H2.
  apply andb_prop in H1 as [H1 _]. apply andb_prop in H2 as [H2 _].
  apply bounds_of_canonical in H1 as (Hu1 & He1 & Hl1).
  apply bounds_of_canonical in H2 as (Hu2 & He2 & Hl2).
  unfold flt, SFltb, SFcompare.
  destruct (Z.compare_spec e1 e2) as [-> | Hlt | Hgt].
  - rewrite Z.min_id, Z.sub_diag. cbn [Z.pow].
    rewrite Pos.compare_cont_spec. cbn [Pos.switch_Eq].
    destruct (Pos.compare_spec m1 m2); try discriminate; lia.
  - discriminate.
  - intros _. rewrite Z.min_r, Z.sub_diag by lia. cbn [Z.pow].
    assert (2 ^ 1 <= 2 ^ (e1 - e2)) by (apply Z.pow_le_mono_r; lia).
    specialize (Hl1 ltac:(lia)). change (2 ^ 1) with 2 in *.
    change (2 ^ 52) with 4503599627370496 in *.
    change (2 ^ 53) with 9007199254740992 in *. nia.
Qed.

Lemma rounded_nonnegative (E : Z) (r : spec_float) :
  rounded_at false E r -> nonnegative r = true.
Proof.
  intros [-> | [[-> _] | (m & e & -> & _)]]; reflexivity.
Qed.

Lemma nonnegative_cases (b : spec_float) :
  nonnegative b = true ->
  (exists s, b = S754_zero s) \/ b = S754_infinity false
  \/ exists m e, b = S754_finite false m e.
Proof.
  destruct b as [s | [ | ] | | [ | ] m e]; cbn; intros H; try discriminate; eauto.
Qed.

Lemma fadd_nonnegative (E : Z) (b a : spec_float) :
  nonnegative b = true -> rounded_at false E a -> nonnegative (fadd b a) = true.
Proof.
  intros Hb Ha.
  destruct (nonnegative_cases b Hb) as [[s ->] | [-> | (m & e & ->)]];
    destruct Ha as [-> | [[-> _] | (ma & ea & -> & _)]];
    try destruct s; try reflexivity.
  unfold fadd. cbn [SFadd cond_Zopp].
  eapply rounded_nonnegative, binary_normalize_nonneg. lia.
Qed.

Lemma fsub_nonnegative (b : spec_float) (ma : positive) (ea : Z) :
  is_double b -> bounded prec emax ma ea = true ->
  nonnegative b = true -> flt b (S754_finite false ma ea) = false ->
  nonnegative (fsub b (S754_finite false ma ea)) = true.
Proof.
  intros Hdb Hda Hb Hlt.
  destruct (nonnegative_cases b Hb) as [[s ->] | [-> | (m & e & ->)]];
    [discriminate | reflexivity | ].
  pose proof (flt_false_ge m ma e ea Hdb Hda Hlt) as Hge.
  unfold fsub. cbn [SFsub cond_Zopp].
  destruct (shl_align_value m e (Z.min e ea) ltac:(lia)) as [_ ->].
  destruct (shl_align_value ma ea (Z.min e ea) ltac:(lia)) as [_ ->].
  eapply rounded_nonnegative, binary_normalize_nonneg. lia.
Qed.

(** ** The checks on an amount *)

Lemma compare_scaled (a p : Z) : 0 < p -> (a * p ?= 0) = (a ?= 0).
Proof.
  intros Hp. destruct (Z.compare_spec a 0) as [-> | H | H].
  - reflexivity.
  - apply Z.compare_lt_iff. nia.
  - apply Z.compare_gt_iff. nia.
Qed.

Lemma pow10_pos (k : Z) : 0 <= k -> 0 < 10 ^ k.
Proof. intros H. apply Z.pow_pos_nonneg; lia. Qed.

Lemma lt_zero_breaks {R} (s : bool) (c : N) (e : Z) :
  dec_lt (R := R) (DFinite s c e) (Decimal_of_int 0)
  = Next (breaks Negative (DFinite s c e)).
Proof.
  unfold dec_lt, breaks, Decimal_value, Decimal_of_int, cmp, Qcompare.
  cbn [is_nan orb Z.ltb Z.compare Z.abs_N signed_coefficient Z.of_N Z.mul Qnum Qden].
  f_equal. rewrite compare_scaled by (apply pow10_pos; lia).
  destruct (0 <=? e) eqn:He; cbn [Qnum Qden]; rewrite Z.mul_1_r; [ | reflexivity].
  apply Z.leb_le in He. rewrite compare_scaled by (apply pow10_pos; lia). reflexivity.
Qed.

Lemma eq_zero_breaks {R} (s : bool) (c : N) (e : Z) :
  dec_eq (R := R) (DFinite s c e) (Decimal_of_int 0)
  = Next (breaks Zero (DFinite s c e)).
Proof.
  unfold dec_eq, breaks, Decimal_value, Decimal_of_int, cmp, Qeq_bool.
  cbn [is_nan is_snan orb Z.ltb Z.compare Z.abs_N signed_coefficient Z.of_N Z.mul Qnum Qden].
  f_equal. rewrite compare_scaled by (apply pow10_pos; lia).
  assert (Hz : forall a, match a ?= 0 with Eq => true | _ => false end = (a =? 0)).
  { intros a. destruct a; reflexivity. }
  rewrite Hz.
  destruct (0 <=? e) eqn:He; cbn [Qnum Qden Z.mul]; rewrite Z.mul_1_r; [ | reflexivity].
  apply Z.leb_le in He. rewrite <- !Hz.
  rewrite compare_scaled by (apply pow10_pos; lia). reflexivity.
Qed.

Lemma exponent_breaks {R} (s : bool) (c : N) (e : Z) :
  exponent_lt (R := R) (as_tuple_exponent (DFinite s c e)) (-2)
  = Next (breaks TooManyDecimals (DFinite s c e)).
Proof.
  cbn [as_tuple_exponent exponent_lt breaks fraction_digits]. f_equal.
  destruct (Z.ltb_spec e (-2)), (Z.ltb_spec 2 (Z.max 0 (- e))); lia.
Qed.

Lemma gt_max_breaks {R} (s : bool) (c : N) (e : Z) :
  dec_gt (R := R) (DFinite s c e) MAX_AMOUNT
  = Next (breaks ExceedsMaximum (DFinite s c e)).
Proof.
  unfold dec_gt, breaks, Decimal_value, MAX_AMOUNT, cmp, Qcompare.
  cbn [is_nan orb signed_coefficient Qnum Qden]. f_equal.
  change (Z.of_N 99999999) with 99999999.
  destruct (Z.leb_spec 0 e) as [He | He]; cbn [Qnum Qden].
  - rewrite Z.min_r, Z.sub_0_r, Z.sub_diag by lia.
    change (10 ^ 0) with 1. rewrite !Z.mul_1_r. reflexivity.
  - rewrite Z.min_l, Z.sub_diag by lia.
    rewrite Z2Pos.id by (apply pow10_pos; lia).
    change (10 ^ 0) with 1. rewrite !Z.mul_1_r.
    replace (0 - e) with (- e) by lia. reflexivity.
Qed.

Lemma checked_not_numeric (op : operation) (amount : json) :
  Decimal_of_str (py_str amount) = None ->
  checked op amount = Return (validation_error op NotNumeric).
Proof. intros H. unfold checked. rewrite H. destruct op; reflexivity. Qed.

Lemma checked_finite (op : operation) (amount : json) (s : bool) (c : N) (e : Z) :
  let d := DFinite s c e in
  Decimal_of_str (py_str amount) = Some d ->
  checked op amount =
    if breaks Negative d then Return (validation_error op Negative)
    else if breaks Zero d then Return (validation_error op Zero)
    else if breaks TooManyDecimals d then Return (validation_error op TooManyDecimals)
    else if breaks ExceedsMaximum d then Return (validation_error op ExceedsMaximum)
    else Next d.
Proof.
  intros d H. unfold checked. rewrite H. cbn [bind]. subst d.
  rewrite lt_zero_breaks. cbn [bind].
  destruct (breaks Negative _); [destruct op; reflexivity | ]. cbn [return_if bind].
  rewrite eq_zero_breaks. cbn [bind].
  destruct (breaks Zero _); [destruct op; reflexivity | ]. cbn [return_if bind].
  rewrite exponent_breaks. cbn [bind].
  destruct (breaks TooManyDecimals _); [destruct op; reflexivity | ]. cbn [return_if bind].
  rewrite gt_max_breaks. cbn [bind].
  destruct (breaks ExceedsMaximum _); [destruct op; reflexivity | ]. reflexivity.
Qed.

Lemma checked_infinity (op : operation) (amount : json) (s : bool) :
  Decimal_of_str (py_str amount) = Some (DInfinity s) ->
  checked op amount =
    if s then Return (validation_error op Negative) else Raise TypeError.
Proof.
  intros H. unfold checked. rewrite H. destruct s, op; reflexivity.
Qed.

Lemma checked_nan (op : operation) (amount : json) (s g : bool) (p : N) :
  Decimal_of_str (py_str amount) = Some (DNaN s g p) ->
  checked op amount = Raise InvalidOperation.
Proof.
  intros H. unfold checked. rewrite H. reflexivity.
Qed.

Lemma first_failing_some (amount : json) (d : Decimal) :
  Decimal_of_str (py_str amount) = Some d ->
  first_failing amount =
    if breaks Negative d then Some Negative
    else if breaks Zero d then Some Zero
    else if breaks TooManyDecimals d then Some TooManyDecimals
    else if breaks ExceedsMaximum d then Some ExceedsMaximum
    else None.
Proof.
  intros H. unfold first_failing, rule_order, rule_fails. cbn [find]. rewrite H.
  cbn [breaks]. reflexivity.
Qed.

Lemma first_failing_none (amount : json) :
  Decimal_of_str (py_str amount) = None -> first_failing amount = Some NotNumeric.
Proof.
  intros H. unfold first_failing, rule_order, rule_fails. cbn [find]. rewrite H.
  reflexivity.
Qed.

(** An amount that passes the checks. *)
Lemma checked_next (op : operation) (amount : json) (d : Decimal) :
  checked op amount = Next d ->
  exists c e,
    d = DFinite false c e /\ Decimal_of_str (py_str amount) = Some d
    /\ (0 < c)%N /\ -2 <= e
    /\ Z.of_N c * 10 ^ (e - Z.min e 0) <= 99999999 * 10 ^ (0 - Z.min e 0).
Proof.
  intros H.
  destruct (Decimal_of_str (py_str amount)) as [[s c e | s | s g p] | ] eqn:Hd.
  - rewrite (checked_finite op amount s c e Hd) in H.
    destruct (breaks Negative _) eqn:B1; [discriminate | ].
    destruct (breaks Zero _) eqn:B2; [discriminate | ].
    destruct (breaks TooManyDecimals _) eqn:B3; [discriminate | ].
    destruct (breaks ExceedsMaximum _) eqn:B4; [discriminate | ].
    injection H as <-.
    pose proof (lt_zero_breaks (R := unit) s c e) as L1. rewrite B1 in L1.
    pose proof (eq_zero_breaks (R := unit) s c e) as L2. rewrite B2 in L2.
    pose proof (gt_max_breaks (R := unit) s c e) as L4. rewrite B4 in L4.
    unfold dec_lt, dec_eq, dec_gt, Decimal_of_int, MAX_AMOUNT, cmp in L1, L2, L4.
    cbn [is_nan is_snan orb Z.ltb Z.compare Z.abs_N signed_coefficient Z.of_N Z.mul] in L1, L2.
    cbn [is_nan orb signed_coefficient] in L4.
    change (Z.of_N 99999999) with 99999999 in L4.
    rewrite compare_scaled in L1, L2 by (apply pow10_pos; lia).
    assert (Hs : 0 < signed_coefficient s c).
    { destruct (Z.compare_spec (signed_coefficient s c) 0); try discriminate; lia. }
    assert (s = false) by (destruct s; [cbn in Hs; lia | reflexivity]). subst s.
    cbn [signed_coefficient] in *.
    exists c, e. repeat split; try lia.
    + cbn [breaks fraction_digits] in B3. apply Z.ltb_ge in B3. lia.
    + destruct (Z.compare_spec (Z.of_N c * 10 ^ (e - Z.min e 0))
                               (99999999 * 10 ^ (0 - Z.min e 0))); try discriminate; lia.
  - rewrite (checked_infinity op amount s Hd) in H. destruct s; discriminate.
  - rewrite (checked_nan op amount s g p Hd) in H. discriminate.
  - rewrite (checked_not_numeric op amount Hd) in H. discriminate.
Qed.

Lemma valid_amount_float {R} (c : N) (e : Z) :
  (0 < c)%N -> -2 <= e ->
  Z.of_N c * 10 ^ (e - Z.min e 0) <= 99999999 * 10 ^ (0 - Z.min e 0) ->
  exists x, float_of_Decimal (R := R) (DFinite false c e) = Next x
            /\ rounded_at false (-19) x.
Proof.
  intros Hc He Hmax. cbn [float_of_Decimal signed_coefficient].
  destruct (N.eqb_spec c 0) as [-> | _]; [lia | ].
  eexists. split; [reflexivity | ].
  destruct (Z.leb_spec 0 e) as [H0 | H0].
  - rewrite Z.min_r, Z.sub_0_r, Z.sub_diag in Hmax by lia.
    change (10 ^ 0) with 1 in Hmax.
    assert (0 < 10 ^ e) by (apply pow10_pos; lia).
    assert (Hz : 0 < Z.of_N c * 10 ^ e) by nia.
    eapply rounded_at_le; [apply binary_normalize_nonneg; lia | ].
    rewrite fexp_eq.
    pose proof (Zdigits2_le (Z.of_N c * 10 ^ e) 27 Hz ltac:(change (2 ^ 27) with 134217728; lia) ltac:(lia)).
    lia.
  - rewrite Z.min_l, Z.sub_diag in Hmax by lia.
    change (10 ^ 0) with 1 in Hmax.
    assert (Hp : 10 ^ (0 - e) <= 100).
    { change 100 with (10 ^ 2). apply Z.pow_le_mono_r; lia. }
    replace (0 - e) with (- e) in * by lia.
    assert (0 < 10 ^ (- e)) by (apply pow10_pos; lia).
    eapply rounded_at_le; [apply float_of_ratio_rounded; lia | ].
    rewrite fexp_eq.
    pose proof (Zdigits2_le (Z.of_N c) 34 ltac:(lia)
                  ltac:(change (2 ^ 34) with 17179869184; nia) ltac:(lia)).
    lia.
Qed.

(** ** The table *)

Lemma find_map_same {A} (p : A -> bool) (f : A -> A) (l : list A) (a : A) :
  (forall r, p (f r) = p r) -> find p l = Some a -> find p (map f l) = Some (f a).
Proof.
  intros Hp. induction l as [ | r l IH]; cbn [find map]; [discriminate | ].
  rewrite Hp. destruct (p r); [intros [= ->]; reflexivity | exact IH].
Qed.

Lemma NoDup_map_eq {A B} (f : A -> B) (l : list A) (x y : A) :
  NoDup (map f l) -> In x l -> In y l -> f x = f y -> x = y.
Proof.
  induction l as [ | a l IH]; cbn [map In]; [contradiction | ].
  intros Hnd Hx Hy Hf. inversion Hnd as [ | ? ? Hnotin Hnd']; subst.
  destruct Hx as [-> | Hx], Hy as [-> | Hy]; auto.
  - exfalso. apply Hnotin. rewrite Hf. apply in_map. exact Hy.
  - exfalso. apply Hnotin. rewrite <- Hf. apply in_map. exact Hx.
Qed.

Lemma query_first_some (st : store) (n : string) (a : Account) :
  query_first st n = Some a -> In a (rows st) /\ account_number a = n.
Proof.
  unfold query_first. intros H. apply find_some in H as [Hin Heq].
  split; [exact Hin | apply String.eqb_eq; exact Heq].
Qed.

Lemma query_first_none (st : store) (n : string) :
  query_first st n = None <-> ~ In n (account_numbers st).
Proof.
  unfold query_first, account_numbers. split.
  - intros H Hin. apply in_map_iff in Hin as (a & <- & Hin).
    pose proof (find_none _ _ H a Hin) as Hne. cbn in Hne.
    rewrite String.eqb_refl in Hne. discriminate.
  - intros H. destruct (find _ _) as [a | ] eqn:Hf; [ | reflexivity].
    apply find_some in Hf as [Hin Heq]. apply String.eqb_eq in Heq.
    exfalso. apply H. rewrite <- Heq. apply in_map. exact Hin.
Qed.

Lemma existsb_account_number (st : store) (n : string) :
  existsb (fun a => (account_number a =? n)%string) (rows st) = true
  <-> In n (account_numbers st).
Proof.
  unfold account_numbers. rewrite existsb_exists, in_map_iff. split.
  - intros (a & Hin & Heq). apply String.eqb_eq in Heq. eauto.
  - intros (a & Heq & Hin). exists a. split; [exact Hin | apply String.eqb_eq; exact Heq].
Qed.


Lemma commit_balance_numbers (st : store) (a : Account) (b : spec_float) :
  account_numbers (commit_balance st a b) = account_numbers st.
Proof.
  unfold account_numbers. cbn [commit_balance rows]. rewrite map_map. apply map_ext.
  intros r. destruct (id r =? id a); reflexivity.
Qed.

Lemma commit_balance_query (st : store) (n : string) (a : Account) (b : spec_float) :
  query_first st n = Some a ->
  query_first (commit_balance st a b) n = Some (with_balance a b).
Proof.
  intros H. unfold query_first in *. cbn [commit_balance rows].
  rewrite (find_map_same _ _ _ a); [rewrite Z.eqb_refl; reflexivity | | exact H].
  intros r. destruct (id r =? id a); reflexivity.
Qed.


Lemma commit_balance_forall (P : spec_float -> Prop) (st : store) (a : Account)
      (b : spec_float) :
  Forall (fun r => P (balance r)) (rows st) -> P b ->
  Forall (fun r => P (balance r)) (rows (commit_balance st a b)).
Proof.
  intros H Hb. cbn [commit_balance rows]. apply Forall_map.
  eapply Forall_impl; [ | exact H]. intros r Hr. cbn beta.
  destruct (id r =? id a); [exact Hb | exact Hr].
Qed.

Lemma insert_fresh {R} (st : store) (n : string) (b : spec_float) :
  ~ In n (account_numbers st) ->
  insert (R := R) st n b =
    ({| rows := rows st ++ [{| id := next_id st; account_number := n; balance := b |}];
        next_id := next_id st + 1 |},
     Next {| id := next_id st; account_number := n; balance := b |}).
Proof.
  intros H. unfold insert.
  destruct (existsb _ _) eqn:He; [ | reflexivity].
  apply existsb_account_number in He. contradiction.
Qed.

Lemma insert_taken {R} (st : store) (n : string) (b : spec_float) :
  In n (account_numbers st) ->
  insert (R := R) st n b =
    ({| rows := rows st; next_id := next_id st + 1 |}, Raise IntegrityError).
Proof.
  intros H. unfold insert.
  apply existsb_account_number in H. rewrite H. reflexivity.
Qed.


(** ** The handlers, case by case *)

Lemma amount_of_cases (data : option object) :
  amount_of data = Return malformed_request
  \/ exists amount, amount_of data = Next amount.
Proof.
  destruct data as [data | ]; cbn [amount_of]; [ | left; reflexivity].
  destruct (get "amount" data) as [amount | ]; [right; eauto | left; reflexivity].
Qed.

Lemma perform_absent (op : operation) (st : store) (n : string) (data : option object) :
  query_first st n = None -> perform op st n data = (st, Responded not_found).
Proof. intros H. destruct op; cbn [perform]; unfold deposit, withdraw; rewrite H; reflexivity. Qed.

Lemma perform_malformed (op : operation) (st : store) (n : string)
      (data : option object) (a : Account) :
  query_first st n = Some a -> amount_of data = Return malformed_request ->
  perform op st n data = (st, Responded malformed_request).
Proof.
  intros H Ha. destruct op; cbn [perform]; unfold deposit, withdraw;
    rewrite H, Ha; reflexivity.
Qed.

Lemma perform_rejected (op : operation) (st : store) (n : string)
      (data : option object) (a : Account) (amount : json) (r : response) :
  query_first st n = Some a -> amount_of data = Next amount ->
  checked op amount = Return r ->
  perform op st n data = (st, Responded r).
Proof.
  intros H Ha Hc. destruct op; cbn [perform]; unfold deposit, withdraw;
    rewrite H, Ha; cbn [bind]; rewrite Hc; reflexivity.
Qed.

Lemma perform_raised (op : operation) (st : store) (n : string)
      (data : option object) (a : Account) (amount : json) (e : exn) :
  query_first st n = Some a -> amount_of data = Next amount ->
  checked op amount = Raise e ->
  perform op st n data = (st, Unhandled e).
Proof.
  intros H Ha Hc. destruct op; cbn [perform]; unfold deposit, withdraw;
    rewrite H, Ha; cbn [bind]; rewrite Hc; reflexivity.
Qed.

Lemma deposit_accepted (st : store) (n : string) (data : option object)
      (a : Account) (amount : json) (d : Decimal) (x : spec_float) :
  query_first st n = Some a -> amount_of data = Next amount ->
  checked Deposit amount = Next d -> float_of_Decimal (R := response) d = Next x ->
  deposit st n data =
    (commit_balance st a (fadd (balance a) x),
     Responded (jsonify (BalanceBody (fadd (balance a) x)) 200)).
Proof.
  intros H Ha Hc Hx. unfold deposit. rewrite H, Ha. cbn [bind]. rewrite Hc. cbn [bind].
  rewrite Hx. reflexivity.
Qed.

Lemma withdraw_accepted (st : store) (n : string) (data : option object)
      (a : Account) (amount : json) (d : Decimal) (x : spec_float) :
  query_first st n = Some a -> amount_of data = Next amount ->
  checked Withdrawal amount = Next d -> float_of_Decimal (R := response) d = Next x ->
  withdraw st n data =
    if flt (balance a) x then (st, Responded insufficient_balance)
    else (commit_balance st a (fsub (balance a) x),
          Responded (jsonify (BalanceBody (fsub (balance a) x)) 200)).
Proof.
  intros H Ha Hc Hx. unfold withdraw. rewrite H, Ha. cbn [bind]. rewrite Hc. cbn [bind].
  rewrite Hx. cbn [bind]. destruct (flt (balance a) x); reflexivity.
Qed.

(** The amount of an accepted request, as a double. *)
Lemma accepted_amount (op : operation) (amount : json) (d : Decimal) :
  checked op amount = Next d ->
  exists x, float_of_Decimal (R := response) d = Next x /\ rounded_at false (-19) x.
Proof.
  intros H. apply checked_next in H as (c & e & -> & _ & Hc & He & Hmax).
  apply valid_amount_float; assumption.
Qed.

(** Every way a deposit or a withdrawal can go. *)
Lemma perform_cases (op : operation) (st : store) (n : string) (data : option object) :
  (query_first st n = None /\ perform op st n data = (st, Responded not_found))
  \/ exists a, query_first st n = Some a /\
     ((amount_of data = Return malformed_request
       /\ perform op st n data = (st, Responded malformed_request))
      \/ exists amount, amount_of data = Next amount /\
         ((exists r, checked op amount = Return r
                     /\ perform op st n data = (st, Responded r))
          \/ (exists e, checked op amount = Raise e
                        /\ perform op st n data = (st, Unhandled e))
          \/ exists d x, checked op amount = Next d
               /\ float_of_Decimal (R := response) d = Next x
               /\ rounded_at false (-19) x
               /\ perform op st n data =
                    match op with
                    | Deposit =>
                        (commit_balance st a (fadd (balance a) x),
                         Responded (jsonify (BalanceBody (fadd (balance a) x)) 200))
                    | Withdrawal =>
                        if flt (balance a) x then (st, Responded insufficient_balance)
                        else (commit_balance st a (fsub (balance a) x),
                              Responded (jsonify (BalanceBody (fsub (balance a) x)) 200))
                    end)).
Proof.
  destruct (query_first st n) as [a | ] eqn:Hq;
    [right; exists a; split; [reflexivity | ] | left; split; [reflexivity | apply perform_absent; exact Hq]].
  destruct (amount_of_cases data) as [Ha | [amount Ha]];
    [left; split; [exact Ha | eapply perform_malformed; eassumption] | ].
  right. exists amount. split; [exact Ha | ].
  destruct (checked op amount) as [d | r | e] eqn:Hc.
  - right; right. destruct (accepted_amount op amount d Hc) as (x & Hx & Hr).
    exists d, x. repeat split; try assumption.
    destruct op; cbn [perform].
    + eapply deposit_accepted; eassumption.
    + eapply withdraw_accepted; eassumption.
  - left. exists r. split; [reflexivity | eapply perform_rejected; eassumption].
  - right; left. exists e. split; [reflexivity | eapply perform_raised; eassumption].
Qed.

(** What a deposit or a withdrawal leaves in the table: nothing new, or one
    balance rewritten. *)
Lemma perform_store (op : operation) (st : store) (n : string) (data : option object) :
  fst (perform op st n data) = st
  \/ exists a x, query_first st n = Some a /\ rounded_at false (-19) x
       /\ ((op = Deposit
            /\ fst (perform op st n data) = commit_balance st a (fadd (balance a) x))
           \/ (op = Withdrawal /\ flt (balance a) x = false
               /\ fst (perform op st n data) = commit_balance st a (fsub (balance a) x))).
Proof.
  destruct (perform_cases op st n data)
    as [[_ ->] | (a & Hq & [[_ ->] | (amount & _ & [(r & _ & ->) | [(e & _ & ->) | (d & x & _ & _ & Hr & ->)]])])];
    try (left; reflexivity).
  destruct op.
  - right. exists a, x. repeat split; try assumption. left. split; reflexivity.
  - destruct (flt (balance a) x) eqn:Hlt; [left; reflexivity | ].
    right. exists a, x. repeat split; try assumption. right. repeat split; assumption.
Qed.

Lemma rounded_small_cases (E : Z) (x : spec_float) :
  rounded_at false E x -> E < emax - prec ->
  x = S754_zero false \/ exists m e, x = S754_finite false m e /\ bounded prec emax m e = true.
Proof.
  intros [-> | [[_ H] | (m & e & -> & Hb & _)]] HE; [left; reflexivity | lia | right; eauto].
Qed.

Lemma fsub_rounded_nonnegative (E : Z) (b x : spec_float) :
  is_double b -> nonnegative b = true -> rounded_at false E x -> E < emax - prec ->
  flt b x = false -> nonnegative (fsub b x) = true.
Proof.
  intros Hd Hb Hx HE Hlt.
  destruct (rounded_small_cases E x Hx HE) as [-> | (m & e & -> & Hbd)].
  - destruct (nonnegative_cases b Hb) as [[s ->] | [-> | (mb & eb & ->)]];
      try destruct s; reflexivity.
  - apply fsub_nonnegative; assumption.
Qed.

(** ** Invariants of the service *)


Lemma perform_doubles_ok (op : operation) (st : store) (n : string) (data : option object) :
  doubles_ok st -> doubles_ok (fst (perform op st n data)).
Proof.
  intros H. destruct (perform_store op st n data)
    as [-> | (a & x & Hq & Hx & [[_ ->] | (_ & _ & ->)])]; [exact H | | ].
  - apply (commit_balance_forall is_double); [exact H | ].
    apply fadd_is_double; [ | eapply rounded_is_double; exact Hx].
    apply query_first_some in Hq as [Hin _]. unfold doubles_ok in H.
    rewrite Forall_forall in H. exact (H a Hin).
  - apply (commit_balance_forall is_double); [exact H | ].
    apply fsub_is_double; [ | eapply rounded_is_double; exact Hx].
    apply query_first_some in Hq as [Hin _]. unfold doubles_ok in H.
    rewrite Forall_forall in H. exact (H a Hin).
Qed.

Lemma perform_nonnegative (op : operation) (st : store) (n : string) (data : option object) :
  doubles_ok st -> balances_nonnegative st ->
  balances_nonnegative (fst (perform op st n data)).
Proof.
  intros Hd H. destruct (perform_store op st n data)
    as [-> | (a & x & Hq & Hx & [[_ ->] | (_ & Hlt & ->)])]; [exact H | | ];
    apply query_first_some in Hq as [Hin _];
    unfold doubles_ok, balances_nonnegative in *;
    pose proof (proj1 (Forall_forall _ _) Hd a Hin) as Hda;
    pose proof (proj1 (Forall_forall _ _) H a Hin) as Hna; cbn beta in Hda, Hna.
  - apply (commit_balance_forall (fun f => nonnegative f = true)); [exact H | ].
    eapply fadd_nonnegative; eassumption.
  - apply (commit_balance_forall (fun f => nonnegative f = true)); [exact H | ].
    eapply fsub_rounded_nonnegative; try eassumption. reflexivity.
Qed.

Lemma create_account_cases (st : store) (r : Z) (data : option create_body) :
  match data with
  | None =>
      create_account st r data =
        (st, Responded (jsonify (ErrorBody "Invalid or missing JSON payload") 400))
  | Some body =>
      let b := column_Float (match body_balance body with
                             | Some n => n
                             | None => NFloat (S754_zero false)
                             end) in
      create_account st r data =
        let (st', m) := insert (R := response) st (str_of_int r) b in
        (st', match m with
              | Next a => Responded (jsonify (AccountBody (account_number a) (balance a)) 201)
              | Return resp => Responded resp
              | Raise e => Unhandled e
              end)
  end.
Proof.
  destruct data as [body | ]; [ | reflexivity]. cbn [create_account].
  destruct (insert _ _ _) as [st' [a | resp | e]]; reflexivity.
Qed.

Lemma create_account_store (st : store) (r : Z) (data : option create_body) :
  fst (create_account st r data) = st
  \/ exists body,
       data = Some body
       /\ fst (create_account st r data)
          = fst (insert (R := response) st (str_of_int r)
                   (column_Float (match body_balance body with
                                  | Some n => n
                                  | None => NFloat (S754_zero false)
                                  end))).
Proof.
  pose proof (create_account_cases st r data) as H.
  destruct data as [body | ]; [ | left; rewrite H; reflexivity].
  right. exists body. split; [reflexivity | ]. cbn zeta in H. rewrite H.
  destruct (insert _ _ _); reflexivity.
Qed.

Lemma insert_forall {R} (P : spec_float -> Prop) (st : store) (n : string) (b : spec_float) :
  Forall (fun r => P (balance r)) (rows st) -> P b ->
  Forall (fun r => P (balance r)) (rows (fst (insert (R := R) st n b))).
Proof.
  intros H Hb. unfold insert. destruct (existsb _ _); cbn [fst rows]; [exact H | ].
  apply Forall_app. split; [exact H | ]. repeat constructor. exact Hb.
Qed.


Lemma handle_doubles_ok (st : store) (req : request) :
  request_ok req -> doubles_ok st -> doubles_ok (fst (handle st req)).
Proof.
  intros Hr H. destruct req as [r data | n | n data | n data]; cbn [handle].
  - destruct (create_account_store st r data) as [-> | (body & -> & ->)]; [exact H | ].
    apply (insert_forall is_double); [exact H | ].
    destruct body as [[[z | f] | ]]; cbn [body_balance column_Float];
      [apply float_of_int_is_double | destruct f; first [exact Hr | reflexivity]
       | reflexivity].
  - unfold get_balance. destruct (query_first st n); exact H.
  - apply (perform_doubles_ok Deposit); exact H.
  - apply (perform_doubles_ok Withdrawal); exact H.
Qed.

Lemma run_snoc (st : store) (reqs : list request) (req : request) :
  run st (reqs ++ [req]) = fst (handle (run st reqs) req).
Proof. unfold run. rewrite fold_left_app. reflexivity. Qed.


Lemma run_doubles_ok (reqs : list request) :
  Forall request_ok reqs -> doubles_ok (run initial_store reqs).
Proof.
  induction reqs as [ | req reqs IH] using rev_ind; intros H.
  - constructor.
  - apply Forall_app in H as [H1 H2]. inversion H2; subst.
    rewrite run_snoc. apply handle_doubles_ok; auto.
Qed.

(** ** The claims of the specification *)

(** An error the checks answer with is that of the first rule that fails. *)
Lemma checked_return (op : operation) (amount : json) (r : response) :
  checked op amount = Return r ->
  exists k, first_failing amount = Some k /\ r = validation_error op k.
Proof.
  destruct (Decimal_of_str (py_str amount)) as [[s c e | s | s g p] | ] eqn:Hd.
  - rewrite (checked_finite op amount s c e Hd), (first_failing_some amount _ Hd).
    destruct (breaks Negative _); [intros [= <-]; eauto | ].
    destruct (breaks Zero _); [intros [= <-]; eauto | ].
    destruct (breaks TooManyDecimals _); [intros [= <-]; eauto | ].
    destruct (breaks ExceedsMaximum _); [intros [= <-]; eauto | discriminate].
  - rewrite (checked_infinity op amount s Hd), (first_failing_some amount _ Hd).
    destruct s; [intros [= <-]; cbn; eauto | discriminate].
  - rewrite (checked_nan op amount s g p Hd). discriminate.
  - rewrite (checked_not_numeric op amount Hd), (first_failing_none amount Hd).
    intros [= <-]. eauto.
Qed.

(** C5.  The rules on an amount are applied in the order NotNumeric,
    Negative, Zero, TooManyDecimals, ExceedsMaximum: whenever the checks
    answer with an error, it is the error of the first rule that fails;
    whenever they let the amount through, no rule fails; and they raise
    only on a NaN or on the positive infinity. *)
Theorem first_failing_rule_is_reported (op : operation) (amount : json) :
  match checked op amount with
  | Return r => exists k, first_failing amount = Some k /\ r = validation_error op k
  | Next d => first_failing amount = None /\ Decimal_of_str (py_str amount) = Some d
  | Raise e => exists d, Decimal_of_str (py_str amount) = Some d /\ is_special d = true
  end.
Proof.
  destruct (Decimal_of_str (py_str amount)) as [[s c e | s | s g p] | ] eqn:Hd.
  - rewrite (checked_finite op amount s c e Hd), (first_failing_some amount _ Hd).
    destruct (breaks Negative _); [eauto | ].
    destruct (breaks Zero _); [eauto | ].
    destruct (breaks TooManyDecimals _); [eauto | ].
    destruct (breaks ExceedsMaximum _); [eauto | ].
    split; reflexivity.
  - rewrite (checked_infinity op amount s Hd), (first_failing_some amount _ Hd).
    destruct s; cbn; eauto.
  - rewrite (checked_nan op amount s g p Hd). eauto.
  - rewrite (checked_not_numeric op amount Hd), (first_failing_none amount Hd). eauto.
Qed.

Example negative_with_three_decimals_is_Negative :
  checked Deposit (JString "-1.005") = Return (validation_error Deposit Negative).
Proof. reflexivity. Qed.

Example zero_with_three_decimals_is_Zero :
  checked Withdrawal (JString "0.000") = Return (validation_error Withdrawal Zero).
Proof. reflexivity. Qed.

Example boundaries_of_the_maximum :
  checked Deposit (JNumber (NInt 99999999)) = Next (DFinite false 99999999 0)
  /\ checked Deposit (JNumber (NInt 100000000))
     = Return (validation_error Deposit ExceedsMaximum)
  /\ checked Deposit (JNumber (NInt 0)) = Return (validation_error Deposit Zero)
  /\ checked Deposit JNull = Return (validation_error Deposit NotNumeric).
Proof. repeat split; reflexivity. Qed.

Lemma validation_error_inj (op : operation) (k k' : ErrorKind) :
  validation_error op k = validation_error op k' -> k = k'.
Proof. destruct op, k, k'; intros H; try reflexivity; discriminate H. Qed.

(** C6, amended.  An amount written with at most 2 digits after the decimal
    point never fails with TooManyDecimals; an amount above zero written
    with 3 or more digits after the decimal point always does. *)
Theorem too_many_decimals_when_written_so (op : operation) (amount : json) (d : Decimal) :
  Decimal_of_str (py_str amount) = Some d ->
  (fraction_digits d <= 2 ->
   checked op amount <> Return (validation_error op TooManyDecimals))
  /\ (3 <= fraction_digits d -> breaks Negative d = false -> breaks Zero d = false ->
      checked op amount = Return (validation_error op TooManyDecimals)).
Proof.
  intros Hd.
  assert (Hb : breaks TooManyDecimals d = (2 <? fraction_digits d)) by (destruct d; reflexivity).
  split.
  - intros Hle Hc. apply checked_return in Hc as (k & Hk & Heq).
    apply validation_error_inj in Heq. subst k.
    rewrite (first_failing_some amount d Hd) in Hk.
    destruct (breaks Negative d); [discriminate | ].
    destruct (breaks Zero d); [discriminate | ].
    rewrite Hb in Hk. destruct (Z.ltb_spec 2 (fraction_digits d)); [lia | ].
    destruct (breaks ExceedsMaximum d); discriminate.
  - intros Hge Hn Hz.
    destruct d as [s c e | s | s g p]; cbn [fraction_digits] in Hge; try lia.
    rewrite (checked_finite op amount s c e Hd), Hn, Hz, Hb.
    cbn [fraction_digits]. destruct (Z.ltb_spec 2 (Z.max 0 (- e))); [reflexivity | lia].
Qed.

Lemma too_many_decimals_when_written_so_witness :
  Decimal_of_str (py_str (JString "1.005")) = Some (DFinite false 1005 (-3))
  /\ 3 <= fraction_digits (DFinite false 1005 (-3))
  /\ checked Deposit (JString "1.005") = Return (validation_error Deposit TooManyDecimals).
Proof.
  split; [reflexivity | ]. split; [cbn; lia | ].
  apply (too_many_decimals_when_written_so Deposit (JString "1.005")
           (DFinite false 1005 (-3)) eq_refl);
    [cbn; lia | reflexivity | reflexivity].
Defined.

(** C6 as stated fails: -1.005 has 3 digits after the decimal point and is
    turned down as Negative, not as TooManyDecimals. *)
Lemma negative_three_decimals_not_TooManyDecimals :
  exists d,
    Decimal_of_str (py_str (JString "-1.005")) = Some d
    /\ 3 <= fraction_digits d
    /\ checked Deposit (JString "-1.005") = Return (validation_error Deposit Negative)
    /\ checked Deposit (JString "-1.005")
       <> Return (validation_error Deposit TooManyDecimals).
Proof.
  exists (DFinite true 1005 (-3)).
  split; [reflexivity | ]. split; [cbn; lia | ]. split; [reflexivity | ].
  intros H. discriminate H.
Qed.

Example trailing_zeros_count_as_decimals :
  checked Deposit (JString "1.000") = Return (validation_error Deposit TooManyDecimals).
Proof. reflexivity. Qed.

Example one_decimal_is_accepted :
  exists b,
    snd (deposit one_account "1234" (amount_body (JString "12.3")))
    = Responded (jsonify (BalanceBody b) 200)
    /\ float_repr b = "12.3".
Proof.
  exists (S754_finite false 6924284427082138 (-49)).
  split; [vm_compute; reflexivity | vm_compute; reflexivity].
Qed.

Lemma validation_error_not_insufficient (op : operation) (k : ErrorKind) :
  validation_error op k <> insufficient_balance.
Proof. destruct op, k; intros H; discriminate H. Qed.

(** C4.  The account is looked up before the amount is checked, and the
    amount is checked before the balance is compared: a request on an
    unknown account answers 404 whatever its body; on a known account an
    amount the checks turn down is answered with their error whatever the
    balance; "Insufficient balance" is answered only for an amount that
    passed the checks, and a validation error only for a known account. *)
Theorem checks_are_ordered (op : operation) (st : store) (n : string)
        (data : option object) :
  (query_first st n = None -> perform op st n data = (st, Responded not_found))
  /\ (forall a amount r,
        query_first st n = Some a -> amount_of data = Next amount ->
        checked op amount = Return r ->
        perform op st n data = (st, Responded r))
  /\ (forall st',
        perform op st n data = (st', Responded insufficient_balance) ->
        exists a amount d,
          query_first st n = Some a /\ amount_of data = Next amount
          /\ checked op amount = Next d)
  /\ (forall st' k,
        perform op st n data = (st', Responded (validation_error op k)) ->
        exists a, query_first st n = Some a).
Proof.
  split; [apply perform_absent | ].
  split; [intros a amount r; apply perform_rejected | ].
  split.
  - intros st' H.
    destruct (perform_cases op st n data)
      as [[_ E] | (a & Hq & [[_ E] | (amount & Ha & [(r & Hc & E) | [(e & _ & E) | (d & x & Hc & _ & _ & E)]])])];
      rewrite E in H; try discriminate H.
    + injection H as _ H. apply checked_return in Hc as (k & _ & ->).
      exfalso. exact (validation_error_not_insufficient op k H).
    + exists a, amount, d. repeat split; assumption.
  - intros st' k H.
    destruct (query_first st n) as [a | ] eqn:Hq; [eauto | ].
    rewrite (perform_absent op st n data Hq) in H.
    destruct op, k; discriminate H.
Qed.

Lemma checks_are_ordered_witness :
  query_first one_account "0000" = None
  /\ perform Deposit one_account "0000" (amount_body (JString "-1.005"))
     = (one_account, Responded not_found).
Proof.
  split; [reflexivity | ].
  apply (proj1 (checks_are_ordered Deposit one_account "0000"
                  (amount_body (JString "-1.005")))).
  reflexivity.
Defined.

(** C8.  A deposit or a withdrawal that is answered with anything but a 200
    carries the message listed for what went wrong: the account is unknown,
    the payload or its amount is missing, a rule of the validator fails (the
    first that does), or, for a withdrawal, the balance does not cover the
    amount. *)
Theorem error_messages_as_listed (op : operation) (st st' : store) (n : string)
        (data : option object) (r : response) :
  perform op st n data = (st', Responded r) -> status r <> 200 ->
  (query_first st n = None
   /\ r = {| status := 404; payload := ErrorBody "Account not found" |})
  \/ (amount_of data = Return malformed_request
      /\ r = {| status := 400;
                payload := ErrorBody "Invalid or missing JSON payload or 'amount'" |})
  \/ (exists amount k,
        amount_of data = Next amount /\ first_failing amount = Some k
        /\ r = {| status := 400; payload := ErrorBody (message op k) |})
  \/ (exists a amount d x,
        op = Withdrawal /\ query_first st n = Some a /\ amount_of data = Next amount
        /\ checked op amount = Next d /\ float_of_Decimal (R := response) d = Next x
        /\ flt (balance a) x = true
        /\ r = {| status := 400; payload := ErrorBody "Insufficient balance" |}).
Proof.
  intros H Hs.
  destruct (perform_cases op st n data)
    as [[Hq E] | (a & Hq & [[Ha E] | (amount & Ha & [(r' & Hc & E) | [(e & _ & E) | (d & x & Hc & Hx & _ & E)]])])];
    rewrite E in H; try discriminate H.
  - injection H as _ <-. left. split; [exact Hq | reflexivity].
  - injection H as _ <-. right; left. split; [exact Ha | reflexivity].
  - injection H as _ <-. right; right; left.
    apply checked_return in Hc as (k & Hk & ->). exists amount, k. repeat split; assumption.
  - destruct op.
    + injection H as _ <-. exfalso. apply Hs. reflexivity.
    + destruct (flt (balance a) x) eqn:Hlt.
      * injection H as _ <-. right; right; right.
        exists a, amount, d, x. repeat split; assumption.
      * injection H as _ <-. exfalso. apply Hs. reflexivity.
Qed.

Lemma error_messages_as_listed_witness :
  perform Withdrawal one_account "1234" (amount_body (JString "1.005"))
  = (one_account,
     Responded {| status := 400;
                  payload := ErrorBody "Withdrawal failed - Amount must have at most 2 decimal places" |})
  /\ exists amount k,
       amount_of (amount_body (JString "1.005")) = Next amount
       /\ first_failing amount = Some k
       /\ {| status := 400;
             payload := ErrorBody "Withdrawal failed - Amount must have at most 2 decimal places" |}
          = {| status := 400; payload := ErrorBody (message Withdrawal k) |}.
Proof.
  split; [reflexivity | ].
  destruct (error_messages_as_listed Withdrawal one_account one_account "1234"
              (amount_body (JString "1.005"))
              {| status := 400;
                 payload := ErrorBody "Withdrawal failed - Amount must have at most 2 decimal places" |}
              eq_refl)
    as [[H _] | [[H _] | [H | (a & amount & d & x & _ & _ & Ha & Hc & _)]]].
  - cbn. lia.
  - discriminate H.
  - discriminate H.
  - exact H.
  - injection Ha as <-. discriminate Hc.
Defined.

Example messages_of_the_claim :
  message Deposit Negative = "Amount cannot be negative"
  /\ message Deposit Zero = "Amount must be greater than zero"
  /\ message Deposit ExceedsMaximum = "Amount exceeds maximum allowed value"
  /\ message Withdrawal TooManyDecimals
     = "Withdrawal failed - Amount must have at most 2 decimal places"
  /\ snd (withdraw one_account "1234" (amount_body (JString "5")))
     = Responded {| status := 400; payload := ErrorBody "Insufficient balance" |}.
Proof. repeat split; reflexivity. Qed.

(** C9.  An amount that converts to a NaN makes the comparison [d < 0]
    raise, and one that converts to the positive infinity makes the
    comparison of the exponent raise: the handler ends on the exception, with
    neither a 200 nor one of the 400 responses. *)
Theorem special_amounts_are_unhandled :
  deposit one_account "1234" (amount_body (JString "NaN"))
  = (one_account, Unhandled InvalidOperation)
  /\ withdraw one_account "1234" (amount_body (JString "NaN"))
     = (one_account, Unhandled InvalidOperation)
  /\ deposit one_account "1234" (amount_body (JString "Infinity"))
     = (one_account, Unhandled TypeError)
  /\ withdraw one_account "1234" (amount_body (JString "Infinity"))
     = (one_account, Unhandled TypeError)
  /\ deposit one_account "1234" (amount_body (JNumber (NFloat S754_nan)))
     = (one_account, Unhandled InvalidOperation).
Proof. repeat split; reflexivity. Qed.

Lemma special_amount_raises (op : operation) (st : store) (n : string)
      (data : option object) (a : Account) (amount : json) (d : Decimal) :
  query_first st n = Some a -> amount_of data = Next amount ->
  Decimal_of_str (py_str amount) = Some d -> is_special d = true ->
  exists e, perform op st n data = (st, Unhandled e).
Proof.
  intros Hq Ha Hd Hs.
  destruct d as [s c e | s | s g p]; [discriminate Hs | | ].
  - destruct s; [discriminate Hs | ]. exists TypeError.
    eapply perform_raised; try eassumption. apply (checked_infinity op amount false Hd).
  - exists InvalidOperation.
    eapply perform_raised; try eassumption. apply (checked_nan op amount s g p Hd).
Qed.

Lemma Forall2_map_right {A} (R : A -> A -> Prop) (f : A -> A) (l : list A) :
  (forall a, In a l -> R a (f a)) -> Forall2 R l (map f l).
Proof.
  induction l as [ | a l IH]; intros H; cbn [map]; constructor.
  - apply H. left. reflexivity.
  - apply IH. intros b Hb. apply H. right. exact Hb.
Qed.

(** C10.  A deposit or a withdrawal on account [n], answered or not, leaves
    every row its id and its account number, leaves the rows of the other
    accounts as they are, and leaves the sequence of ids alone. *)
Theorem only_the_balance_of_the_account_changes (op : operation) (st : store)
        (n : string) (data : option object) :
  NoDup (map id (rows st)) ->
  Forall2 (fun a a' => id a' = id a /\ account_number a' = account_number a
                       /\ (account_number a <> n -> a' = a))
          (rows st) (rows (fst (perform op st n data)))
  /\ next_id (fst (perform op st n data)) = next_id st.
Proof.
  intros Hnd.
  assert (Hsame : Forall2 (fun a a' => id a' = id a /\ account_number a' = account_number a
                                       /\ (account_number a <> n -> a' = a))
                          (rows st) (rows st)).
  { rewrite <- (map_id (rows st)) at 2. apply Forall2_map_right. intros; auto. }
  assert (Hcommit : forall a b, query_first st n = Some a ->
            Forall2 (fun a a' => id a' = id a /\ account_number a' = account_number a
                                 /\ (account_number a <> n -> a' = a))
                    (rows st) (rows (commit_balance st a b))).
  { intros a b Hq. apply query_first_some in Hq as [Hin Hn].
    cbn [commit_balance rows]. apply Forall2_map_right. intros r Hr.
    destruct (Z.eqb_spec (id r) (id a)) as [Heq | Hne]; [ | auto].
    cbn [with_balance id account_number]. repeat split.
    intros Hrn. exfalso. apply Hrn.
    rewrite (NoDup_map_eq id (rows st) r a Hnd Hr Hin Heq). exact Hn. }
  destruct (perform_store op st n data)
    as [-> | (a & x & Hq & _ & [[_ ->] | (_ & _ & ->)])]; auto.
Qed.

Lemma only_the_balance_of_the_account_changes_witness :
  NoDup (map id (rows one_account))
  /\ Forall2 (fun a a' => id a' = id a /\ account_number a' = account_number a
                          /\ (account_number a <> "1234" -> a' = a))
             (rows one_account)
             (rows (fst (perform Deposit one_account "1234"
                           (amount_body (JString "50.00")))))
  /\ next_id (fst (perform Deposit one_account "1234" (amount_body (JString "50.00"))))
     = next_id one_account.
Proof.
  assert (H : NoDup (map id (rows one_account))) by (repeat constructor; intros []).
  split; [exact H | ].
  exact (only_the_balance_of_the_account_changes Deposit one_account "1234"
           (amount_body (JString "50.00")) H).
Defined.




(** C1, amended.  A deposit of an amount that passes the checks on a known
    account succeeds, and the balance it persists and answers with is the
    binary64 sum of the balance and of the double nearest to the amount. *)
Theorem deposit_adds_in_binary64 (st : store) (n : string) (data : option object)
        (a : Account) (amount : json) (d : Decimal) :
  query_first st n = Some a -> amount_of data = Next amount ->
  checked Deposit amount = Next d ->
  exists x,
    float_of_Decimal (R := response) d = Next x
    /\ deposit st n data
       = (commit_balance st a (fadd (balance a) x),
          Responded (jsonify (BalanceBody (fadd (balance a) x)) 200))
    /\ query_first (commit_balance st a (fadd (balance a) x)) n
       = Some (with_balance a (fadd (balance a) x)).
Proof.
  intros Hq Ha Hc. destruct (accepted_amount Deposit amount d Hc) as (x & Hx & _).
  exists x. split; [exact Hx | ]. split.
  - eapply deposit_accepted; eassumption.
  - apply commit_balance_query. exact Hq.
Qed.

Lemma deposit_adds_in_binary64_witness :
  query_first one_account "1234"
  = Some {| id := 1; account_number := "1234"; balance := S754_zero false |}
  /\ amount_of (amount_body (JString "50.00")) = Next (JString "50.00")
  /\ checked Deposit (JString "50.00") = Next (DFinite false 5000 (-2))
  /\ exists x,
       float_of_Decimal (R := response) (DFinite false 5000 (-2)) = Next x
       /\ deposit one_account "1234" (amount_body (JString "50.00"))
          = (commit_balance one_account
               {| id := 1; account_number := "1234"; balance := S754_zero false |}
               (fadd (S754_zero false) x),
             Responded (jsonify (BalanceBody (fadd (S754_zero false) x)) 200))
       /\ query_first
            (commit_balance one_account
               {| id := 1; account_number := "1234"; balance := S754_zero false |}
               (fadd (S754_zero false) x)) "1234"
          = Some (with_balance
                    {| id := 1; account_number := "1234"; balance := S754_zero false |}
                    (fadd (S754_zero false) x)).
Proof.
  split; [reflexivity | ]. split; [reflexivity | ]. split; [reflexivity | ].
  exact (deposit_adds_in_binary64 one_account "1234" (amount_body (JString "50.00"))
           {| id := 1; account_number := "1234"; balance := S754_zero false |}
           (JString "50.00") (DFinite false 5000 (-2)) eq_refl eq_refl eq_refl).
Defined.

(** C1 as stated fails.  After a deposit of 0.1, a deposit of 0.2 succeeds and
    leaves a balance that is not the sum of the balance and the amount, and
    that prints as 0.30000000000000004; on a balance of 9007199254740992 a
    deposit of 1 succeeds and leaves the balance as it was. *)
Lemma deposit_is_not_exact :
  (exists b d b' v a v',
     balance_after [CreateAccount 1234 no_balance;
                    PostDeposit "1234" (amount_body (JString "0.1"))] = Some b
     /\ checked Deposit (JString "0.2") = Next d
     /\ balance_after [CreateAccount 1234 no_balance;
                       PostDeposit "1234" (amount_body (JString "0.1"));
                       PostDeposit "1234" (amount_body (JString "0.2"))] = Some b'
     /\ float_value b = Some v /\ Decimal_value d = Some a /\ float_value b' = Some v'
     /\ ~ (v' == v + a)%Q
     /\ float_repr b' = "0.30000000000000004")
  /\ (exists b,
        balance_after [CreateAccount 1234 (opening (NInt 9007199254740992))] = Some b
        /\ float_value b = Some (Qmake 9007199254740992 1)
        /\ checked Deposit (JString "1") = Next (DFinite false 1 0)
        /\ balance_after [CreateAccount 1234 (opening (NInt 9007199254740992));
                          PostDeposit "1234" (amount_body (JString "1"))] = Some b).
Proof.
  split.
  - do 6 eexists.
    split; [vm_compute; reflexivity | ].
    split; [vm_compute; reflexivity | ].
    split; [vm_compute; reflexivity | ].
    split; [vm_compute; reflexivity | ].
    split; [vm_compute; reflexivity | ].
    split; [vm_compute; reflexivity | ].
    split; [intros H; vm_compute in H; discriminate H | vm_compute; reflexivity].
  - exists (S754_finite false 4503599627370496 1).
    split; [vm_compute; reflexivity | ].
    split; [vm_compute; reflexivity | ].
    split; [vm_compute; reflexivity | vm_compute; reflexivity].
Qed.

(** C2, amended.  A withdrawal of an amount that passes the checks on a
    known account compares the balance with the double nearest to the amount:
    when the balance is not below it, the withdrawal succeeds and persists the
    binary64 difference; when the balance is below it, the withdrawal answers
    "Insufficient balance" and the store is as it was. *)
Theorem withdraw_subtracts_in_binary64 (st : store) (n : string)
        (data : option object) (a : Account) (amount : json) (d : Decimal) :
  query_first st n = Some a -> amount_of data = Next amount ->
  checked Withdrawal amount = Next d ->
  exists x,
    float_of_Decimal (R := response) d = Next x
    /\ (flt (balance a) x = false ->
        withdraw st n data
        = (commit_balance st a (fsub (balance a) x),
           Responded (jsonify (BalanceBody (fsub (balance a) x)) 200))
        /\ query_first (commit_balance st a (fsub (balance a) x)) n
           = Some (with_balance a (fsub (balance a) x)))
    /\ (flt (balance a) x = true ->
        withdraw st n data = (st, Responded insufficient_balance)).
Proof.
  intros Hq Ha Hc. destruct (accepted_amount Withdrawal amount d Hc) as (x & Hx & _).
  exists x. split; [exact Hx | ].
  pose proof (withdraw_accepted st n data a amount d x Hq Ha Hc Hx) as E.
  split; intros Hlt; rewrite Hlt in E.
  - split; [exact E | apply commit_balance_query; exact Hq].
  - exact E.
Qed.

Lemma withdraw_subtracts_in_binary64_witness :
  query_first one_account "1234"
  = Some {| id := 1; account_number := "1234"; balance := S754_zero false |}
  /\ amount_of (amount_body (JString "20.00")) = Next (JString "20.00")
  /\ checked Withdrawal (JString "20.00") = Next (DFinite false 2000 (-2))
  /\ exists x,
       float_of_Decimal (R := response) (DFinite false 2000 (-2)) = Next x
       /\ flt (S754_zero false) x = true
       /\ withdraw one_account "1234" (amount_body (JString "20.00"))
          = (one_account, Responded insufficient_balance).
Proof.
  split; [reflexivity | ]. split; [reflexivity | ]. split; [reflexivity | ].
  destruct (withdraw_subtracts_in_binary64 one_account "1234"
              (amount_body (JString "20.00"))
              {| id := 1; account_number := "1234"; balance := S754_zero false |}
              (JString "20.00") (DFinite false 2000 (-2)) eq_refl eq_refl eq_refl)
    as (x & Hx & _ & Hno).
  exists x. split; [exact Hx | ].
  assert (Hlt : flt (S754_zero false) x = true).
  { injection Hx as <-. reflexivity. }
  split; [exact Hlt | exact (Hno Hlt)].
Defined.

(** C2 as stated fails.  On the balance a deposit of 0.3 leaves, a
    withdrawal of 0.1 succeeds and leaves a balance that is not the
    difference of the balance and the amount, and that prints as
    0.19999999999999998. *)
Lemma withdraw_is_not_exact :
  exists b d b' v a v',
    balance_after [CreateAccount 1234 no_balance;
                   PostDeposit "1234" (amount_body (JString "0.3"))] = Some b
    /\ checked Withdrawal (JString "0.1") = Next d
    /\ balance_after [CreateAccount 1234 no_balance;
                      PostDeposit "1234" (amount_body (JString "0.3"));
                      PostWithdraw "1234" (amount_body (JString "0.1"))] = Some b'
    /\ float_value b = Some v /\ Decimal_value d = Some a /\ float_value b' = Some v'
    /\ (a <= v)%Q
    /\ ~ (v' == v - a)%Q
    /\ float_repr b' = "0.19999999999999998".
Proof.
  do 6 eexists.
  split; [vm_compute; reflexivity | ].
  split; [vm_compute; reflexivity | ].
  split; [vm_compute; reflexivity | ].
  split; [vm_compute; reflexivity | ].
  split; [vm_compute; reflexivity | ].
  split; [vm_compute; reflexivity | ].
  split; [intros H; vm_compute in H; discriminate H | ].
  split; [intros H; vm_compute in H; discriminate H | vm_compute; reflexivity].
Qed.

(** C3, amended.  On a store whose balances are doubles and are all at
    least 0, every request that does not open an account with a negative
    balance (a creation without balance or with one that is not negative, a
    deposit, a withdrawal, a look at a balance) leaves every balance at least
    0. *)
Theorem balances_stay_nonnegative (st : store) (req : request) :
  doubles_ok st -> balances_nonnegative st -> opens_nonnegative req ->
  balances_nonnegative (fst (handle st req)).
Proof.
  intros Hd H Hr. destruct req as [r data | n | n data | n data]; cbn [handle].
  - destruct (create_account_store st r data) as [-> | (body & -> & ->)]; [exact H | ].
    apply (insert_forall (fun f => nonnegative f = true)); [exact H | ].
    destruct body as [[[z | f] | ]]; cbn [body_balance column_Float];
      [ | destruct f; first [exact Hr | reflexivity] | reflexivity].
    eapply rounded_nonnegative, binary_normalize_nonneg. exact Hr.
  - unfold get_balance. destruct (query_first st n); exact H.
  - apply (perform_nonnegative Deposit); assumption.
  - apply (perform_nonnegative Withdrawal); assumption.
Qed.

Lemma balances_stay_nonnegative_witness :
  doubles_ok one_account /\ balances_nonnegative one_account
  /\ opens_nonnegative (PostWithdraw "1234" (amount_body (JString "20.00")))
  /\ balances_nonnegative
       (fst (handle one_account (PostWithdraw "1234" (amount_body (JString "20.00"))))).
Proof.
  assert (H1 : doubles_ok one_account) by (repeat constructor).
  assert (H2 : balances_nonnegative one_account) by (repeat constructor).
  split; [exact H1 | ]. split; [exact H2 | ]. split; [exact I | ].
  exact (balances_stay_nonnegative one_account
           (PostWithdraw "1234" (amount_body (JString "20.00"))) H1 H2 I).
Defined.

(** C3 as stated fails.  A creation with the initial balance -5 succeeds and
    the account it opens has a balance below 0. *)
Lemma creation_opens_negative_balance :
  exists st b,
    create_account initial_store 1234 (opening (NInt (-5)))
    = (st, Responded (jsonify (AccountBody "1234" b) 201))
    /\ option_map balance (query_first st "1234") = Some b
    /\ nonnegative b = false
    /\ flt b fzero = true.
Proof.
  exists (fst (create_account initial_store 1234 (opening (NInt (-5))))).
  exists (S754_finite true 5629499534213120 (-50)).
  split; [vm_compute; reflexivity | ].
  split; [vm_compute; reflexivity | ].
  split; [vm_compute; reflexivity | vm_compute; reflexivity].
Qed.

(** The scenario of the specification: no balance, +50.00, -20.00, -1000.00. *)
Example scenario :
  let r1 := CreateAccount 1234 no_balance in
  let r2 := PostDeposit "1234" (amount_body (JString "50.00")) in
  let r3 := PostWithdraw "1234" (amount_body (JString "20.00")) in
  let r4 := PostWithdraw "1234" (amount_body (JString "1000.00")) in
  balance_after [r1] = Some (float_of_int 0)
  /\ balance_after [r1; r2] = Some (float_of_int 50)
  /\ balance_after [r1; r2; r3] = Some (float_of_int 30)
  /\ snd (handle (run initial_store [r1; r2; r3]) r4) = Responded insufficient_balance
  /\ balance_after [r1; r2; r3; r4] = Some (float_of_int 30)
  /\ snd (get_balance (run initial_store [r1]) "0000") = Responded not_found.
Proof. repeat split; vm_compute; reflexivity. Qed.

(** ** Further properties of the handlers *)

Lemma create_account_rows (st : store) (r : Z) (data : option create_body) :
  rows (fst (create_account st r data)) = rows st
  \/ exists body b,
       data = Some body
       /\ ~ In (str_of_int r) (account_numbers st)
       /\ b = column_Float (match body_balance body with
                            | Some n => n
                            | None => NFloat (S754_zero false)
                            end)
       /\ create_account st r data
          = ({| rows := rows st ++ [{| id := next_id st;
                                       account_number := str_of_int r;
                                       balance := b |}];
                next_id := next_id st + 1 |},
             Responded (jsonify (AccountBody (str_of_int r) b) 201)).
Proof.
  pose proof (create_account_cases st r data) as E.
  destruct data as [body | ]; [ | left; rewrite E; reflexivity].
  cbn zeta in E.
  destruct (in_dec string_dec (str_of_int r) (account_numbers st)) as [Hin | Hout].
  - left. rewrite E, insert_taken by exact Hin. reflexivity.
  - right. do 2 eexists. split; [reflexivity | ]. split; [exact Hout | ].
    split; [reflexivity | ]. rewrite E, insert_fresh by exact Hout. reflexivity.
Qed.

Lemma query_first_app_known (st : store) (l : list Account) (n : string) (k : Z) :
  In n (account_numbers st) ->
  query_first {| rows := rows st ++ l; next_id := k |} n = query_first st n.
Proof.
  unfold query_first, account_numbers. cbn [rows]. intros Hin.
  apply in_map_iff in Hin as (a & <- & Hin).
  induction (rows st) as [ | r rs IH]; [contradiction | ]. cbn [app find].
  destruct (account_number r =? account_number a)%string eqn:He; [reflexivity | ].
  destruct Hin as [-> | Hin]; [rewrite String.eqb_refl in He; discriminate | ].
  apply IH. exact Hin.
Qed.

Lemma query_first_app_fresh (st : store) (a : Account) (k : Z) :
  ~ In (account_number a) (account_numbers st) ->
  query_first {| rows := rows st ++ [a]; next_id := k |} (account_number a) = Some a.
Proof.
  unfold query_first, account_numbers. cbn [rows]. intros Hout.
  induction (rows st) as [ | r rs IH]; cbn [app find].
  - rewrite String.eqb_refl. reflexivity.
  - destruct (String.eqb_spec (account_number r) (account_number a)) as [He | _].
    + exfalso. apply Hout. left. exact He.
    + apply IH. intros H. apply Hout. right. exact H.
Qed.

(** X1.  An account that was just opened with a balance the table takes is
    found by [get_balance], which answers the balance the creation answered
    with: the one the [Float] column holds for the number the body carries
    (that number as a double, 0.0 for a zero of either sign), or 0.0 when the
    body carries none. *)
Theorem created_account_is_found (st st' : store) (r : Z) (data : option create_body)
        (n : string) (b : spec_float) :
  storable data ->
  create_account st r data = (st', Responded (jsonify (AccountBody n b) 201)) ->
  n = str_of_int r
  /\ (exists body, data = Some body
                   /\ b = column_Float (match body_balance body with
                                        | Some x => x
                                        | None => NFloat (S754_zero false)
                                        end))
  /\ get_balance st' n = (st', Responded (jsonify (BalanceBody b) 200)).
Proof.
  intros _ H.
  pose proof (create_account_cases st r data) as E.
  destruct data as [body | ]; [ | rewrite E in H; discriminate H].
  cbn zeta in E.
  destruct (in_dec string_dec (str_of_int r) (account_numbers st)) as [Hin | Hout].
  - rewrite E, insert_taken in H by exact Hin. discriminate H.
  - rewrite E, insert_fresh in H by exact Hout. cbn [account_number balance] in H.
    injection H as <- <- <-.
    split; [reflexivity | ]. split; [exists body; split; reflexivity | ].
    unfold get_balance.
    rewrite (query_first_app_fresh st
               {| id := next_id st; account_number := str_of_int r;
                  balance := column_Float match body_balance body with
                                          | Some x => x
                                          | None => NFloat (S754_zero false)
                                          end |}) by exact Hout.
    reflexivity.
Qed.

Lemma created_account_is_found_witness :
  storable (opening (NInt 7))
  /\ create_account initial_store 1234 (opening (NInt 7))
     = (fst (create_account initial_store 1234 (opening (NInt 7))),
        Responded (jsonify (AccountBody "1234" (float_of_int 7)) 201))
  /\ get_balance (fst (create_account initial_store 1234 (opening (NInt 7)))) "1234"
     = (fst (create_account initial_store 1234 (opening (NInt 7))),
        Responded (jsonify (BalanceBody (float_of_int 7)) 200)).
Proof.
  assert (H : create_account initial_store 1234 (opening (NInt 7))
              = (fst (create_account initial_store 1234 (opening (NInt 7))),
                 Responded (jsonify (AccountBody "1234" (float_of_int 7)) 201)))
    by (vm_compute; reflexivity).
  assert (S : storable (opening (NInt 7))) by reflexivity.
  split; [exact S | ]. split; [exact H | ].
  exact (proj2 (proj2 (created_account_is_found _ _ _ _ _ _ S H))).
Defined.

(** X2.  The balance a deposit or a withdrawal answers with is the balance
    it stored: [get_balance] on the store it leaves answers the same
    balance. *)
Theorem answered_balance_is_stored (op : operation) (st st' : store) (n : string)
        (data : option object) (b : spec_float) :
  perform op st n data = (st', Responded (jsonify (BalanceBody b) 200)) ->
  get_balance st' n = (st', Responded (jsonify (BalanceBody b) 200)).
Proof.
  intros H.
  destruct (perform_cases op st n data)
    as [[_ E] | (a & Hq & [[_ E] | (amount & _ & [(r & Hc & E) | [(e & _ & E) | (d & x & _ & _ & _ & E)]])])];
    rewrite E in H; try discriminate H.
  - apply checked_return in Hc as (k & _ & ->). destruct op, k; discriminate H.
  - destruct op.
    + injection H as <- <-. unfold get_balance.
      rewrite (commit_balance_query st n a _ Hq). reflexivity.
    + destruct (flt (balance a) x); [discriminate H | ].
      injection H as <- <-. unfold get_balance.
      rewrite (commit_balance_query st n a _ Hq). reflexivity.
Qed.

Lemma answered_balance_is_stored_witness :
  perform Deposit one_account "1234" (amount_body (JString "50.00"))
  = (fst (perform Deposit one_account "1234" (amount_body (JString "50.00"))),
     Responded (jsonify (BalanceBody (float_of_int 50)) 200))
  /\ get_balance (fst (perform Deposit one_account "1234" (amount_body (JString "50.00"))))
       "1234"
     = (fst (perform Deposit one_account "1234" (amount_body (JString "50.00"))),
        Responded (jsonify (BalanceBody (float_of_int 50)) 200)).
Proof.
  assert (H : perform Deposit one_account "1234" (amount_body (JString "50.00"))
              = (fst (perform Deposit one_account "1234" (amount_body (JString "50.00"))),
                 Responded (jsonify (BalanceBody (float_of_int 50)) 200)))
    by (vm_compute; reflexivity).
  split; [exact H | ].
  exact (answered_balance_is_stored _ _ _ _ _ _ H).
Defined.

(** X3.  Only a request that is answered 200 or 201 writes: after any other
    answer, and after an exception, the rows of the table are as they
    were. *)
Theorem only_success_writes (st : store) (req : request) :
  match snd (handle st req) with
  | Responded r =>
      status r = 200 \/ status r = 201 \/ rows (fst (handle st req)) = rows st
  | Unhandled _ => rows (fst (handle st req)) = rows st
  end.
Proof.
  assert (P : forall op n data,
             match snd (perform op st n data) with
             | Responded r =>
                 status r = 200 \/ status r = 201
                 \/ rows (fst (perform op st n data)) = rows st
             | Unhandled _ => rows (fst (perform op st n data)) = rows st
             end).
  { intros op n data.
    destruct (perform_cases op st n data)
      as [[_ E] | (a & Hq & [[_ E] | (amount & _ & [(r & Hc & E) | [(e & _ & E) | (d & x & _ & _ & _ & E)]])])];
      rewrite E; cbn [fst snd]; auto.
    destruct op; [cbn [fst snd]; left; reflexivity | ].
    destruct (flt (balance a) x); cbn [fst snd]; auto. }
  destruct req as [r data | n | n data | n data]; cbn [handle].
  - destruct (create_account_rows st r data) as [E | (body & b & _ & _ & _ & E)].
    + destruct (snd (create_account st r data)); auto.
    + rewrite E. cbn [fst snd]. right; left. reflexivity.
  - unfold get_balance. destruct (query_first st n); cbn [fst snd]; auto.
  - apply (P Deposit).
  - apply (P Withdrawal).
Qed.

(** X4.  [get_balance], a deposit and a withdrawal answer 404 exactly when no
    account has the number asked for, and then with "Account not found";
    a creation answers 400 exactly when it got no payload. *)
Theorem not_found_iff_unknown (st : store) (n : string) :
  (forall op data r,
     snd (perform op st n data) = Responded r ->
     (status r = 404 <-> query_first st n = None)
     /\ (status r = 404 -> r = not_found))
  /\ (forall r,
        snd (get_balance st n) = Responded r ->
        (status r = 404 <-> query_first st n = None)
        /\ (status r = 404 -> r = not_found))
  /\ (forall k data r,
        snd (create_account st k data) = Responded r ->
        (status r = 400 <-> data = None) /\ (status r = 400 \/ status r = 201)).
Proof.
  split; [ | split].
  - intros op data r H.
    destruct (perform_cases op st n data)
      as [[Hq E] | (a & Hq & [[_ E] | (amount & _ & [(r' & Hc & E) | [(e & _ & E) | (d & x & _ & _ & _ & E)]])])];
      rewrite E in H; cbn [snd] in H.
    + injection H as <-. repeat split; auto.
    + injection H as <-. rewrite Hq. repeat split; intros H; discriminate H.
    + injection H as <-. apply checked_return in Hc as (k & _ & ->).
      rewrite Hq. repeat split; intros H; discriminate H.
    + discriminate H.
    + rewrite Hq. destruct op; [ | destruct (flt (balance a) x)];
        cbn [snd] in H; injection H as <-; repeat split; intros H; discriminate H.
  - intros r H. unfold get_balance in H.
    destruct (query_first st n) as [a | ]; cbn [snd] in H; injection H as <-;
      repeat split; auto; intros H; discriminate H.
  - intros k data r H.
    destruct data as [body | ].
    + destruct (create_account_rows st k (Some body)) as [E | (body' & b & _ & _ & _ & E)].
      * pose proof (create_account_cases st k (Some body)) as C. cbn zeta in C.
        rewrite C in H.
        destruct (in_dec string_dec (str_of_int k) (account_numbers st)) as [Hin | Hout].
        -- rewrite insert_taken in H by exact Hin. discriminate H.
        -- rewrite insert_fresh in H by exact Hout. cbn [snd] in H. injection H as <-.
           split; [split; intros H; discriminate H | right; reflexivity].
      * rewrite E in H. cbn [snd] in H. injection H as <-.
        split; [split; intros H; discriminate H | right; reflexivity].
    + cbn in H. injection H as <-. split; [split; reflexivity | left; reflexivity].
Qed.

Lemma not_found_iff_unknown_witness :
  snd (get_balance one_account "0000") = Responded not_found
  /\ (status not_found = 404 <-> query_first one_account "0000" = None).
Proof.
  assert (H : snd (get_balance one_account "0000") = Responded not_found) by reflexivity.
  split; [exact H | ].
  exact (proj1 (proj1 (proj2 (not_found_iff_unknown one_account "0000")) not_found H)).
Defined.

(** X5.  Opening an account, whether it succeeds or not, changes nothing to
    what [get_balance] answers for an account that exists. *)
Theorem creation_leaves_known_accounts (st : store) (r : Z) (data : option create_body)
        (n : string) :
  In n (account_numbers st) ->
  snd (get_balance (fst (create_account st r data)) n) = snd (get_balance st n).
Proof.
  intros Hin.
  assert (Q : query_first (fst (create_account st r data)) n = query_first st n).
  { destruct (create_account_rows st r data) as [E | (body & b & _ & _ & _ & E)].
    - unfold query_first. rewrite E. reflexivity.
    - rewrite E. cbn [fst]. apply query_first_app_known. exact Hin. }
  unfold get_balance. rewrite Q. destruct (query_first st n); reflexivity.
Qed.

Lemma creation_leaves_known_accounts_witness :
  In "1234" (account_numbers one_account)
  /\ snd (get_balance (fst (create_account one_account 2345 (opening (NInt 9)))) "1234")
     = snd (get_balance one_account "1234").
Proof.
  assert (H : In "1234" (account_numbers one_account)) by (left; reflexivity).
  split; [exact H | ].
  exact (creation_leaves_known_accounts one_account 2345 (opening (NInt 9)) "1234" H).
Defined.

(** ** Numerals of integers *)

Lemma uint_digits (u : Decimal.uint) :
  Forall (fun c => is_digit c = true)
         (list_ascii_of_string (NilEmpty.string_of_uint u)).
Proof.
  induction u; cbn [NilEmpty.string_of_uint list_ascii_of_string];
    constructor; solve [reflexivity | assumption].
Qed.

Lemma int_of_uint_digits (u : Decimal.uint) : forall acc : N,
  fold_left (fun acc c => 10 * acc + digit_value c)%N
            (list_ascii_of_string (NilEmpty.string_of_uint u)) acc
  = match acc with
    | N0 => Pos.of_uint u
    | Npos p => Npos (Pos.of_uint_acc u p)
    end.
Proof.
  induction u as [ | u IH | u IH | u IH | u IH | u IH | u IH | u IH | u IH | u IH | u IH];
    intros acc;
    cbn [NilEmpty.string_of_uint list_ascii_of_string fold_left];
    [destruct acc; reflexivity | .. ];
    rewrite IH; destruct acc as [ | p]; try reflexivity;
    cbn [Pos.of_uint_acc];
    match goal with
    | |- context [digit_value ?c] =>
        let v := eval vm_compute in (digit_value c) in
        change (digit_value c) with v
    end;
    cbn [N.mul N.add]; try reflexivity;
    f_equal; f_equal; apply Pos.add_comm.
Qed.

Lemma span_all_digits (l : list ascii) :
  Forall (fun c => is_digit c = true) l -> span_digits l = (l, []).
Proof.
  induction 1 as [ | c l Hc _ IH]; cbn [span_digits]; [reflexivity | ].
  rewrite Hc, IH. reflexivity.
Qed.

Lemma digit_not_space (c : ascii) : is_digit c = true -> is_space c = false.
Proof.
  unfold is_digit, is_space. intros H. apply andb_prop in H as [H1 H2].
  apply N.leb_le in H1, H2.
  destruct (N.leb_spec 9 (code c)), (N.leb_spec (code c) 13),
    (N.leb_spec 28 (code c)), (N.leb_spec (code c) 32); cbn; try reflexivity; lia.
Qed.

Lemma digit_not_underscore (c : ascii) : is_digit c = true -> is_underscore c = false.
Proof.
  unfold is_digit, is_underscore. intros H. apply andb_prop in H as [H1 H2].
  apply N.leb_le in H1, H2. apply N.eqb_neq. lia.
Qed.

Lemma digit_not_sign (c : ascii) (l : list ascii) :
  is_digit c = true -> parse_sign (c :: l) = (false, c :: l).
Proof.
  intros H. unfold parse_sign.
  destruct (ascii_dec c "-") as [-> | Hm]; [discriminate H | ].
  destruct (ascii_dec c "+") as [-> | Hp]; [discriminate H | ].
  destruct c as [[ | ] [ | ] [ | ] [ | ] [ | ] [ | ] [ | ] [ | ]];
    try reflexivity; congruence.
Qed.

Lemma strip_digits (l : list ascii) :
  Forall (fun c => is_digit c = true) l -> strip l = l.
Proof.
  intros H. unfold strip.
  assert (L : forall k, Forall (fun c => is_digit c = true) k -> lstrip k = k).
  { intros k Hk. destruct Hk as [ | c k Hc _]; [reflexivity | ].
    cbn [lstrip]. rewrite (digit_not_space c Hc). reflexivity. }
  rewrite (L l H), (L (rev l)) by (apply Forall_rev; exact H).
  apply rev_involutive.
Qed.

Lemma keep_digits (l : list ascii) :
  Forall (fun c => is_digit c = true) l ->
  filter (fun c => negb (is_underscore c)) l = l.
Proof.
  induction 1 as [ | c l Hc _ IH]; cbn [filter]; [reflexivity | ].
  rewrite (digit_not_underscore c Hc), IH. reflexivity.
Qed.

(** [Decimal] reads back the numeral of a natural number. *)
Lemma Decimal_of_digits (sign : bool) (l : list ascii) :
  l <> [] -> Forall (fun c => is_digit c = true) l ->
  parse_number sign l = Some (DFinite sign (int_of_digits l) 0).
Proof.
  intros Hne H. unfold parse_number.
  rewrite (span_all_digits l H), app_nil_r.
  destruct l as [ | c l]; [contradiction | reflexivity].
Qed.

Lemma strip_minus_digits (l : list ascii) :
  l <> [] -> Forall (fun c => is_digit c = true) l ->
  strip ("-"%char :: l) = "-"%char :: l.
Proof.
  intros Hne Hl. unfold strip. cbn [lstrip]. change (is_space "-") with false.
  cbv iota. cbn [rev].
  assert (E : lstrip (rev l ++ ["-"%char]) = (rev l ++ ["-"%char])%list).
  { destruct (rev l) as [ | c k] eqn:Hr.
    - exfalso. apply Hne. rewrite <- (rev_involutive l), Hr. reflexivity.
    - cbn [app lstrip].
      assert (Hc : is_digit c = true).
      { apply Forall_rev in Hl. rewrite Hr in Hl. inversion Hl; assumption. }
      rewrite (digit_not_space c Hc). reflexivity. }
  rewrite E, rev_app_distr, rev_involutive. reflexivity.
Qed.

Lemma Decimal_of_numeral (l : list ascii) :
  l <> [] -> Forall (fun c => is_digit c = true) l ->
  Decimal_of_str (string_of_list_ascii l) = Some (DFinite false (int_of_digits l) 0)
  /\ Decimal_of_str (string_of_list_ascii ("-"%char :: l))
     = Some (DFinite true (int_of_digits l) 0).
Proof.
  intros Hne H. unfold Decimal_of_str.
  rewrite !list_ascii_of_string_of_list_ascii.
  rewrite (strip_digits l H), (strip_minus_digits l Hne H), (keep_digits l H).
  cbn [filter]. change (negb (is_underscore "-")) with true. cbv iota.
  rewrite (keep_digits l H). cbn [parse_sign].
  destruct l as [ | c l]; [contradiction | ].
  assert (Hc : is_digit c = true) by (inversion H; assumption).
  rewrite (digit_not_sign c l Hc), Hc. cbn [orb].
  rewrite !Decimal_of_digits by (discriminate || exact H). split; reflexivity.
Qed.

(** [Decimal(str(z))] is the integer [z]. *)
Lemma Decimal_of_str_of_int (z : Z) :
  Decimal_of_str (str_of_int z) = Some (Decimal_of_int z).
Proof.
  destruct z as [ | p | p]; [reflexivity | | ];
    unfold str_of_int, Z.to_int, NilZero.string_of_int, NilZero.string_of_uint;
    pose proof (DecimalPos.Unsigned.to_uint_nonnil p) as Hnil;
    pose proof (DecimalPos.Unsigned.of_to p) as Hval;
    pose proof (uint_digits (Pos.to_uint p)) as Hd;
    pose proof (int_of_uint_digits (Pos.to_uint p) 0%N) as Hi; cbn beta iota in Hi;
    assert (Hne : list_ascii_of_string (NilEmpty.string_of_uint (Pos.to_uint p)) <> [])
      by (destruct (Pos.to_uint p); [contradiction | ..]; discriminate);
    destruct (Decimal_of_numeral _ Hne Hd) as [Hpos Hneg];
    unfold int_of_digits in Hpos, Hneg; rewrite Hi, Hval in Hpos, Hneg;
    cbn [string_of_list_ascii] in Hneg;
    rewrite string_of_list_ascii_of_string in Hpos, Hneg.
  - destruct (Pos.to_uint p); [contradiction | ..]; exact Hpos.
  - destruct (Pos.to_uint p); [contradiction | ..]; exact Hneg.
Qed.

Lemma signed_abs (z : Z) : signed_coefficient (z <? 0) (Z.abs_N z) = z.
Proof. destruct z; reflexivity. Qed.

(** X6.  A JSON integer is accepted as an amount exactly when it lies
    between 1 and 99999999: below 0 it is answered Negative, at 0 Zero, above
    99999999 ExceedsMaximum, and otherwise it goes through as that
    integer. *)
Theorem integer_amounts (op : operation) (z : Z) :
  checked op (JNumber (NInt z)) =
    if z <? 0 then Return (validation_error op Negative)
    else if z =? 0 then Return (validation_error op Zero)
    else if 99999999 <? z then Return (validation_error op ExceedsMaximum)
    else Next (DFinite false (Z.to_N z) 0).
Proof.
  assert (Hd : Decimal_of_str (py_str (JNumber (NInt z))) = Some (Decimal_of_int z))
    by apply Decimal_of_str_of_int.
  unfold Decimal_of_int in Hd.
  rewrite (checked_finite op _ _ _ _ Hd).
  unfold breaks, Decimal_value, fraction_digits, Qcompare, Qeq_bool.
  rewrite signed_abs. cbn [Z.leb Z.compare Qnum Qden Z.opp Z.max Z.ltb].
  change (10 ^ 0) with 1. rewrite !Z.mul_1_r. cbn [Z.mul].
  destruct (Z.ltb_spec z 0) as [Hn | Hn].
  - rewrite (proj2 (Z.compare_lt_iff z 0) Hn). reflexivity.
  - destruct (Z.eqb_spec z 0) as [-> | Hz]; [reflexivity | ].
    assert (Hp : 0 < z) by lia.
    rewrite (proj2 (Z.compare_gt_iff z 0) Hp).
    destruct (Z.ltb_spec 99999999 z) as [Hm | Hm].
    + rewrite (proj2 (Z.compare_gt_iff z 99999999) Hm). reflexivity.
    + destruct (Z.compare_spec z 99999999) as [ | | Hgt]; try lia;
        (replace (Z.abs_N z) with (Z.to_N z) by (destruct z; reflexivity || lia));
        reflexivity.
Qed.




Lemma four_digit_numerals :
  forallb (fun k => let s := list_ascii_of_string (str_of_int (1000 + Z.of_nat k)) in
                    (List.length s =? 4)%nat && forallb is_digit s)
          (seq 0 (Z.to_nat 9000)) = true.
Proof. vm_compute. reflexivity. Qed.

(** X8.  With a draw in the range of [random.randint(1000, 9999)], the number
    of a created account is a numeral of four decimal digits. *)
Theorem account_number_has_four_digits (st st' : store) (r : Z)
        (data : option create_body) (n : string) (b : spec_float) :
  1000 <= r <= 9999 ->
  create_account st r data = (st', Responded (jsonify (AccountBody n b) 201)) ->
  String.length n = 4%nat
  /\ forallb is_digit (list_ascii_of_string n) = true
  /\ Decimal_of_str n = Some (DFinite false (Z.to_N r) 0).
Proof.
  intros Hr H.
  assert (Hn : n = str_of_int r).
  { pose proof (create_account_cases st r data) as C.
    destruct data as [body | ]; [ | rewrite C in H; discriminate].
    cbn zeta in C. rewrite C in H. unfold insert in H.
    destruct (existsb _ _); cbn in H; [discriminate | ].
    injection H as _ Hn _. symmetry. exact Hn. }
  subst n.
  pose proof (proj1 (forallb_forall _ _) four_digit_numerals (Z.to_nat (r - 1000))) as F.
  cbv beta zeta in F. rewrite Z2Nat.id in F by lia.
  replace (1000 + (r - 1000)) with r in F by lia.
  assert (Hin : In (Z.to_nat (r - 1000)) (seq 0 (Z.to_nat 9000))) by (apply in_seq; lia).
  apply F in Hin. apply andb_prop in Hin as [Hl Hd].
  split; [ | split].
  - apply Nat.eqb_eq in Hl. rewrite <- Hl.
    clear. induction (str_of_int r) as [ | c s IH]; [reflexivity | cbn; rewrite IH; reflexivity].
  - exact Hd.
  - rewrite Decimal_of_str_of_int. unfold Decimal_of_int.
    destruct r; try lia. reflexivity.
Qed.

Lemma account_number_has_four_digits_witness :
  1000 <= 1234 <= 9999
  /\ String.length "1234" = 4%nat.
Proof.
  assert (H : 1000 <= 1234 <= 9999) by lia.
  split; [exact H | ].
  exact (proj1 (account_number_has_four_digits initial_store one_account 1234 no_balance
                  "1234" (S754_zero false) H eq_refl)).
Defined.

Lemma handle_nonnegative_step (st : store) (req : request) :
  doubles_ok st -> balances_nonnegative st -> opens_nonnegative req ->
  balances_nonnegative (fst (handle st req)).
Proof.
  intros Hd H Hr. destruct req as [r data | n | n data | n data]; cbn [handle].
  - destruct (create_account_store st r data) as [-> | (body & -> & ->)]; [exact H | ].
    apply (insert_forall (fun f => nonnegative f = true)); [exact H | ].
    destruct body as [[[z | f] | ]]; cbn [body_balance column_Float];
      [ | destruct f; first [exact Hr | reflexivity] | reflexivity].
    eapply rounded_nonnegative, binary_normalize_nonneg. exact Hr.
  - unfold get_balance. destruct (query_first st n); exact H.
  - apply (perform_nonnegative Deposit); assumption.
  - apply (perform_nonnegative Withdrawal); assumption.
Qed.

(** X9.  From the empty table, any sequence of requests whose creations carry
    a double that is not negative (or an integer that is not negative, or no
    balance) leads to a table in which every balance is a double and is at
    least 0, so that no sequence of deposits and withdrawals overdraws an
    account. *)
Theorem run_balances_nonnegative (reqs : list request) :
  Forall request_ok reqs -> Forall opens_nonnegative reqs ->
  doubles_ok (run initial_store reqs)
  /\ balances_nonnegative (run initial_store reqs).
Proof.
  induction reqs as [ | req reqs IH] using rev_ind; intros H1 H2.
  - split; constructor.
  - apply Forall_app in H1 as [H1 H1']. apply Forall_app in H2 as [H2 H2'].
    inversion H1'; subst. inversion H2'; subst.
    destruct (IH H1 H2) as [Hd Hn]. rewrite run_snoc. split.
    + apply handle_doubles_ok; assumption.
    + apply handle_nonnegative_step; assumption.
Qed.

Lemma run_balances_nonnegative_witness :
  let reqs := [CreateAccount 1234 no_balance;
               PostDeposit "1234" (amount_body (JString "50.00"));
               PostWithdraw "1234" (amount_body (JString "20.00"));
               PostWithdraw "1234" (amount_body (JString "1000.00"))] in
  Forall request_ok reqs /\ Forall opens_nonnegative reqs
  /\ balances_nonnegative (run initial_store reqs).
Proof.
  cbn zeta.
  set (reqs := [CreateAccount 1234 no_balance;
                PostDeposit "1234" (amount_body (JString "50.00"));
                PostWithdraw "1234" (amount_body (JString "20.00"));
                PostWithdraw "1234" (amount_body (JString "1000.00"))]).
  assert (H1 : Forall request_ok reqs) by (repeat constructor).
  assert (H2 : Forall opens_nonnegative reqs) by (repeat constructor).
  split; [exact H1 | ]. split; [exact H2 | ].
  exact (proj2 (run_balances_nonnegative reqs H1 H2)).
Defined.

Lemma commit_balance_keys_of (st : store) (a : Account) (b : spec_float) :
  keys_of (commit_balance st a b) = keys_of st.
Proof.
  unfold keys_of, commit_balance. cbn [rows]. rewrite map_map.
  apply map_ext. intros x. destruct (_ =? _); reflexivity.
Qed.

Lemma handle_keys_of (st : store) (req : request) :
  exists more, keys_of (fst (handle st req)) = (keys_of st ++ more)%list
               /\ (List.length more <= 1)%nat.
Proof.
  destruct req as [r data | n | n data | n data]; cbn [handle].
  - destruct (create_account_store st r data) as [-> | (body & _ & ->)].
    + exists []. rewrite app_nil_r. split; [reflexivity | cbn; lia].
    + unfold insert. destruct (existsb _ _); cbn [fst].
      * exists []. rewrite app_nil_r. split; [reflexivity | cbn; lia].
      * eexists [_]. unfold keys_of. cbn [rows]. rewrite map_app.
        split; [reflexivity | cbn; lia].
  - exists []. rewrite app_nil_r. unfold get_balance.
    destruct (query_first st n); split; (reflexivity || cbn; lia).
  - exists []. rewrite app_nil_r. split; [ | cbn; lia].
    destruct (perform_store Deposit st n data)
      as [E | (a & x & _ & _ & [[_ E] | (_ & _ & E)])];
      cbn [perform] in E; rewrite E; try reflexivity; try discriminate;
      apply commit_balance_keys_of.
  - exists []. rewrite app_nil_r. split; [ | cbn; lia].
    destruct (perform_store Withdrawal st n data)
      as [E | (a & x & _ & _ & [[_ E] | (_ & _ & E)])];
      cbn [perform] in E; rewrite E; try reflexivity; try discriminate;
      apply commit_balance_keys_of.
Qed.

(** X10.  No request deletes or renames an account: after any sequence of
    requests the table lists the accounts it had, with their keys and numbers
    and in their order, followed by at most one new account for each
    request. *)
Theorem accounts_are_never_removed (st : store) (reqs : list request) :
  exists more,
    keys_of (run st reqs) = (keys_of st ++ more)%list
    /\ (List.length more <= List.length reqs)%nat.
Proof.
  induction reqs as [ | req reqs IH] using rev_ind.
  - exists []. rewrite app_nil_r. split; [reflexivity | cbn; lia].
  - destruct IH as (more & E & L). rewrite run_snoc.
    destruct (handle_keys_of (run st reqs) req) as (one & E1 & L1).
    exists (more ++ one)%list. rewrite E1, E, <- app_assoc.
    split; [reflexivity | ]. rewrite !length_app. cbn. lia.
Qed.

(** ** Whole numbers in binary64 *)

Lemma shr_1_even (m : Z) :
  0 < m ->
  shr_1 {| shr_m := 2 * m; shr_r := false; shr_s := false |}
  = {| shr_m := m; shr_r := false; shr_s := false |}.
Proof. destruct m; try lia. reflexivity. Qed.

Lemma iter_shr_1_exact (p : positive) : forall m,
  0 < m ->
  iter_pos shr_1 p {| shr_m := m * 2 ^ Zpos p; shr_r := false; shr_s := false |}
  = {| shr_m := m; shr_r := false; shr_s := false |}.
Proof.
  induction p as [p IH | p IH | ]; intros m Hm; cbn [iter_pos].
  - assert (Hp : 0 < 2 ^ Zpos p) by (apply Z.pow_pos_nonneg; lia).
    replace (m * 2 ^ Zpos p~1) with (2 * (m * 2 ^ Zpos p * 2 ^ Zpos p)).
    + rewrite shr_1_even by nia. rewrite IH by nia. apply IH. exact Hm.
    + replace (Zpos p~1) with (Zpos p + Zpos p + 1) by lia.
      rewrite !Z.pow_add_r, Z.pow_1_r by lia. ring.
  - assert (Hp : 0 < 2 ^ Zpos p) by (apply Z.pow_pos_nonneg; lia).
    replace (m * 2 ^ Zpos p~0) with (m * 2 ^ Zpos p * 2 ^ Zpos p).
    + rewrite IH by nia. apply IH. exact Hm.
    + replace (Zpos p~0) with (Zpos p + Zpos p) by lia.
      rewrite Z.pow_add_r by lia. ring.
  - rewrite Z.pow_1_r, Z.mul_comm. apply shr_1_even. exact Hm.
Qed.

Lemma binary_round_aux_exact (s : bool) (c E k : Z) :
  2 ^ 52 <= c < 2 ^ 53 -> -1074 <= E <= emax - prec -> 0 <= k ->
  binary_round_aux prec emax s (c * 2 ^ k) (E - k) loc_Exact
  = S754_finite s (Z.to_pos c) E.
Proof.
  intros Hc HE Hk. assert (Hpos : 0 < c) by (change (2 ^ 52) with 4503599627370496 in Hc; lia).
  assert (Hd : Zdigits2 c = 53) by (apply Zdigits2_unique; [exact Hc | lia]).
  unfold binary_round_aux, shr_fexp.
  rewrite Zdigits2_shift, Hd, fexp_eq by lia.
  replace (Z.max (53 + k + (E - k) - 53) (-1074) - (E - k)) with k by lia.
  assert (Hs : shr (shr_record_of_loc (c * 2 ^ k) loc_Exact) (E - k) k
               = ({| shr_m := c; shr_r := false; shr_s := false |}, E)).
  { destruct k as [ | p | p]; try lia; cbn [shr shr_record_of_loc].
    - rewrite Z.mul_1_r, Z.sub_0_r. reflexivity.
    - rewrite iter_shr_1_exact by exact Hpos. f_equal. lia. }
  rewrite Hs. cbn [shr_m loc_of_shr_record round_nearest_even].
  rewrite Hd, fexp_eq.
  replace (Z.max (53 + E - 53) (-1074) - E) with 0 by lia.
  cbn [shr shr_record_of_loc shr_m].
  destruct c as [ | q | q]; try lia.
  rewrite (proj2 (Z.leb_le E (emax - prec))) by lia. reflexivity.
Qed.

Lemma binary_round_exact (s : bool) (m : positive) (e c E : Z) :
  2 ^ 52 <= c < 2 ^ 53 -> -1074 <= E <= emax - prec ->
  (E <= e /\ Zpos m * 2 ^ (e - E) = c) \/ (e <= E /\ Zpos m = c * 2 ^ (E - e)) ->
  binary_round prec emax s m e = S754_finite s (Z.to_pos c) E.
Proof.
  intros Hc HE H. assert (Hpos : 0 < c) by (change (2 ^ 52) with 4503599627370496 in Hc; lia).
  assert (Hd : Zdigits2 c = 53) by (apply Zdigits2_unique; [exact Hc | lia]).
  unfold binary_round. change (Zpos (digits2_pos m)) with (Zdigits2 (Zpos m)).
  assert (HF : fexp prec emax (Zdigits2 (Zpos m) + e) = E).
  { rewrite fexp_eq. destruct H as [[Hle Hm] | [Hle Hm]].
    - rewrite <- Hm, Zdigits2_shift in Hd by lia. lia.
    - rewrite Hm, Zdigits2_shift, Hd by lia. lia. }
  rewrite HF. destruct H as [[Hle Hm] | [Hle Hm]].
  - destruct (shl_align_value m e E Hle) as [-> _]. rewrite Hm.
    rewrite Z2Pos.id by exact Hpos.
    pose proof (binary_round_aux_exact s c E 0 Hc HE ltac:(lia)) as R.
    rewrite Z.mul_1_r, Z.sub_0_r in R. exact R.
  - unfold shl_align. destruct (E - e) as [ | p | p] eqn:Hp; try lia.
    + rewrite Hm, Z.mul_1_r. replace e with E by lia.
      pose proof (binary_round_aux_exact s c E 0 Hc HE ltac:(lia)) as R.
      rewrite Z.mul_1_r, Z.sub_0_r in R. exact R.
    + rewrite Hm. replace e with (E - Zpos p) by lia.
      apply binary_round_aux_exact; [exact Hc | exact HE | lia].
Qed.

(** The mantissa and the exponent of the double that holds a whole number
    of magnitude below [2 ^ 53]. *)
Lemma whole_mantissa (z : Z) :
  0 < z < 2 ^ 53 ->
  2 ^ 52 <= z * 2 ^ (53 - Zdigits2 z) < 2 ^ 53 /\ 1 <= Zdigits2 z <= 53.
Proof.
  intros Hz. pose proof (Zdigits2_bounds z ltac:(lia)) as [Hl Hu].
  assert (Hd : Zdigits2 z <= 53) by (apply Zdigits2_le; lia).
  assert (H1 : 1 <= Zdigits2 z) by (rewrite Zdigits2_log2 by lia; pose proof (Z.log2_nonneg z); lia).
  split; [ | lia].
  assert (Hp : 0 < 2 ^ (53 - Zdigits2 z)) by (apply Z.pow_pos_nonneg; lia).
  assert (E52 : 2 ^ 52 = 2 ^ (Zdigits2 z - 1) * 2 ^ (53 - Zdigits2 z))
    by (rewrite <- Z.pow_add_r by lia; f_equal; lia).
  assert (E53 : 2 ^ 53 = 2 ^ Zdigits2 z * 2 ^ (53 - Zdigits2 z))
    by (rewrite <- Z.pow_add_r by lia; f_equal; lia).
  rewrite E52, E53. split.
  - apply Z.mul_le_mono_nonneg_r; lia.
  - apply Z.mul_lt_mono_pos_r; lia.
Qed.

Lemma binary_normalize_whole (z e : Z) :
  e <= 0 -> z <> 0 -> Z.abs z < 2 ^ 53 ->
  binary_normalize prec emax (z * 2 ^ (- e)) e false
  = S754_finite (z <? 0) (Z.to_pos (Z.abs z * 2 ^ (53 - Zdigits2 (Z.abs z))))
      (Zdigits2 (Z.abs z) - 53).
Proof.
  intros He Hz Hu.
  assert (Ha : 0 < Z.abs z < 2 ^ 53) by lia.
  destruct (whole_mantissa (Z.abs z) Ha) as [Hc Hd].
  assert (Hp : 0 < 2 ^ (- e)) by (apply Z.pow_pos_nonneg; lia).
  set (d := Zdigits2 (Z.abs z)) in *.
  assert (Hrel : forall m : positive, Zpos m = Z.abs z * 2 ^ (- e) ->
            (d - 53 <= e /\ Zpos m * 2 ^ (e - (d - 53)) = Z.abs z * 2 ^ (53 - d))
            \/ (e <= d - 53 /\ Zpos m = Z.abs z * 2 ^ (53 - d) * 2 ^ (d - 53 - e))).
  { intros m Hm. destruct (Z_le_gt_dec (d - 53) e) as [Hle | Hgt]; [left | right].
    - split; [exact Hle | ]. rewrite Hm, <- Z.mul_assoc, <- Z.pow_add_r by lia.
      do 2 f_equal. lia.
    - split; [lia | ]. rewrite Hm, <- Z.mul_assoc, <- Z.pow_add_r by lia.
      do 2 f_equal. lia. }
  unfold binary_normalize.
  destruct (z * 2 ^ (- e)) as [ | m | m] eqn:Hm; [nia | | ].
  - assert (0 < z) by nia. rewrite (proj2 (Z.ltb_ge z 0)) by lia.
    apply binary_round_exact; [exact Hc | unfold emax, prec; lia | ].
    apply Hrel. rewrite Z.abs_eq by lia. symmetry. exact Hm.
  - assert (z < 0) by nia. rewrite (proj2 (Z.ltb_lt z 0)) by lia.
    apply binary_round_exact; [exact Hc | unfold emax, prec; lia | ].
    apply Hrel. rewrite Z.abs_neq by lia. lia.
Qed.

Lemma float_of_int_whole (z : Z) :
  z <> 0 -> Z.abs z < 2 ^ 53 ->
  float_of_int z
  = S754_finite (z <? 0) (Z.to_pos (Z.abs z * 2 ^ (53 - Zdigits2 (Z.abs z))))
      (Zdigits2 (Z.abs z) - 53).
Proof.
  intros Hz Hu. pose proof (binary_normalize_whole z 0 ltac:(lia) Hz Hu) as H.
  cbn [Z.opp] in H. rewrite Z.pow_0_r, Z.mul_1_r in H. exact H.
Qed.

Lemma binary_normalize_float_of_int (z e : Z) :
  e <= 0 -> Z.abs z < 2 ^ 53 ->
  binary_normalize prec emax (z * 2 ^ (- e)) e false = float_of_int z.
Proof.
  intros He Hu. destruct (Z.eq_dec z 0) as [-> | Hz]; [reflexivity | ].
  rewrite float_of_int_whole by assumption. apply binary_normalize_whole; assumption.
Qed.

Lemma whole_aligned (z ez : Z) :
  z <> 0 -> Z.abs z < 2 ^ 53 -> ez <= Zdigits2 (Z.abs z) - 53 ->
  cond_Zopp (z <? 0)
    (Zpos (fst (shl_align (Z.to_pos (Z.abs z * 2 ^ (53 - Zdigits2 (Z.abs z))))
                  (Zdigits2 (Z.abs z) - 53) ez)))
  = z * 2 ^ (- ez).
Proof.
  intros Hz Hu He.
  destruct (whole_mantissa (Z.abs z) ltac:(lia)) as [Hc Hd].
  set (d := Zdigits2 (Z.abs z)) in *.
  destruct (shl_align_value (Z.to_pos (Z.abs z * 2 ^ (53 - d))) (d - 53) ez He) as [_ ->].
  rewrite Z2Pos.id by (change (2 ^ 52) with 4503599627370496 in Hc; lia).
  rewrite <- Z.mul_assoc, <- Z.pow_add_r by lia.
  replace (53 - d + (d - 53 - ez)) with (- ez) by lia.
  destruct (Z.ltb_spec z 0) as [Hn | Hn]; cbn [cond_Zopp].
  - rewrite Z.abs_neq by lia. ring.
  - rewrite Z.abs_eq by lia. reflexivity.
Qed.

Lemma fadd_whole (x y : Z) :
  Z.abs x < 2 ^ 53 -> Z.abs y < 2 ^ 53 -> Z.abs (x + y) < 2 ^ 53 ->
  fadd (float_of_int x) (float_of_int y) = float_of_int (x + y).
Proof.
  intros Hx Hy Hxy.
  destruct (Z.eq_dec x 0) as [-> | Hx0].
  { destruct (Z.eq_dec y 0) as [-> | Hy0]; [reflexivity | ].
    rewrite Z.add_0_l, (float_of_int_whole y) by assumption. reflexivity. }
  destruct (Z.eq_dec y 0) as [-> | Hy0].
  { rewrite Z.add_0_r, (float_of_int_whole x) by assumption. reflexivity. }
  rewrite (float_of_int_whole x), (float_of_int_whole y) by assumption.
  destruct (whole_mantissa (Z.abs x) ltac:(lia)) as [_ Hdx].
  destruct (whole_mantissa (Z.abs y) ltac:(lia)) as [_ Hdy].
  unfold fadd. cbn [SFadd].
  rewrite !whole_aligned by (assumption || lia).
  rewrite <- Z.mul_add_distr_r.
  apply binary_normalize_float_of_int; lia.
Qed.

Lemma fsub_whole (x y : Z) :
  Z.abs x < 2 ^ 53 -> Z.abs y < 2 ^ 53 -> Z.abs (x - y) < 2 ^ 53 ->
  fsub (float_of_int x) (float_of_int y) = float_of_int (x - y).
Proof.
  intros Hx Hy Hxy.
  destruct (Z.eq_dec y 0) as [-> | Hy0].
  { rewrite Z.sub_0_r. destruct (Z.eq_dec x 0) as [-> | Hx0]; [reflexivity | ].
    rewrite (float_of_int_whole x) by assumption. reflexivity. }
  destruct (Z.eq_dec x 0) as [-> | Hx0].
  { rewrite Z.sub_0_l, (float_of_int_whole y), (float_of_int_whole (- y)) by lia.
    unfold fsub. cbn [SFsub]. rewrite Z.abs_opp. f_equal.
    destruct (Z.ltb_spec y 0), (Z.ltb_spec (- y) 0); try reflexivity; lia. }
  rewrite (float_of_int_whole x), (float_of_int_whole y) by assumption.
  destruct (whole_mantissa (Z.abs x) ltac:(lia)) as [_ Hdx].
  destruct (whole_mantissa (Z.abs y) ltac:(lia)) as [_ Hdy].
  unfold fsub. cbn [SFsub].
  rewrite !whole_aligned by (assumption || lia).
  rewrite <- Z.mul_sub_distr_r.
  apply binary_normalize_float_of_int; lia.
Qed.

Lemma compare_whole (x y : Z) :
  0 < x < 2 ^ 53 -> 0 < y < 2 ^ 53 ->
  match Zdigits2 x - 53 ?= Zdigits2 y - 53 with
  | Lt => Lt
  | Gt => Gt
  | Eq => Pos.compare_cont Eq (Z.to_pos (x * 2 ^ (53 - Zdigits2 x)))
                              (Z.to_pos (y * 2 ^ (53 - Zdigits2 y)))
  end = (x ?= y).
Proof.
  intros Hx Hy.
  destruct (whole_mantissa x Hx) as [Hcx Hdx].
  destruct (whole_mantissa y Hy) as [Hcy Hdy].
  pose proof (Zdigits2_bounds x ltac:(lia)) as [Hlx Hux].
  pose proof (Zdigits2_bounds y ltac:(lia)) as [Hly Huy].
  change (2 ^ 52) with 4503599627370496 in Hcx, Hcy.
  destruct (Z.compare_spec (Zdigits2 x - 53) (Zdigits2 y - 53)) as [He | Hlt | Hgt].
  - assert (Hd : Zdigits2 x = Zdigits2 y) by lia. rewrite Hd.
    change (Pos.compare_cont Eq) with Pos.compare.
    rewrite <- Z2Pos.inj_compare by lia.
    assert (Hp : 0 < 2 ^ (53 - Zdigits2 y)) by (apply Z.pow_pos_nonneg; lia).
    destruct (Z.compare_spec x y) as [-> | H | H];
      [apply Z.compare_refl | apply Z.compare_lt_iff; nia | apply Z.compare_gt_iff; nia].
  - symmetry. apply Z.compare_lt_iff.
    assert (2 ^ Zdigits2 x <= 2 ^ (Zdigits2 y - 1)) by (apply Z.pow_le_mono_r; lia). lia.
  - symmetry. apply Z.compare_gt_iff.
    assert (2 ^ Zdigits2 y <= 2 ^ (Zdigits2 x - 1)) by (apply Z.pow_le_mono_r; lia). lia.
Qed.

Lemma SFcompare_whole (x y : Z) :
  Z.abs x < 2 ^ 53 -> Z.abs y < 2 ^ 53 ->
  SFcompare (float_of_int x) (float_of_int y) = Some (x ?= y).
Proof.
  intros Hx Hy.
  destruct (Z.eq_dec x 0) as [-> | Hx0]; destruct (Z.eq_dec y 0) as [-> | Hy0].
  - reflexivity.
  - rewrite (float_of_int_whole y) by assumption. change (float_of_int 0) with (S754_zero false).
    cbn [SFcompare]. f_equal.
    destruct (Z.ltb_spec y 0); symmetry; [apply Z.compare_gt_iff | apply Z.compare_lt_iff]; lia.
  - rewrite (float_of_int_whole x) by assumption. change (float_of_int 0) with (S754_zero false).
    cbn [SFcompare]. f_equal.
    destruct (Z.ltb_spec x 0); symmetry; [apply Z.compare_lt_iff | apply Z.compare_gt_iff]; lia.
  - rewrite (float_of_int_whole x), (float_of_int_whole y) by assumption.
    cbn [SFcompare]. f_equal.
    destruct (Z.ltb_spec x 0) as [Hnx | Hnx]; destruct (Z.ltb_spec y 0) as [Hny | Hny].
    + pose proof (compare_whole (Z.abs x) (Z.abs y) ltac:(lia) ltac:(lia)) as C.
      assert (Hxy : (x ?= y) = CompOpp (Z.abs x ?= Z.abs y)).
      { rewrite !Z.abs_neq by lia. rewrite <- Z.compare_opp. apply Z.compare_antisym. }
      rewrite Hxy, <- C.
      destruct (Zdigits2 (Z.abs x) - 53 ?= Zdigits2 (Z.abs y) - 53); reflexivity.
    + symmetry. apply Z.compare_lt_iff. lia.
    + symmetry. apply Z.compare_gt_iff. lia.
    + pose proof (compare_whole x y ltac:(lia) ltac:(lia)) as C.
      rewrite !Z.abs_eq by lia. exact C.
Qed.

Lemma flt_whole (x y : Z) :
  Z.abs x < 2 ^ 53 -> Z.abs y < 2 ^ 53 ->
  flt (float_of_int x) (float_of_int y) = (x <? y).
Proof.
  intros Hx Hy. unfold flt, SFltb. rewrite SFcompare_whole by assumption. reflexivity.
Qed.

Lemma Zdigits2_mul (a b : Z) :
  0 < a -> 0 < b -> Zdigits2 (a * b) <= Zdigits2 a + Zdigits2 b.
Proof.
  intros Ha Hb.
  pose proof (Zdigits2_bounds a Ha) as [La Ua].
  pose proof (Zdigits2_bounds b Hb) as [Lb Ub].
  assert (0 <= Zdigits2 a) by (rewrite Zdigits2_log2 by lia; pose proof (Z.log2_nonneg a); lia).
  assert (0 <= Zdigits2 b) by (rewrite Zdigits2_log2 by lia; pose proof (Z.log2_nonneg b); lia).
  apply Zdigits2_le; [nia | | lia].
  rewrite Z.pow_add_r by lia. nia.
Qed.

Lemma float_of_ratio_whole (w p : Z) :
  0 < w < 2 ^ 53 -> 0 < p ->
  float_of_ratio false (w * p) p = float_of_int w.
Proof.
  intros Hw Hp.
  destruct (whole_mantissa w Hw) as [Hc Hd].
  rewrite (float_of_int_whole w) by lia.
  rewrite (proj2 (Z.ltb_ge w 0)), Z.abs_eq by lia.
  unfold float_of_ratio, SFdiv_core_binary.
  rewrite !Z.add_0_r, Z.sub_diag, fexp_eq.
  set (e' := Z.min (Z.max (Zdigits2 (w * p) - Zdigits2 p - 53) (-1074)) 0).
  assert (He' : e' <= Zdigits2 w - 53).
  { pose proof (Zdigits2_mul w p ltac:(lia) Hp). subst e'. lia. }
  assert (He0 : e' <= 0) by (subst e'; lia).
  assert (Hm : match 0 - e' with
               | Z0 => w * p
               | Zpos _ => Z.shiftl (w * p) (0 - e')
               | Zneg _ => 0
               end = w * 2 ^ (- e') * p).
  { destruct (0 - e') as [ | k | k] eqn:Hk; try lia.
    - replace (- e') with 0 by lia. rewrite Z.pow_0_r. ring.
    - rewrite Z.shiftl_mul_pow2 by lia. replace (- e') with (Zpos k) by lia. ring. }
  change IntDef.Z.div_eucl with Z.div_eucl. change IntDef.Z.shiftl with Z.shiftl.
  rewrite Hm.
  assert (Hq : Z.div_eucl (w * 2 ^ (- e') * p) p = (w * 2 ^ (- e'), 0)).
  { pose proof (Z.div_mul (w * 2 ^ (- e')) p ltac:(lia)) as Q.
    pose proof (Z.mod_mul (w * 2 ^ (- e')) p ltac:(lia)) as M.
    unfold Z.div, Z.modulo in Q, M.
    destruct (Z.div_eucl (w * 2 ^ (- e') * p) p) as [q r]. subst q r. reflexivity. }
  rewrite Hq.
  assert (Hl : new_location p 0 = loc_Exact).
  { unfold new_location, new_location_even, new_location_odd. destruct (Z.even p); reflexivity. }
  rewrite Hl.
  replace (w * 2 ^ (- e'))
    with (w * 2 ^ (53 - Zdigits2 w) * 2 ^ (Zdigits2 w - 53 - e'))
    by (rewrite <- Z.mul_assoc, <- Z.pow_add_r by lia; do 2 f_equal; lia).
  replace e' with (Zdigits2 w - 53 - (Zdigits2 w - 53 - e')) at 2 by lia.
  apply binary_round_aux_exact; [exact Hc | unfold emax, prec; lia | lia].
Qed.

(** [float(d)] of a finite, positive [Decimal] whose value is a whole
    number below [2 ^ 53]. *)
Lemma float_of_Decimal_whole {R} (c : N) (e w : Z) (q : Q) :
  (0 < c)%N -> Decimal_value (DFinite false c e) = Some q -> (q == inject_Z w)%Q ->
  w < 2 ^ 53 ->
  0 < w /\ float_of_Decimal (R := R) (DFinite false c e) = Next (float_of_int w).
Proof.
  intros Hc Hv Hq Hw. cbn [Decimal_value signed_coefficient] in Hv.
  cbn [float_of_Decimal signed_coefficient].
  destruct (N.eqb_spec c 0) as [-> | _]; [lia | ].
  destruct (Z.leb_spec 0 e) as [He | He]; injection Hv as <-;
    unfold Qeq, inject_Z in Hq; cbn [Qnum Qden] in Hq.
  - assert (0 < 10 ^ e) by (apply pow10_pos; lia).
    rewrite !Z.mul_1_r in Hq. subst w. split; [nia | reflexivity].
  - assert (Hp : 0 < 10 ^ (- e)) by (apply pow10_pos; lia).
    rewrite Z.mul_1_r, Z2Pos.id in Hq by exact Hp.
    assert (0 < w) by nia. split; [assumption | ].
    rewrite Hq, float_of_ratio_whole by lia. reflexivity.
Qed.

Lemma float_value_whole (z : Z) :
  Z.abs z < 2 ^ 53 ->
  exists v, float_value (float_of_int z) = Some v /\ (v == inject_Z z)%Q.
Proof.
  intros Hu. destruct (Z.eq_dec z 0) as [-> | Hz].
  { exists (Qmake 0 1). split; reflexivity. }
  rewrite float_of_int_whole by assumption.
  destruct (whole_mantissa (Z.abs z) ltac:(lia)) as [Hc Hd].
  change (2 ^ 52) with 4503599627370496 in Hc.
  set (d := Zdigits2 (Z.abs z)) in *.
  assert (Hs : cond_Zopp (z <? 0) (Zpos (Z.to_pos (Z.abs z * 2 ^ (53 - d))))
               = z * 2 ^ (53 - d)).
  { rewrite Z2Pos.id by lia.
    destruct (Z.ltb_spec z 0); cbn [cond_Zopp];
      [rewrite Z.abs_neq by lia; ring | rewrite Z.abs_eq by lia; reflexivity]. }
  eexists. split; [reflexivity | ]. cbn [float_value]. rewrite Hs.
  destruct (Z.leb_spec 0 (d - 53)) as [He | He]; unfold Qeq, inject_Z; cbn [Qnum Qden].
  - replace (53 - d) with 0 by lia. replace (d - 53) with 0 by lia.
    rewrite Z.pow_0_r. ring.
  - assert (0 < 2 ^ (- (d - 53))) by (apply Z.pow_pos_nonneg; lia).
    rewrite Z2Pos.id by assumption. replace (- (d - 53)) with (53 - d) by lia. ring.
Qed.

(** An accepted amount whose value is a whole number converts to the double
    that holds that number, which lies between 1 and 99999999. *)
Lemma accepted_whole (op : operation) (amount : json) (d : Decimal) (q : Q) (w : Z) :
  checked op amount = Next d -> Decimal_value d = Some q -> (q == inject_Z w)%Q ->
  1 <= w <= 99999999
  /\ float_of_Decimal (R := response) d = Next (float_of_int w)
  /\ forall op', checked op' amount = Next d.
Proof.
  intros Hc Hv Hq.
  pose proof Hc as Hn. apply checked_next in Hn as (c & e & -> & Hd & Hc0 & He & Hmax).
  assert (Hw : 1 <= w <= 99999999).
  { pose proof Hv as Hv'. cbn [Decimal_value signed_coefficient] in Hv'.
    destruct (Z.leb_spec 0 e) as [H0 | H0]; injection Hv' as <-;
      unfold Qeq, inject_Z in Hq; cbn [Qnum Qden] in Hq.
    - rewrite !Z.mul_1_r in Hq. rewrite Z.min_r, Z.sub_0_r, Z.sub_diag in Hmax by lia.
      change (10 ^ 0) with 1 in Hmax. assert (0 < 10 ^ e) by (apply pow10_pos; lia). nia.
    - assert (Hp : 0 < 10 ^ (- e)) by (apply pow10_pos; lia).
      rewrite Z.mul_1_r, Z2Pos.id in Hq by exact Hp.
      rewrite Z.min_l, Z.sub_diag in Hmax by lia. change (10 ^ 0) with 1 in Hmax.
      replace (0 - e) with (- e) in Hmax by lia. nia. }
  split; [exact Hw | ]. split.
  - apply (float_of_Decimal_whole (R := response) c e w q Hc0 Hv Hq).
    change (2 ^ 53) with 9007199254740992. lia.
  - intros op'. rewrite (checked_finite op' amount false c e Hd).
    rewrite (checked_finite op amount false c e Hd) in Hc.
    destruct (breaks Negative _); [discriminate | ].
    destruct (breaks Zero _); [discriminate | ].
    destruct (breaks TooManyDecimals _); [discriminate | ].
    destruct (breaks ExceedsMaximum _); [discriminate | ].
    reflexivity.
Qed.

(** X11.  A whole number of magnitude below [2 ^ 53] is held exactly by the
    double it converts to, and two such numbers convert to the same double
    only when they are equal. *)
Theorem whole_numbers_are_held_exactly (z z' : Z) :
  Z.abs z < 2 ^ 53 -> Z.abs z' < 2 ^ 53 ->
  (exists v, float_value (float_of_int z) = Some v /\ (v == inject_Z z)%Q)
  /\ is_double (float_of_int z)
  /\ (float_of_int z = float_of_int z' -> z = z').
Proof.
  intros Hz Hz'. split; [apply float_value_whole; exact Hz | ].
  split; [apply float_of_int_is_double | ].
  intros E. pose proof (SFcompare_whole z z' Hz Hz') as C.
  rewrite E, SFcompare_whole in C by exact Hz'.
  injection C as C. rewrite Z.compare_refl in C. symmetry in C.
  apply Z.compare_eq_iff. exact C.
Qed.

Lemma whole_numbers_are_held_exactly_witness :
  Z.abs 50 < 2 ^ 53 /\ Z.abs 30 < 2 ^ 53
  /\ (float_of_int 50 = float_of_int 30 -> 50 = 30).
Proof.
  assert (H1 : Z.abs 50 < 2 ^ 53) by reflexivity.
  assert (H2 : Z.abs 30 < 2 ^ 53) by reflexivity.
  split; [exact H1 | ]. split; [exact H2 | ].
  exact (proj2 (proj2 (whole_numbers_are_held_exactly 50 30 H1 H2))).
Defined.

(** X12.  On a balance that is a whole number, a deposit of an accepted
    amount whose value is a whole number is exact as long as the sum stays
    below [2 ^ 53] in magnitude: the balance persisted and answered is the
    double that holds the sum, whose value is the balance plus the amount. *)
Theorem whole_deposit_is_exact (st : store) (n : string) (data : option object)
        (a : Account) (amount : json) (d : Decimal) (q : Q) (B w : Z) :
  query_first st n = Some a -> amount_of data = Next amount ->
  checked Deposit amount = Next d ->
  Decimal_value d = Some q -> (q == inject_Z w)%Q ->
  balance a = float_of_int B -> Z.abs B < 2 ^ 53 -> Z.abs (B + w) < 2 ^ 53 ->
  deposit st n data
  = (commit_balance st a (float_of_int (B + w)),
     Responded (jsonify (BalanceBody (float_of_int (B + w))) 200))
  /\ exists v, float_value (float_of_int (B + w)) = Some v
               /\ (v == inject_Z B + q)%Q.
Proof.
  intros Hq Ha Hc Hv Hw Hb HB HS.
  destruct (accepted_whole Deposit amount d q w Hc Hv Hw) as (Hr & Hx & _).
  split.
  - rewrite (deposit_accepted st n data a amount d (float_of_int w) Hq Ha Hc Hx).
    rewrite Hb, fadd_whole; [reflexivity | exact HB | | exact HS].
    change (2 ^ 53) with 9007199254740992. lia.
  - destruct (float_value_whole (B + w) HS) as (v & E & Hvq).
    exists v. split; [exact E | ]. rewrite Hvq, Hw, inject_Z_plus. reflexivity.
Qed.

Lemma whole_deposit_is_exact_witness :
  query_first one_account "1234"
  = Some {| id := 1; account_number := "1234"; balance := S754_zero false |}
  /\ checked Deposit (JString "50.00") = Next (DFinite false 5000 (-2))
  /\ (Qmake 5000 100 == inject_Z 50)%Q
  /\ deposit one_account "1234" (amount_body (JString "50.00"))
     = (commit_balance one_account
          {| id := 1; account_number := "1234"; balance := S754_zero false |}
          (float_of_int (0 + 50)),
        Responded (jsonify (BalanceBody (float_of_int (0 + 50))) 200)).
Proof.
  assert (H : (Qmake 5000 100 == inject_Z 50)%Q) by reflexivity.
  split; [reflexivity | ]. split; [reflexivity | ]. split; [exact H | ].
  exact (proj1 (whole_deposit_is_exact one_account "1234" (amount_body (JString "50.00"))
                  {| id := 1; account_number := "1234"; balance := S754_zero false |}
                  (JString "50.00") (DFinite false 5000 (-2)) (Qmake 5000 100) 0 50
                  eq_refl eq_refl eq_refl eq_refl H eq_refl eq_refl eq_refl)).
Defined.

(** X13.  On a balance that is a whole number below [2 ^ 53] in magnitude, a
    withdrawal of an accepted amount whose value is a whole number is
    refused exactly when the balance is smaller than the amount, and
    otherwise leaves the double that holds the difference. *)
Theorem whole_withdrawal_is_exact (st : store) (n : string) (data : option object)
        (a : Account) (amount : json) (d : Decimal) (q : Q) (B w : Z) :
  query_first st n = Some a -> amount_of data = Next amount ->
  checked Withdrawal amount = Next d ->
  Decimal_value d = Some q -> (q == inject_Z w)%Q ->
  balance a = float_of_int B -> Z.abs B < 2 ^ 53 ->
  withdraw st n data
  = (if B <? w then (st, Responded insufficient_balance)
     else (commit_balance st a (float_of_int (B - w)),
           Responded (jsonify (BalanceBody (float_of_int (B - w))) 200)))
  /\ (w <= B ->
      exists v, float_value (float_of_int (B - w)) = Some v
                /\ (v == inject_Z B - q)%Q).
Proof.
  intros Hq Ha Hc Hv Hw Hb HB.
  destruct (accepted_whole Withdrawal amount d q w Hc Hv Hw) as (Hr & Hx & _).
  assert (HW : Z.abs w < 2 ^ 53) by (change (2 ^ 53) with 9007199254740992; lia).
  split.
  - rewrite (withdraw_accepted st n data a amount d (float_of_int w) Hq Ha Hc Hx).
    rewrite Hb, flt_whole by assumption.
    destruct (Z.ltb_spec B w) as [Hlt | Hge]; [reflexivity | ].
    rewrite fsub_whole; [reflexivity | exact HB | exact HW | lia].
  - intros Hge. destruct (float_value_whole (B - w) ltac:(lia)) as (v & E & Hvq).
    exists v. split; [exact E | ]. rewrite Hvq, Hw. unfold Z.sub.
    rewrite inject_Z_plus, inject_Z_opp. reflexivity.
Qed.

Lemma whole_withdrawal_is_exact_witness :
  checked Withdrawal (JString "20") = Next (DFinite false 20 0)
  /\ (Qmake 20 1 == inject_Z 20)%Q
  /\ withdraw one_account "1234" (amount_body (JString "20"))
     = (one_account, Responded insufficient_balance).
Proof.
  assert (H : (Qmake 20 1 == inject_Z 20)%Q) by reflexivity.
  split; [reflexivity | ]. split; [exact H | ].
  exact (proj1 (whole_withdrawal_is_exact one_account "1234" (amount_body (JString "20"))
                  {| id := 1; account_number := "1234"; balance := S754_zero false |}
                  (JString "20") (DFinite false 20 0) (Qmake 20 1) 0 20
                  eq_refl eq_refl eq_refl eq_refl H eq_refl eq_refl)).
Defined.

Lemma commit_balance_back (st : store) (a : Account) (b : spec_float) :
  NoDup (map id (rows st)) -> In a (rows st) ->
  commit_balance (commit_balance st a b) (with_balance a b) (balance a) = st.
Proof.
  intros Hn Hin. destruct st as [rs k]. unfold commit_balance. cbn [rows next_id] in *.
  f_equal. rewrite map_map. rewrite <- (map_id rs) at 2.
  apply map_ext_in. intros r Hr. cbn [with_balance id].
  destruct (Z.eqb_spec (id r) (id a)) as [He | Hne].
  - cbn [with_balance id]. rewrite He, Z.eqb_refl.
    rewrite (NoDup_map_eq id rs r a Hn Hr Hin He).
    destruct a; reflexivity.
  - rewrite (proj2 (Z.eqb_neq (id r) (id a)) Hne). reflexivity.
Qed.

(** X14.  On a balance that is a whole number and is not negative, a deposit
    followed by a withdrawal of the same accepted whole amount puts the table
    back as it was, as long as the sum stays below [2 ^ 53]. *)
Theorem whole_deposit_then_withdrawal_restores (st : store) (n : string)
        (data : option object) (a : Account) (amount : json) (d : Decimal)
        (q : Q) (B w : Z) :
  keys_ok st ->
  query_first st n = Some a -> amount_of data = Next amount ->
  checked Deposit amount = Next d ->
  Decimal_value d = Some q -> (q == inject_Z w)%Q ->
  balance a = float_of_int B -> 0 <= B -> B + w < 2 ^ 53 ->
  run st [PostDeposit n data; PostWithdraw n data] = st
  /\ snd (handle (fst (handle st (PostDeposit n data))) (PostWithdraw n data))
     = Responded (jsonify (BalanceBody (balance a)) 200).
Proof.
  intros (Hn & _ & _) Hq Ha Hc Hv Hw Hb HB HS.
  destruct (accepted_whole Deposit amount d q w Hc Hv Hw) as (Hr & Hx & Hall).
  assert (HW : Z.abs w < 2 ^ 53) by (change (2 ^ 53) with 9007199254740992; lia).
  assert (E1 : deposit st n data
               = (commit_balance st a (float_of_int (B + w)),
                  Responded (jsonify (BalanceBody (float_of_int (B + w))) 200))).
  { rewrite (deposit_accepted st n data a amount d (float_of_int w) Hq Ha Hc Hx).
    rewrite Hb, fadd_whole by lia. reflexivity. }
  pose proof (commit_balance_query st n a (float_of_int (B + w)) Hq) as Hq'.
  assert (E2 : withdraw (commit_balance st a (float_of_int (B + w))) n data
               = (st, Responded (jsonify (BalanceBody (balance a)) 200))).
  { rewrite (withdraw_accepted _ n data _ amount d (float_of_int w) Hq' Ha
               (Hall Withdrawal) Hx).
    cbn [with_balance balance]. rewrite flt_whole by lia.
    rewrite (proj2 (Z.ltb_ge (B + w) w)) by lia.
    rewrite fsub_whole by lia. replace (B + w - w) with B by lia.
    rewrite <- Hb. f_equal.
    apply commit_balance_back; [exact Hn | ].
    apply query_first_some in Hq as [Hin _]. exact Hin. }
  unfold run. cbn [fold_left handle]. rewrite E1. cbn [fst]. rewrite E2. split; reflexivity.
Qed.

Lemma whole_deposit_then_withdrawal_restores_witness :
  keys_ok one_account
  /\ run one_account [PostDeposit "1234" (amount_body (JString "50.00"));
                      PostWithdraw "1234" (amount_body (JString "50.00"))]
     = one_account.
Proof.
  assert (K : keys_ok one_account).
  { split; [ | split]; repeat constructor; cbn; try lia; intros []. }
  assert (H : (Qmake 5000 100 == inject_Z 50)%Q) by reflexivity.
  split; [exact K | ].
  exact (proj1 (whole_deposit_then_withdrawal_restores one_account "1234"
                  (amount_body (JString "50.00"))
                  {| id := 1; account_number := "1234"; balance := S754_zero false |}
                  (JString "50.00") (DFinite false 5000 (-2)) (Qmake 5000 100) 0 50
                  K eq_refl eq_refl eq_refl eq_refl H eq_refl
                  (Z.le_refl 0) eq_refl)).
Defined.

(** ** Exceptions and the kinds of amounts *)

Lemma checked_raise (op : operation) (amount : json) (e : exn) :
  checked op amount = Raise e ->
  exists d, Decimal_of_str (py_str amount) = Some d
            /\ ((exists s g p, d = DNaN s g p /\ e = InvalidOperation)
                \/ (d = DInfinity false /\ e = TypeError)).
Proof.
  intros H.
  destruct (Decimal_of_str (py_str amount)) as [[s c x | s | s g p] | ] eqn:Hd.
  - rewrite (checked_finite op amount s c x Hd) in H.
    destruct (breaks Negative _); [discriminate | ].
    destruct (breaks Zero _); [discriminate | ].
    destruct (breaks TooManyDecimals _); [discriminate | ].
    destruct (breaks ExceedsMaximum _); discriminate.
  - rewrite (checked_infinity op amount s Hd) in H.
    destruct s; [discriminate | ]. injection H as <-.
    eexists. split; [reflexivity | ]. right. split; reflexivity.
  - rewrite (checked_nan op amount s g p Hd) in H. injection H as <-.
    eexists. split; [reflexivity | ]. left. exists s, g, p. split; reflexivity.
  - rewrite (checked_not_numeric op amount Hd) in H. discriminate.
Qed.

(** X15.  On a request whose body is a JSON object or [null], with a number
    the table takes (or nothing) as the balance of a creation, the
    exceptions that leave a handler are these: a creation ends on an
    [IntegrityError], and only when the number drawn is taken; [get_balance]
    raises nothing; a deposit or a withdrawal raises only on a known
    account and an amount that reads as a NaN ([InvalidOperation]) or as the
    positive infinity ([TypeError]).  The table is left as it was, but for
    the sequence of the primary key. *)
Theorem exceptions_of_the_handlers (st : store) (req : request) (e : exn) :
  request_storable req ->
  snd (handle st req) = Unhandled e ->
  rows (fst (handle st req)) = rows st
  /\ match req with
     | CreateAccount r data =>
         e = IntegrityError /\ data <> None /\ In (str_of_int r) (account_numbers st)
     | GetBalance _ => False
     | PostDeposit n data | PostWithdraw n data =>
         fst (handle st req) = st
         /\ In n (account_numbers st)
         /\ exists amount d,
              amount_of data = Next amount
              /\ Decimal_of_str (py_str amount) = Some d
              /\ ((exists s g p, d = DNaN s g p /\ e = InvalidOperation)
                  \/ (d = DInfinity false /\ e = TypeError))
     end.
Proof.
  assert (P : forall op n data,
             snd (perform op st n data) = Unhandled e ->
             fst (perform op st n data) = st
             /\ In n (account_numbers st)
             /\ exists amount d,
                  amount_of data = Next amount
                  /\ Decimal_of_str (py_str amount) = Some d
                  /\ ((exists s g p, d = DNaN s g p /\ e = InvalidOperation)
                      \/ (d = DInfinity false /\ e = TypeError))).
  { intros op n data H.
    destruct (perform_cases op st n data)
      as [[_ E] | (a & Hq & [[_ E] | (amount & Ha & [(r & _ & E) | [(e' & Hc & E) | (d & x & _ & _ & _ & E)]])])];
      rewrite E in H |- *; cbn [fst snd] in *; try discriminate.
    - injection H as ->. split; [reflexivity | ]. split.
      + apply query_first_some in Hq as [Hin <-]. apply in_map. exact Hin.
      + destruct (checked_raise op amount e Hc) as (d & Hd & Hk). eauto.
    - destruct op; [discriminate | ]. destruct (flt (balance a) x); discriminate. }
  intros _ H. destruct req as [r data | n | n data | n data]; cbn [handle] in *.
  - destruct (create_account_rows st r data) as [E | (body & b & _ & _ & _ & E)];
      [ | rewrite E in H; discriminate].
    split; [exact E | ].
    pose proof (create_account_cases st r data) as C.
    destruct data as [body | ]; [ | rewrite C in H; discriminate].
    cbn zeta in C.
    destruct (in_dec string_dec (str_of_int r) (account_numbers st)) as [Hin | Hout].
    + rewrite C, insert_taken in H by exact Hin. injection H as <-.
      split; [reflexivity | ]. split; [discriminate | exact Hin].
    + rewrite C, insert_fresh in H by exact Hout. discriminate.
  - unfold get_balance in H. destruct (query_first st n); discriminate.
  - destruct (P Deposit n data H) as (E & R). cbn [perform] in E.
    split; [rewrite E; reflexivity | ]. split; [exact E | exact R].
  - destruct (P Withdrawal n data H) as (E & R). cbn [perform] in E.
    split; [rewrite E; reflexivity | ]. split; [exact E | exact R].
Qed.

Lemma exceptions_of_the_handlers_witness :
  request_storable (CreateAccount 1234 (opening (NInt 7)))
  /\ snd (handle one_account (CreateAccount 1234 (opening (NInt 7))))
     = Unhandled IntegrityError
  /\ rows (fst (handle one_account (CreateAccount 1234 (opening (NInt 7)))))
     = rows one_account.
Proof.
  assert (S : request_storable (CreateAccount 1234 (opening (NInt 7)))) by reflexivity.
  assert (H : snd (handle one_account (CreateAccount 1234 (opening (NInt 7))))
              = Unhandled IntegrityError) by reflexivity.
  split; [exact S | ]. split; [exact H | ].
  exact (proj1 (exceptions_of_the_handlers one_account
                  (CreateAccount 1234 (opening (NInt 7))) IntegrityError S H)).
Defined.

Lemma list_ascii_of_string_app (s t : string) :
  list_ascii_of_string (s ++ t) = (list_ascii_of_string s ++ list_ascii_of_string t)%list.
Proof. induction s as [ | c s IH]; cbn; [reflexivity | rewrite IH; reflexivity]. Qed.

Lemma lstrip_head (c : ascii) (l : list ascii) :
  is_space c = false -> lstrip (c :: l) = c :: l.
Proof. intros H. cbn [lstrip]. rewrite H. reflexivity. Qed.

Lemma strip_between (c c' : ascii) (l : list ascii) :
  is_space c = false -> is_space c' = false ->
  strip (c :: l ++ [c']) = (c :: l ++ [c'])%list.
Proof.
  intros H H'. unfold strip. rewrite lstrip_head by exact H.
  change (c :: l ++ [c'])%list with ((c :: l) ++ [c'])%list.
  rewrite rev_app_distr. cbn [rev app]. rewrite lstrip_head by exact H'.
  change (c' :: rev l ++ [c])%list with ([c'] ++ (rev l ++ [c]))%list.
  rewrite rev_app_distr, rev_app_distr, rev_involutive. reflexivity.
Qed.

Lemma Decimal_of_bracketed (items : string) :
  Decimal_of_str ("[" ++ items ++ "]") = None
  /\ Decimal_of_str ("{" ++ items ++ "}") = None.
Proof.
  split; unfold Decimal_of_str; cbn [append list_ascii_of_string];
    rewrite list_ascii_of_string_app; cbn [list_ascii_of_string];
    rewrite strip_between by reflexivity; cbn [filter];
    match goal with
    | |- context [is_underscore ?c] =>
        change (is_underscore c) with false; cbn [negb]
    end;
    destruct (filter _ _); reflexivity.
Qed.

(** X16.  An amount that is [null], a boolean, an array or an object does not
    read as a number: the request is answered 400 with the message that the
    amount must be numeric, whatever the array or the object holds. *)
Theorem amounts_that_are_no_numbers (op : operation) (amount : json) :
  match amount with
  | JNull | JBool _ | JArray _ | JObject _ =>
      checked op amount = Return (validation_error op NotNumeric)
  | JNumber _ | JString _ => True
  end.
Proof.
  destruct amount as [ | [ | ] | k | s | items | items]; try exact I;
    apply checked_not_numeric; try reflexivity; apply Decimal_of_bracketed.
Qed.

Lemma checked_error_shape (op : operation) (amount : json) (r : response) :
  checked op amount = Return r ->
  status r = 400 /\ exists m, payload r = ErrorBody m.
Proof.
  intros H. destruct (checked_return op amount r H) as (k & _ & ->).
  split; [reflexivity | eexists; reflexivity].
Qed.

(** X17.  A body that carries an error never comes with a success status,
    and the other way round: a creation answers 201 with the account or 400
    with an error; [get_balance] answers 200 with the balance or 404 with an
    error; a deposit or a withdrawal answers 200 with the balance or 400 or
    404 with an error. *)
Theorem status_matches_body (st : store) (req : request) (r : response) :
  snd (handle st req) = Responded r ->
  match req, payload r with
  | CreateAccount _ _, AccountBody _ _ => status r = 201
  | CreateAccount _ _, ErrorBody _ => status r = 400
  | GetBalance _, BalanceBody _ => status r = 200
  | GetBalance _, ErrorBody _ => status r = 404
  | (PostDeposit _ _ | PostWithdraw _ _), BalanceBody _ => status r = 200
  | (PostDeposit _ _ | PostWithdraw _ _), ErrorBody _ => status r = 400 \/ status r = 404
  | _, _ => False
  end.
Proof.
  assert (P : forall op n data,
             snd (perform op st n data) = Responded r ->
             match payload r with
             | BalanceBody _ => status r = 200
             | ErrorBody _ => status r = 400 \/ status r = 404
             | AccountBody _ _ => False
             end).
  { intros op n data H.
    destruct (perform_cases op st n data)
      as [[_ E] | (a & Hq & [[_ E] | (amount & Ha & [(r' & Hc & E) | [(e' & Hc & E) | (d & x & _ & _ & _ & E)]])])];
      rewrite E in H; cbn [snd] in H; try discriminate.
    - injection H as <-. right. reflexivity.
    - injection H as <-. left. reflexivity.
    - injection H as <-. destruct (checked_error_shape op amount r' Hc) as (Hs & m & Hm).
      rewrite Hm. left. exact Hs.
    - destruct op.
      + injection H as <-. reflexivity.
      + destruct (flt (balance a) x); injection H as <-; [left | ]; reflexivity. }
  intros H. destruct req as [k data | n | n data | n data]; cbn [handle] in H.
  - pose proof (create_account_cases st k data) as C.
    destruct data as [body | ]; [ | rewrite C in H; injection H as <-; reflexivity].
    cbn zeta in C. rewrite C in H. unfold insert in H.
    destruct (existsb _ _); cbn in H; [discriminate | ]. injection H as <-. reflexivity.
  - unfold get_balance in H. destruct (query_first st n); injection H as <-; reflexivity.
  - apply (P Deposit n data H).
  - apply (P Withdrawal n data H).
Qed.

Lemma status_matches_body_witness :
  snd (handle one_account (PostWithdraw "1234" (amount_body (JString "5"))))
  = Responded insufficient_balance
  /\ (status insufficient_balance = 400 \/ status insufficient_balance = 404).
Proof.
  assert (H : snd (handle one_account (PostWithdraw "1234" (amount_body (JString "5"))))
              = Responded insufficient_balance) by reflexivity.
  split; [exact H | ].
  exact (status_matches_body one_account
           (PostWithdraw "1234" (amount_body (JString "5"))) insufficient_balance H).
Defined.

(** ** No overflow *)

Lemma Zdigits2_mono (a b : Z) : 0 < a -> a <= b -> Zdigits2 a <= Zdigits2 b.
Proof.
  intros Ha Hab. rewrite !Zdigits2_log2 by lia.
  pose proof (Z.log2_le_mono a b Hab). lia.
Qed.

Lemma canonical_fexp (m : positive) (e : Z) :
  bounded prec emax m e = true ->
  fexp prec emax (Zdigits2 (Zpos m) + e) = e /\ e <= emax - prec.
Proof.
  unfold bounded, canonical_mantissa. intros H. apply andb_prop in H as [H1 H2].
  apply Z.eqb_eq in H1. apply Z.leb_le in H2. split; assumption.
Qed.

(** A sum or a difference that is smaller in magnitude than a double rounds
    to a zero or to a finite number. *)
Lemma binary_normalize_below (S ez : Z) (mb : positive) (eb : Z) :
  bounded prec emax mb eb = true -> ez <= eb ->
  Z.abs S < Zpos mb * 2 ^ (eb - ez) ->
  isfinite (binary_normalize prec emax S ez false) = true.
Proof.
  intros Hb Hez HS.
  destruct (canonical_fexp mb eb Hb) as [Hc Hmax].
  assert (Hp : 0 < 2 ^ (eb - ez)) by (apply Z.pow_pos_nonneg; lia).
  assert (R : forall (s : bool) (p : positive),
             Zpos p < Zpos mb * 2 ^ (eb - ez) ->
             isfinite (binary_round prec emax s p ez) = true).
  { intros s p Hlt.
    assert (Hd : Zdigits2 (Zpos p) + ez <= Zdigits2 (Zpos mb) + eb).
    { pose proof (Zdigits2_mono (Zpos p) (Zpos mb * 2 ^ (eb - ez)) ltac:(lia) ltac:(lia)) as M.
      rewrite Zdigits2_shift in M by lia. lia. }
    assert (HF : fexp prec emax (Zdigits2 (Zpos p) + ez) <= eb).
    { rewrite fexp_eq in Hc |- *. lia. }
    pose proof (binary_round_rounded s p ez) as Hr.
    set (F := fexp prec emax (Zdigits2 (Zpos p) + ez)) in *.
    destruct (Z_lt_le_dec F (emax - prec)) as [Hsmall | Hbig].
    - destruct Hr as [-> | [[_ H] | (m & e & -> & _)]]; [reflexivity | lia | reflexivity].
    - assert (HF' : F = emax - prec) by lia.
      assert (Heb : eb = emax - prec) by lia.
      unfold binary_round. change (Zpos (digits2_pos p)) with (Zdigits2 (Zpos p)).
      fold F. unfold shl_align.
      destruct (F - ez) as [ | k | k] eqn:Hk; try (unfold emax, prec in *; lia).
      + (* no shift at all *)
        unfold binary_round_aux, shr_fexp. fold F. rewrite Hk.
        cbn [shr shr_record_of_loc shr_m loc_of_shr_record round_nearest_even fst snd].
        fold F. rewrite Hk. cbn [shr shr_record_of_loc shr_m].
        replace ez with F by lia. rewrite HF'.
        rewrite (proj2 (Z.leb_le (emax - prec) (emax - prec))) by lia. reflexivity.
      + unfold binary_round_aux, shr_fexp. fold F. rewrite Hk.
        destruct (shr_m_shr (shr_record_of_loc (Zpos p) loc_Exact) ez (Zpos k))
          as [Hm' He']; [cbn; lia | lia | ].
        destruct (shr (shr_record_of_loc (Zpos p) loc_Exact) ez (Zpos k)) as [mrs' e'].
        cbn [fst snd] in Hm', He'. cbn [shr_record_of_loc shr_m] in Hm'.
        assert (He : e' = F) by lia. clear He'. subst e'.
        assert (Hfloor : 0 <= shr_m mrs' < Zpos mb).
        { rewrite Hm'. split; [apply Z.div_pos; lia | ].
          apply Z.div_lt_upper_bound; [lia | ].
          replace (Zpos k) with (eb - ez) by lia. lia. }
        set (m1 := round_nearest_even (shr_m mrs') (loc_of_shr_record mrs')).
        assert (Hm1 : m1 = shr_m mrs' \/ m1 = shr_m mrs' + 1)
          by apply round_nearest_even_cases.
        clearbody m1.
        assert (Hmb : Zpos mb < 2 ^ 53).
        { unfold bounded in Hb. apply andb_prop in Hb as [Hb _].
          apply bounds_of_canonical in Hb as [Hb _]. exact Hb. }
        assert (Hr1 : 0 <= m1 < 2 ^ 53) by lia.
        destruct (Z.eq_dec m1 0) as [-> | Hnz].
        * cbn [Zdigits2]. rewrite fexp_eq.
          destruct (Z.max (0 + F - 53) (-1074) - F) as [ | q | q] eqn:Hq;
            try (unfold emax, prec in *; lia); reflexivity.
        * assert (Hd1 : Zdigits2 m1 <= 53) by (apply Zdigits2_le; lia).
          rewrite fexp_eq.
          destruct (Z.max (Zdigits2 m1 + F - 53) (-1074) - F) as [ | q | q] eqn:Hq;
            try (unfold emax, prec in *; lia);
            cbn [shr shr_record_of_loc shr_m];
            destruct m1 as [ | q1 | q1]; try lia;
            rewrite HF', (proj2 (Z.leb_le (emax - prec) (emax - prec))) by lia;
            reflexivity. }
  destruct S as [ | p | p]; cbn [binary_normalize]; [reflexivity | | ]; apply R; lia.
Qed.

Lemma iter_pos_nat {A} (f : A -> A) (p : positive) : forall x,
  iter_pos f p x = Nat.iter (Pos.to_nat p) f x.
Proof.
  induction p as [p IH | p IH | ]; intros x; cbn [iter_pos].
  - rewrite !IH, Pos2Nat.inj_xI, Nat.iter_succ_r.
    replace (2 * Pos.to_nat p)%nat with (Pos.to_nat p + Pos.to_nat p)%nat by lia.
    rewrite Nat.iter_add. reflexivity.
  - rewrite !IH, Pos2Nat.inj_xO.
    replace (2 * Pos.to_nat p)%nat with (Pos.to_nat p + Pos.to_nat p)%nat by lia.
    rewrite Nat.iter_add. reflexivity.
  - reflexivity.
Qed.

Lemma shr_1_r (mrs : shr_record) :
  0 <= shr_m mrs -> shr_r (shr_1 mrs) = Z.odd (shr_m mrs).
Proof.
  destruct mrs as [m r s]. cbn [shr_m]. intros H.
  destruct m as [ | [p | p | ] | p]; try lia; reflexivity.
Qed.

Lemma iter_shr_1_nat_m (n : nat) (mrs : shr_record) :
  0 <= shr_m mrs ->
  shr_m (Nat.iter n shr_1 mrs) = shr_m mrs / 2 ^ Z.of_nat n.
Proof.
  intros H. induction n as [ | n IH].
  - cbn. rewrite Z.div_1_r. reflexivity.
  - change (Nat.iter (S n) shr_1 mrs) with (shr_1 (Nat.iter n shr_1 mrs)).
    assert (H0 : 0 <= shr_m (Nat.iter n shr_1 mrs)).
    { rewrite IH. apply Z.div_pos; [exact H | apply Z.pow_pos_nonneg; lia]. }
    rewrite shr_1_m by exact H0. rewrite IH, Z.shiftr_div_pow2 by lia.
    rewrite Z.div_div by (try apply Z.pow_nonzero; lia).
    rewrite Nat2Z.inj_succ, Z.pow_succ_r by lia. f_equal. lia.
Qed.

(** The round bit after a shift is the last bit shifted out. *)
Lemma iter_shr_1_r (p : positive) (mrs : shr_record) :
  0 <= shr_m mrs ->
  shr_r (iter_pos shr_1 p mrs) = Z.testbit (shr_m mrs) (Zpos p - 1).
Proof.
  intros H. rewrite iter_pos_nat.
  destruct (Pos.to_nat p) as [ | n] eqn:Hn; [lia | ].
  change (Nat.iter (S n) shr_1 mrs) with (shr_1 (Nat.iter n shr_1 mrs)).
  assert (H0 : 0 <= shr_m (Nat.iter n shr_1 mrs)).
  { rewrite iter_shr_1_nat_m by exact H.
    apply Z.div_pos; [exact H | apply Z.pow_pos_nonneg; lia]. }
  rewrite shr_1_r by exact H0. rewrite iter_shr_1_nat_m by exact H.
  rewrite Z.testbit_odd, Z.shiftr_div_pow2 by lia.
  replace (Zpos p - 1) with (Z.of_nat n) by lia. reflexivity.
Qed.

(** What lies below half a unit in the last place is rounded away. *)
Lemma binary_round_aux_below_half (s : bool) (c E n r : Z) :
  2 ^ 52 <= c < 2 ^ 53 -> -1074 <= E <= emax - prec -> 0 < n ->
  0 <= r < 2 ^ (n - 1) ->
  binary_round_aux prec emax s (c * 2 ^ n + r) (E - n) loc_Exact
  = S754_finite s (Z.to_pos c) E.
Proof.
  intros Hc HE Hn Hr.
  assert (Hpos : 0 < c) by (change (2 ^ 52) with 4503599627370496 in Hc; lia).
  assert (Hd : Zdigits2 c = 53) by (apply Zdigits2_unique; [exact Hc | lia]).
  assert (Hp1 : 0 < 2 ^ (n - 1)) by (apply Z.pow_pos_nonneg; lia).
  assert (Hp : 2 ^ n = 2 * 2 ^ (n - 1)).
  { replace n with (Z.succ (n - 1)) at 1 by lia. apply Z.pow_succ_r. lia. }
  assert (HM : 0 < c * 2 ^ n + r) by nia.
  assert (HdM : Zdigits2 (c * 2 ^ n + r) = 53 + n).
  { apply Zdigits2_unique; [ | lia].
    replace (53 + n - 1) with (52 + n) by lia.
    rewrite !Z.pow_add_r by lia. nia. }
  unfold binary_round_aux, shr_fexp.
  rewrite HdM, fexp_eq.
  replace (Z.max (53 + n + (E - n) - 53) (-1074) - (E - n)) with n by lia.
  destruct n as [ | p | p]; try lia. cbn [shr shr_record_of_loc].
  assert (Hm : shr_m (iter_pos shr_1 p
                  {| shr_m := c * 2 ^ Zpos p + r; shr_r := false; shr_s := false |}) = c).
  { rewrite iter_shr_1_m by (cbn [shr_m]; lia). cbn [shr_m].
    rewrite Z.shiftr_div_pow2, Z.div_add_l by lia.
    rewrite (Z.div_small r) by lia. lia. }
  assert (Hrb : shr_r (iter_pos shr_1 p
                  {| shr_m := c * 2 ^ Zpos p + r; shr_r := false; shr_s := false |}) = false).
  { rewrite iter_shr_1_r by (cbn [shr_m]; lia). cbn [shr_m].
    apply Z.testbit_false; [lia | ].
    rewrite Hp. replace (c * (2 * 2 ^ (Zpos p - 1)) + r) with (2 * c * 2 ^ (Zpos p - 1) + r) by ring.
    rewrite Z.div_add_l, (Z.div_small r) by lia.
    rewrite Z.add_0_r, Z.mul_comm. apply Z.mod_mul. lia. }
  destruct (iter_pos shr_1 p _) as [m' r' s']. cbn [shr_m shr_r] in Hm, Hrb. subst m' r'.
  assert (Hround : round_nearest_even c
                     (loc_of_shr_record {| shr_m := c; shr_r := false; shr_s := s' |}) = c)
    by (destruct s'; reflexivity).
  cbn [shr_m]. rewrite Hround.
  replace (E - Zpos p + Zpos p) with E by lia.
  rewrite Hd, fexp_eq.
  replace (Z.max (53 + E - 53) (-1074) - E) with 0 by lia.
  cbn [shr shr_record_of_loc shr_m].
  destruct c as [ | q | q]; try lia.
  rewrite (proj2 (Z.leb_le E (emax - prec))) by lia. reflexivity.
Qed.

Lemma bounded_normal (m : positive) (e : Z) :
  bounded prec emax m e = true -> -1074 < e -> 2 ^ 52 <= Zpos m < 2 ^ 53.
Proof.
  unfold bounded. intros H He. apply andb_prop in H as [H _].
  apply bounds_of_canonical in H as (Hu & _ & Hl). split; [apply Hl; exact He | exact Hu].
Qed.

(** A large balance absorbs a small amount. *)
Lemma fadd_absorbs (mb mx : positive) (eb ex : Z) :
  bounded prec emax mb eb = true -> bounded prec emax mx ex = true ->
  ex + 54 <= eb ->
  fadd (S754_finite false mb eb) (S754_finite false mx ex) = S754_finite false mb eb.
Proof.
  intros Hb Hx Hgap.
  destruct (canonical_fexp mb eb Hb) as [_ Hmax].
  destruct (canonical_fexp mx ex Hx) as [Hcx _].
  assert (Hex : -1074 <= ex) by (rewrite fexp_eq in Hcx; lia).
  pose proof (bounded_normal mb eb Hb ltac:(lia)) as Hmb.
  assert (Hmx : Zpos mx < 2 ^ 53).
  { unfold bounded in Hx. apply andb_prop in Hx as [Hx _].
    apply bounds_of_canonical in Hx as [Hx _]. exact Hx. }
  unfold fadd. cbn [SFadd cond_Zopp].
  rewrite Z.min_r by lia.
  destruct (shl_align_value mb eb ex ltac:(lia)) as [_ ->].
  destruct (shl_align_value mx ex ex ltac:(lia)) as [_ ->].
  rewrite Z.sub_diag, Z.pow_0_r, Z.mul_1_r.
  assert (Hp : 0 < 2 ^ (eb - ex)) by (apply Z.pow_pos_nonneg; lia).
  assert (Hh : 2 ^ 53 <= 2 ^ (eb - ex - 1)) by (apply Z.pow_le_mono_r; lia).
  assert (HdM : Zdigits2 (Zpos mb * 2 ^ (eb - ex) + Zpos mx) = 53 + (eb - ex)).
  { apply Zdigits2_unique; [ | lia].
    replace (53 + (eb - ex) - 1) with (52 + (eb - ex)) by lia.
    rewrite !Z.pow_add_r by lia.
    assert (2 ^ (eb - ex) = 2 * 2 ^ (eb - ex - 1)).
    { replace (eb - ex) with (Z.succ (eb - ex - 1)) at 1 by lia. apply Z.pow_succ_r. lia. }
    nia. }
  assert (HMpos : 0 < Zpos mb * 2 ^ (eb - ex) + Zpos mx) by nia.
  destruct (Zpos mb * 2 ^ (eb - ex) + Zpos mx) as [ | p | p] eqn:HM; try lia.
  cbn [binary_normalize]. unfold binary_round.
  change (Zpos (digits2_pos p)) with (Zdigits2 (Zpos p)).
  rewrite HdM, fexp_eq.
  replace (Z.max (53 + (eb - ex) + ex - 53) (-1074)) with eb by lia.
  unfold shl_align. destruct (eb - ex) as [ | k | k] eqn:Hk; try lia.
  rewrite <- HM, <- Hk. replace ex with (eb - (eb - ex)) at 2 by lia.
  rewrite (binary_round_aux_below_half false (Zpos mb) eb (eb - ex) (Zpos mx)).
  - reflexivity.
  - exact Hmb.
  - unfold emax, prec in *. lia.
  - lia.
  - rewrite Hk. lia.
Qed.

Lemma mantissa_bound (m : positive) (e : Z) :
  bounded prec emax m e = true -> Zpos m < 2 ^ 53.
Proof.
  unfold bounded. intros H. apply andb_prop in H as [H _].
  apply bounds_of_canonical in H as [H _]. exact H.
Qed.

Lemma small_amount_cases (x : spec_float) :
  rounded_at false (-19) x ->
  x = S754_zero false
  \/ exists m e, x = S754_finite false m e /\ bounded prec emax m e = true /\ e <= -18.
Proof.
  intros [-> | [[_ H] | (m & e & -> & Hb & He)]];
    [left; reflexivity | unfold emax, prec in H; lia | right; exists m, e; repeat split; [exact Hb | lia]].
Qed.

Lemma fadd_finite (b x : spec_float) :
  is_double b -> isfinite b = true -> rounded_at false (-19) x ->
  isfinite (fadd b x) = true.
Proof.
  intros Hd Hf Hx.
  destruct (small_amount_cases x Hx) as [-> | (mx & ex & -> & Hbx & Hex)];
    destruct b as [s | s | | sb mb eb]; try discriminate Hf;
    try (destruct s; reflexivity); try reflexivity.
  assert (Hbb : bounded prec emax mb eb = true) by exact Hd.
  pose proof (mantissa_bound mb eb Hbb) as Hmb.
  pose proof (mantissa_bound mx ex Hbx) as Hmx.
  destruct sb.
  - (* a negative balance *)
    unfold fadd. cbn [SFadd cond_Zopp]. change IntDef.Z.min with Z.min.
    destruct (shl_align_value mb eb (Z.min eb ex) ltac:(lia)) as [_ ->].
    destruct (shl_align_value mx ex (Z.min eb ex) ltac:(lia)) as [_ ->].
    assert (Hpb : 0 < 2 ^ (eb - Z.min eb ex)) by (apply Z.pow_pos_nonneg; lia).
    assert (Hpx : 0 < 2 ^ (ex - Z.min eb ex)) by (apply Z.pow_pos_nonneg; lia).
    assert (HA : 0 < Zpos mb * 2 ^ (eb - Z.min eb ex)) by nia.
    assert (HB : 0 < Zpos mx * 2 ^ (ex - Z.min eb ex)) by nia.
    destruct (Z_le_gt_dec (Zpos mx * 2 ^ (ex - Z.min eb ex))
                          (Zpos mb * 2 ^ (eb - Z.min eb ex))) as [Hle | Hgt].
    + apply (binary_normalize_below _ _ mb eb Hbb); lia.
    + apply (binary_normalize_below _ _ mx ex Hbx); lia.
  - destruct (Z_le_gt_dec (ex + 54) eb) as [Hfar | Hnear].
    + rewrite fadd_absorbs by assumption. reflexivity.
    + unfold fadd. cbn [SFadd cond_Zopp]. change IntDef.Z.min with Z.min.
      destruct (shl_align_value mb eb (Z.min eb ex) ltac:(lia)) as [_ ->].
      destruct (shl_align_value mx ex (Z.min eb ex) ltac:(lia)) as [_ ->].
      set (ez := Z.min eb ex).
      assert (Hb37 : bounded prec emax 4503599627370496 37 = true) by reflexivity.
      apply (binary_normalize_below _ _ _ 37 Hb37); [lia | ].
      assert (Hpb : 0 < 2 ^ (eb - ez)) by (apply Z.pow_pos_nonneg; lia).
      assert (Hpx : 0 < 2 ^ (ex - ez)) by (apply Z.pow_pos_nonneg; lia).
      assert (H35 : 0 < 2 ^ (35 - ez)) by (apply Z.pow_pos_nonneg; lia).
      assert (Hb35 : 2 ^ (eb - ez) <= 2 ^ (35 - ez)) by (apply Z.pow_le_mono_r; lia).
      assert (Hx35 : 2 ^ (ex - ez) <= 2 ^ (35 - ez)) by (apply Z.pow_le_mono_r; lia).
      assert (H37 : 2 ^ (37 - ez) = 4 * 2 ^ (35 - ez)).
      { replace (37 - ez) with (2 + (35 - ez)) by lia. rewrite Z.pow_add_r by lia. reflexivity. }
      rewrite H37. change (2 ^ 53) with 9007199254740992 in Hmb, Hmx.
      rewrite Z.abs_eq by nia. nia.
Qed.

Lemma fsub_finite (b x : spec_float) :
  is_double b -> isfinite b = true -> rounded_at false (-19) x ->
  flt b x = false -> isfinite (fsub b x) = true.
Proof.
  intros Hd Hf Hx Hlt.
  destruct (small_amount_cases x Hx) as [-> | (mx & ex & -> & Hbx & Hex)];
    destruct b as [s | s | | sb mb eb]; try discriminate Hf;
    try (destruct s; reflexivity); try reflexivity; try discriminate Hlt.
  destruct sb; [discriminate Hlt | ].
  assert (Hbb : bounded prec emax mb eb = true) by exact Hd.
  pose proof (flt_false_ge mb mx eb ex Hbb Hbx Hlt) as Hge.
  unfold fsub. cbn [SFsub cond_Zopp]. change IntDef.Z.min with Z.min.
  destruct (shl_align_value mb eb (Z.min eb ex) ltac:(lia)) as [_ ->].
  destruct (shl_align_value mx ex (Z.min eb ex) ltac:(lia)) as [_ ->].
  assert (Hpx : 0 < 2 ^ (ex - Z.min eb ex)) by (apply Z.pow_pos_nonneg; lia).
  assert (HB : 0 < Zpos mx * 2 ^ (ex - Z.min eb ex)) by nia.
  apply (binary_normalize_below _ _ mb eb Hbb); lia.
Qed.

Lemma perform_finite (op : operation) (st : store) (n : string) (data : option object) :
  doubles_ok st -> balances_finite st ->
  balances_finite (fst (perform op st n data)).
Proof.
  intros Hd H. destruct (perform_store op st n data)
    as [-> | (a & x & Hq & Hx & [[_ ->] | (_ & Hlt & ->)])]; [exact H | | ];
    apply query_first_some in Hq as [Hin _];
    unfold doubles_ok, balances_finite in *;
    pose proof (proj1 (Forall_forall _ _) Hd a Hin) as Hda;
    pose proof (proj1 (Forall_forall _ _) H a Hin) as Hfa; cbn beta in Hda, Hfa.
  - apply (commit_balance_forall (fun f => isfinite f = true)); [exact H | ].
    apply fadd_finite; assumption.
  - apply (commit_balance_forall (fun f => isfinite f = true)); [exact H | ].
    apply fsub_finite; assumption.
Qed.

Lemma float_of_int_finite (z : Z) : Z.abs z < 2 ^ 1023 -> isfinite (float_of_int z) = true.
Proof.
  intros H. unfold float_of_int.
  assert (Hb : bounded prec emax 4503599627370496 971 = true) by reflexivity.
  apply (binary_normalize_below _ _ _ 971 Hb); [lia | ].
  rewrite Z.sub_0_r. change 4503599627370496 with (2 ^ 52).
  rewrite <- Z.pow_add_r by lia. exact H.
Qed.

Lemma handle_finite (st : store) (req : request) :
  doubles_ok st -> balances_finite st -> opens_finite req ->
  balances_finite (fst (handle st req)).
Proof.
  intros Hd H Hr. destruct req as [r data | n | n data | n data]; cbn [handle].
  - destruct (create_account_store st r data) as [-> | (body & -> & ->)]; [exact H | ].
    apply (insert_forall (fun f => isfinite f = true)); [exact H | ].
    destruct body as [[[z | f] | ]]; cbn [body_balance column_Float];
      [apply float_of_int_finite; exact Hr
      | destruct f; first [exact Hr | reflexivity] | reflexivity].
  - unfold get_balance. destruct (query_first st n); exact H.
  - apply (perform_finite Deposit); assumption.
  - apply (perform_finite Withdrawal); assumption.
Qed.

(** X18.  The arithmetic on balances never overflows: from a table whose
    balances are finite doubles, any sequence of requests leads to a table
    whose balances are finite doubles (no infinity, no NaN), as long as the
    initial balances given to creations are finite themselves. *)
Theorem balances_stay_finite (st : store) (reqs : list request) :
  doubles_ok st -> balances_finite st ->
  Forall request_ok reqs -> Forall opens_finite reqs ->
  doubles_ok (run st reqs) /\ balances_finite (run st reqs).
Proof.
  intros Hd Hf. induction reqs as [ | req reqs IH] using rev_ind; intros H1 H2.
  - split; assumption.
  - apply Forall_app in H1 as [H1 H1']. apply Forall_app in H2 as [H2 H2'].
    inversion H1'; subst. inversion H2'; subst.
    destruct (IH H1 H2) as [Hd' Hf']. rewrite run_snoc. split.
    + apply handle_doubles_ok; assumption.
    + apply handle_finite; assumption.
Qed.

Lemma balances_stay_finite_witness :
  let reqs := [CreateAccount 2345 (opening (NInt 99999999));
               PostDeposit "1234" (amount_body (JString "99999999"));
               PostWithdraw "2345" (amount_body (JString "0.01"))] in
  doubles_ok one_account /\ balances_finite one_account
  /\ Forall request_ok reqs /\ Forall opens_finite reqs
  /\ balances_finite (run one_account reqs).
Proof.
  cbn zeta.
  set (reqs := [CreateAccount 2345 (opening (NInt 99999999));
                PostDeposit "1234" (amount_body (JString "99999999"));
                PostWithdraw "2345" (amount_body (JString "0.01"))]).
  assert (H1 : doubles_ok one_account) by (repeat constructor).
  assert (H2 : balances_finite one_account) by (repeat constructor).
  assert (H3 : Forall request_ok reqs) by (repeat constructor).
  assert (H4 : Forall opens_finite reqs) by (repeat constructor).
  split; [exact H1 | ]. split; [exact H2 | ]. split; [exact H3 | ]. split; [exact H4 | ].
  exact (proj2 (balances_stay_finite one_account reqs H1 H2 H3 H4)).
Defined.

(** X19.  A balance of at least [2 ^ 88] absorbs every deposit: the deposit
    of an accepted amount is answered 200 and the balance answered and
    stored is the balance as it was. *)
Theorem large_balance_absorbs_deposit (st : store) (n : string) (data : option object)
        (a : Account) (amount : json) (d : Decimal) (mb : positive) (eb : Z) :
  query_first st n = Some a -> amount_of data = Next amount ->
  checked Deposit amount = Next d ->
  balance a = S754_finite false mb eb -> bounded prec emax mb eb = true -> 36 <= eb ->
  deposit st n data
  = (commit_balance st a (balance a),
     Responded (jsonify (BalanceBody (balance a)) 200)).
Proof.
  intros Hq Ha Hc Hb Hbb He.
  destruct (accepted_amount Deposit amount d Hc) as (x & Hx & Hr).
  rewrite (deposit_accepted st n data a amount d x Hq Ha Hc Hx).
  assert (E : fadd (balance a) x = balance a).
  { rewrite Hb.
    destruct (small_amount_cases x Hr) as [-> | (mx & ex & -> & Hbx & Hex)];
      [reflexivity | ].
    apply fadd_absorbs; [exact Hbb | exact Hbx | lia]. }
  rewrite E. reflexivity.
Qed.

Lemma large_balance_absorbs_deposit_witness :
  let st := fst (create_account initial_store 1234
                   (opening (NFloat (S754_finite false 4503599627370496 36)))) in
  bounded prec emax 4503599627370496 36 = true
  /\ checked Deposit (JString "99999999") = Next (DFinite false 99999999 0)
  /\ snd (deposit st "1234" (amount_body (JString "99999999")))
     = Responded (jsonify (BalanceBody (S754_finite false 4503599627370496 36)) 200).
Proof.
  cbn zeta.
  assert (H : bounded prec emax 4503599627370496 36 = true) by reflexivity.
  split; [exact H | ]. split; [reflexivity | ].
  exact (f_equal snd
           (large_balance_absorbs_deposit
              (fst (create_account initial_store 1234
                      (opening (NFloat (S754_finite false 4503599627370496 36)))))
              "1234" (amount_body (JString "99999999"))
              {| id := 1; account_number := "1234";
                 balance := S754_finite false 4503599627370496 36 |}
              (JString "99999999") (DFinite false 99999999 0) 4503599627370496 36
              eq_refl eq_refl eq_refl eq_refl H (Z.le_refl 36))).
Defined.

(** ** Requests on different accounts *)

Lemma find_map_fixed {A} (p : A -> bool) (f : A -> A) (l : list A) :
  (forall r, In r l -> p (f r) = p r) ->
  (forall r, In r l -> p r = true -> f r = r) ->
  find p (map f l) = find p l.
Proof.
  induction l as [ | r l IH]; intros Hp Hf; [reflexivity | ]. cbn [find map].
  rewrite (Hp r (or_introl eq_refl)).
  destruct (p r) eqn:Hr.
  - rewrite (Hf r (or_introl eq_refl) Hr). reflexivity.
  - apply IH; intros x Hx; [apply Hp | apply Hf]; right; exact Hx.
Qed.

(** Rewriting the balance of one account leaves the others to be found as
    they were. *)
Lemma commit_balance_query_other (st : store) (a : Account) (b : spec_float) (n : string) :
  NoDup (map id (rows st)) -> In a (rows st) -> n <> account_number a ->
  query_first (commit_balance st a b) n = query_first st n.
Proof.
  intros Hn Hin Hne. unfold query_first. cbn [commit_balance rows].
  apply find_map_fixed.
  - intros r _. destruct (id r =? id a); reflexivity.
  - intros r Hr Hp. apply String.eqb_eq in Hp.
    destruct (Z.eqb_spec (id r) (id a)) as [He | _]; [ | reflexivity].
    exfalso. apply Hne. rewrite <- Hp.
    rewrite (NoDup_map_eq id (rows st) r a Hn Hr Hin He). reflexivity.
Qed.

Lemma commit_balance_comm (st : store) (a a' : Account) (b b' : spec_float) :
  id a <> id a' ->
  commit_balance (commit_balance st a b) a' b'
  = commit_balance (commit_balance st a' b') a b.
Proof.
  intros Hne. unfold commit_balance. cbn [rows next_id]. f_equal.
  rewrite !map_map. apply map_ext. intros r.
  destruct (id r =? id a) eqn:Ea; destruct (id r =? id a') eqn:Ea';
    cbn [with_balance id]; rewrite ?Ea, ?Ea'; try reflexivity.
  exfalso. apply Hne. apply Z.eqb_eq in Ea, Ea'. rewrite <- Ea, <- Ea'. reflexivity.
Qed.

(** What a deposit or a withdrawal does depends on the table only through
    the row of the account: it answers without writing, or rewrites the
    balance of that row. *)
Lemma perform_on (op : operation) (n : string) (data : option object) (a : Account) :
  (exists o, forall st, query_first st n = Some a -> perform op st n data = (st, o))
  \/ (exists b, forall st, query_first st n = Some a ->
        perform op st n data
        = (commit_balance st a b, Responded (jsonify (BalanceBody b) 200))).
Proof.
  destruct (amount_of data) as [amount | r | e] eqn:Ha.
  - destruct (checked op amount) as [d | r | e] eqn:Hc.
    + destruct (float_of_Decimal (R := response) d) as [x | r | e] eqn:Hx.
      * destruct op.
        -- right. exists (fadd (balance a) x). intros st Hq.
           apply (deposit_accepted st n data a amount d x Hq Ha Hc Hx).
        -- destruct (flt (balance a) x) eqn:Hlt.
           ++ left. eexists. intros st Hq. cbn [perform].
              rewrite (withdraw_accepted st n data a amount d x Hq Ha Hc Hx), Hlt.
              reflexivity.
           ++ right. exists (fsub (balance a) x). intros st Hq. cbn [perform].
              rewrite (withdraw_accepted st n data a amount d x Hq Ha Hc Hx), Hlt.
              reflexivity.
      * left. eexists. intros st Hq.
        destruct op; cbn [perform]; unfold deposit, withdraw;
          rewrite Hq, Ha; cbn [bind]; rewrite Hc; cbn [bind]; rewrite Hx; reflexivity.
      * left. eexists. intros st Hq.
        destruct op; cbn [perform]; unfold deposit, withdraw;
          rewrite Hq, Ha; cbn [bind]; rewrite Hc; cbn [bind]; rewrite Hx; reflexivity.
    + left. eexists. intros st Hq. apply (perform_rejected op st n data a amount r Hq Ha Hc).
    + left. eexists. intros st Hq. apply (perform_raised op st n data a amount e Hq Ha Hc).
  - left. eexists. intros st Hq.
    destruct op; cbn [perform]; unfold deposit, withdraw; rewrite Hq, Ha; reflexivity.
  - left. eexists. intros st Hq.
    destruct op; cbn [perform]; unfold deposit, withdraw; rewrite Hq, Ha; reflexivity.
Qed.

Lemma perform_numbers (op : operation) (st : store) (n : string) (data : option object) :
  account_numbers (fst (perform op st n data)) = account_numbers st.
Proof.
  destruct (perform_store op st n data)
    as [-> | (a & x & _ & _ & [[_ ->] | (_ & _ & ->)])];
    [reflexivity | apply commit_balance_numbers | apply commit_balance_numbers].
Qed.

(** X20.  Deposits and withdrawals on two different accounts do not
    interfere: made in either order they give the same answers and leave the
    same table. *)
Theorem requests_on_different_accounts_commute (st : store) (op1 op2 : operation)
        (n1 n2 : string) (data1 data2 : option object) :
  keys_ok st -> n1 <> n2 ->
  let r1 := perform op1 st n1 data1 in
  let r12 := perform op2 (fst r1) n2 data2 in
  let r2 := perform op2 st n2 data2 in
  let r21 := perform op1 (fst r2) n1 data1 in
  fst r12 = fst r21 /\ snd r1 = snd r21 /\ snd r2 = snd r12.
Proof.
  intros (Hn & _ & _) Hne. cbn zeta.
  destruct (query_first st n1) as [a1 | ] eqn:Hq1.
  2:{ assert (Hq1' : query_first (fst (perform op2 st n2 data2)) n1 = None).
      { apply query_first_none. rewrite perform_numbers. apply query_first_none. exact Hq1. }
      rewrite (perform_absent op1 st n1 data1 Hq1).
      rewrite (perform_absent op1 _ n1 data1 Hq1'). cbn [fst snd].
      repeat split; reflexivity. }
  destruct (query_first st n2) as [a2 | ] eqn:Hq2.
  2:{ assert (Hq2' : query_first (fst (perform op1 st n1 data1)) n2 = None).
      { apply query_first_none. rewrite perform_numbers. apply query_first_none. exact Hq2. }
      rewrite (perform_absent op2 st n2 data2 Hq2).
      rewrite (perform_absent op2 _ n2 data2 Hq2'). cbn [fst snd].
      repeat split; reflexivity. }
  pose proof (query_first_some st n1 a1 Hq1) as [Hin1 Hn1].
  pose proof (query_first_some st n2 a2 Hq2) as [Hin2 Hn2].
  assert (Hid : id a1 <> id a2).
  { intros He. apply Hne. rewrite <- Hn1, <- Hn2.
    rewrite (NoDup_map_eq id (rows st) a1 a2 Hn Hin1 Hin2 He). reflexivity. }
  assert (Q2 : forall b, query_first (commit_balance st a1 b) n2 = Some a2).
  { intros b. rewrite commit_balance_query_other; [exact Hq2 | exact Hn | exact Hin1 | ].
    rewrite Hn1. intros E. apply Hne. symmetry. exact E. }
  assert (Q1 : forall b, query_first (commit_balance st a2 b) n1 = Some a1).
  { intros b. rewrite commit_balance_query_other; [exact Hq1 | exact Hn | exact Hin2 | ].
    rewrite Hn2. exact Hne. }
  destruct (perform_on op1 n1 data1 a1) as [(o1 & P1) | (b1 & P1)];
    destruct (perform_on op2 n2 data2 a2) as [(o2 & P2) | (b2 & P2)].
  - rewrite (P1 st Hq1). cbn [fst snd]. rewrite (P2 st Hq2). cbn [fst snd].
    rewrite (P1 st Hq1). repeat split; reflexivity.
  - rewrite (P1 st Hq1). cbn [fst snd]. rewrite (P2 st Hq2). cbn [fst snd].
    rewrite (P1 _ (Q1 b2)). repeat split; reflexivity.
  - rewrite (P1 st Hq1). cbn [fst snd]. rewrite (P2 _ (Q2 b1)). cbn [fst snd].
    rewrite (P2 st Hq2). cbn [fst snd]. rewrite (P1 st Hq1). repeat split; reflexivity.
  - rewrite (P1 st Hq1). cbn [fst snd]. rewrite (P2 _ (Q2 b1)). cbn [fst snd].
    rewrite (P2 st Hq2). cbn [fst snd]. rewrite (P1 _ (Q1 b2)). cbn [fst snd].
    repeat split; try reflexivity. apply commit_balance_comm. exact Hid.
Qed.

Lemma requests_on_different_accounts_commute_witness :
  let st := fst (create_account one_account 2345 (opening (NInt 100))) in
  keys_ok st
  /\ fst (perform Withdrawal
            (fst (perform Deposit st "1234" (amount_body (JString "50.00"))))
            "2345" (amount_body (JNumber (NInt 30))))
     = fst (perform Deposit
              (fst (perform Withdrawal st "2345" (amount_body (JNumber (NInt 30)))))
              "1234" (amount_body (JString "50.00"))).
Proof.
  cbn zeta.
  assert (K : keys_ok (fst (create_account one_account 2345 (opening (NInt 100))))).
  { split; [ | split]; repeat constructor; cbn; try lia;
      try (intros [H | []]; discriminate H); intros []. }
  assert (N : "1234" <> "2345") by discriminate.
  split; [exact K | ].
  exact (proj1 (requests_on_different_accounts_commute
                  (fst (create_account one_account 2345 (opening (NInt 100))))
                  Deposit Withdrawal "1234" "2345"
                  (amount_body (JString "50.00")) (amount_body (JNumber (NInt 30)))
                  K N)).
Defined.
